(** * A products CRUD service: models and endpoints

    Shallow embedding of [app/models/products.py] and
    [app/endpoints/products.py].

    - JSON payloads and ORM attributes are dynamically typed Python values
      ([pyval]); a Python [dict] is an insertion-ordered association list.
    - Raising code returns a [result]; the exception classes the handlers
      tell apart are the constructors of [exn].
    - The process-wide database session is an explicit [Db] value threaded
      through every operation.  A request that raises leaves the database
      as it was: nothing is committed, and the session is discarded when
      the request ends.
    - What depends on the configured engine (foreign-key enforcement, the
      key given to a new row) is a parameter of the operations. *)

From Stdlib Require Import ZArith QArith String List Bool Lia.
From stdpp Require Import base option list gmap strings.

Local Open Scope string_scope.
Local Open Scope list_scope.

(** ** Python values *)

(** A finite [float] is modelled by the rational it denotes (NaN and the
    infinities are left out); a [str] by a [string] with one character per
    code point; a [datetime] by its timestamp. *)
#[warnings="-register-all"]
Inductive pyval : Type :=
| PNone
| PBool (b : bool)
| PInt (z : Z)
| PFloat (q : Q)
| PStr (s : string)
| PDateTime (t : Z)
| PList (l : list pyval)
| PDict (d : list (string * pyval)).

(** Which of [InvalidPayload]'s messages was raised. *)
Inductive invalid_payload : Type :=
| UnknownBrand (brand_name : pyval)
| UnknownCategory (name : pyval)
| BrandRequired
| CategoriesRequired.

(** The exceptions that can reach an endpoint's [except] clauses.
    [ValueError] carries the bracketed field of the validator's message.
    The last six are raised by the database layer: [IntegrityError] by a
    constraint, [DataError] by a key that is no integer, [OverflowError] by
    an [int] the driver cannot bind, [InterfaceError] by a list or a dict
    bound as a parameter, [StaleDataError] by join rows that are to be
    deleted and are not there, [StatementError] by a [DateTime] parameter
    that is no [datetime]. *)
Inductive exn : Type :=
| NoResultFound
| InvalidPayload (why : invalid_payload)
| ValueError (field : string)
| TypeError
| AttributeError
| IntegrityError
| DataError
| OverflowError
| InterfaceError
| StaleDataError
| StatementError.

Inductive result (A : Type) : Type :=
| Ok (a : A)
| Raise (e : exn).
Arguments Ok {A} a.
Arguments Raise {A} e.

#[global] Instance result_ret : MRet result := fun _ a => Ok a.
#[global] Instance result_bind : MBind result := fun _ _ f m =>
  match m with
  | Ok a => f a
  | Raise e => Raise e
  end.

Definition is_ok {A} (r : result A) : bool :=
  match r with Ok _ => true | Raise _ => false end.

(** [bool(v)]. *)
Definition truthy (v : pyval) : bool :=
  match v with
  | PNone => false
  | PBool b => b
  | PInt z => negb (z =? 0)%Z
  | PFloat q => negb (Qnum q =? 0)%Z
  | PStr s => match s with EmptyString => false | _ => true end
  | PDateTime _ => true
  | PList l => match l with [] => false | _ => true end
  | PDict d => match d with [] => false | _ => true end
  end.

(** [len(v)]: defined on sized values, [TypeError] otherwise. *)
Definition len (v : pyval) : result Z :=
  match v with
  | PStr s => Ok (Z.of_nat (String.length s))
  | PList l => Ok (Z.of_nat (length l))
  | PDict d => Ok (Z.of_nat (length d))
  | _ => Raise TypeError
  end.

(** The number a numeric value denotes ([bool] is a subclass of [int]). *)
Definition number (v : pyval) : option Q :=
  match v with
  | PBool b => Some (inject_Z (if b then 1 else 0))
  | PInt z => Some (inject_Z z)
  | PFloat q => Some q
  | _ => None
  end.

(** [v < 0]: ordering against an [int] is a [TypeError] off the numbers. *)
Definition lt_zero (v : pyval) : result bool :=
  match number v with
  | Some q => Ok (negb (Qle_bool 0 q))
  | None => Raise TypeError
  end.

(** [for x in v]. *)
Definition iter (v : pyval) : result (list pyval) :=
  match v with
  | PList l => Ok l
  | PStr s => Ok (map (fun c => PStr (String c EmptyString)) (list_ascii_of_string s))
  | PDict d => Ok (map (fun kv => PStr (fst kv)) d)
  | _ => Raise TypeError
  end.

(** Lists and dicts cannot be dict keys. *)
Definition hashable (v : pyval) : bool :=
  match v with
  | PList _ | PDict _ => false
  | _ => true
  end.

(** [a == b] on hashable values; numbers compare by value across types. *)
Definition py_eq (a b : pyval) : bool :=
  match a, b with
  | PNone, PNone => true
  | PStr s, PStr s' => String.eqb s s'
  | PDateTime t, PDateTime t' => (t =? t')%Z
  | _, _ =>
      match number a, number b with
      | Some q, Some q' => Qeq_bool q q'
      | _, _ => false
      end
  end.

(** ** Dicts with string keys *)

Definition dict (V : Type) : Type := list (string * V).

(** [d.get(k)]. *)
Fixpoint dict_get {V} (k : string) (d : dict V) : option V :=
  match d with
  | [] => None
  | (k', v) :: d' => if String.eqb k' k then Some v else dict_get k d'
  end.

(** [d[k] = v]: an existing key keeps its position, a new one goes last. *)
Fixpoint dict_set {V} (k : string) (v : V) (d : dict V) : dict V :=
  match d with
  | [] => [(k, v)]
  | (k', v') :: d' =>
      if String.eqb k' k then (k', v) :: d' else (k', v') :: dict_set k v d'
  end.

(** ** Brand and Category *)

Module Brand.
Record t : Type := mk { id : Z; name : string; country_code : string }.

Definition serialized (self : t) : pyval :=
  PDict [("id", PInt (id self));
         ("name", PStr (name self));
         ("country_code", PStr (country_code self))].
End Brand.

Module Category.
Record t : Type := mk { id : Z; name : string }.

Definition serialized (self : t) : pyval :=
  PDict [("id", PInt (id self)); ("name", PStr (name self))].
End Category.

(** ** Product *)

Module Product.

(** The attributes of a [Product] instance: the nine table columns, in
    the order of the class body, and the [categories] relationship.  An
    attribute that was never assigned reads as [None]. *)
Record t : Type := mk {
  id : pyval;
  name : pyval;
  rating : pyval;
  featured : pyval;
  created_at : pyval;
  expiration_date : pyval;
  brand_id : pyval;
  categories : list Category.t;
  items_in_stock : pyval;
  receipt_date : pyval
}.

(** The keys of [cls.__table__.columns]. *)
Definition columns : list string :=
  ["id"; "name"; "rating"; "featured"; "created_at"; "expiration_date";
   "brand_id"; "items_in_stock"; "receipt_date"].

Definition is_column (k : string) : bool := existsb (String.eqb k) columns.

(** What is behind [db]: the tables, and the integers the engine's driver
    can bind as a statement parameter (on SQLite the signed 64-bit ones).
    [products] is keyed by its primary key; the join table is folded into
    each row's [categories]. *)
Record Db : Type := mkDb {
  products : gmap Z t;
  brands : list Brand.t;
  categories_table : list Category.t;
  binds : Z -> bool
}.

Definition with_products (m : gmap Z t) (db : Db) : Db :=
  {| products := m; brands := brands db;
     categories_table := categories_table db; binds := binds db |}.

(** *** Validators *)

Definition validate_name (name : pyval) : result pyval :=
  name_len ← len name;
  if ((name_len <? 0)%Z || (50 <? name_len)%Z)%bool
  then Raise (ValueError "name")
  else Ok name.

Definition validate_featured (featured : pyval) : result pyval :=
  match featured with
  | PBool _ => Ok featured
  | _ => Raise (ValueError "featured")
  end.

Definition validate_rating (rating : pyval) : result pyval :=
  negative ← lt_zero rating;
  if negative : bool then Raise (ValueError "rating") else Ok rating.

Definition validate_items_in_stock (items_in_stock : pyval) : result pyval :=
  negative ← lt_zero items_in_stock;
  if negative : bool then Raise (ValueError "items_in_stock")
  else Ok items_in_stock.

(** *** Attribute assignment *)

(** A value of the dict built by [prepare_values]: a column value, or the
    list of [Category] instances bound to ['categories']. *)
Inductive attr : Type :=
| Col (v : pyval)
| Rel (cs : list Category.t).

Definition attr_truthy (a : attr) : bool :=
  match a with
  | Col v => truthy v
  | Rel cs => match cs with [] => false | _ => true end
  end.

Definition blank : t :=
  {| id := PNone; name := PNone; rating := PNone; featured := PNone;
     created_at := PNone; expiration_date := PNone; brand_id := PNone;
     categories := []; items_in_stock := PNone; receipt_date := PNone |}.

Definition set_id (v : pyval) (o : t) : t :=
  {| id := v; name := name o; rating := rating o; featured := featured o;
     created_at := created_at o; expiration_date := expiration_date o;
     brand_id := brand_id o; categories := categories o;
     items_in_stock := items_in_stock o; receipt_date := receipt_date o |}.
Definition set_name (v : pyval) (o : t) : t :=
  {| id := id o; name := v; rating := rating o; featured := featured o;
     created_at := created_at o; expiration_date := expiration_date o;
     brand_id := brand_id o; categories := categories o;
     items_in_stock := items_in_stock o; receipt_date := receipt_date o |}.
Definition set_rating (v : pyval) (o : t) : t :=
  {| id := id o; name := name o; rating := v; featured := featured o;
     created_at := created_at o; expiration_date := expiration_date o;
     brand_id := brand_id o; categories := categories o;
     items_in_stock := items_in_stock o; receipt_date := receipt_date o |}.
Definition set_featured (v : pyval) (o : t) : t :=
  {| id := id o; name := name o; rating := rating o; featured := v;
     created_at := created_at o; expiration_date := expiration_date o;
     brand_id := brand_id o; categories := categories o;
     items_in_stock := items_in_stock o; receipt_date := receipt_date o |}.
Definition set_created_at (v : pyval) (o : t) : t :=
  {| id := id o; name := name o; rating := rating o; featured := featured o;
     created_at := v; expiration_date := expiration_date o;
     brand_id := brand_id o; categories := categories o;
     items_in_stock := items_in_stock o; receipt_date := receipt_date o |}.
Definition set_expiration_date (v : pyval) (o : t) : t :=
  {| id := id o; name := name o; rating := rating o; featured := featured o;
     created_at := created_at o; expiration_date := v;
     brand_id := brand_id o; categories := categories o;
     items_in_stock := items_in_stock o; receipt_date := receipt_date o |}.
Definition set_brand_id (v : pyval) (o : t) : t :=
  {| id := id o; name := name o; rating := rating o; featured := featured o;
     created_at := created_at o; expiration_date := expiration_date o;
     brand_id := v; categories := categories o;
     items_in_stock := items_in_stock o; receipt_date := receipt_date o |}.
Definition set_categories (cs : list Category.t) (o : t) : t :=
  {| id := id o; name := name o; rating := rating o; featured := featured o;
     created_at := created_at o; expiration_date := expiration_date o;
     brand_id := brand_id o; categories := cs;
     items_in_stock := items_in_stock o; receipt_date := receipt_date o |}.
Definition set_items_in_stock (v : pyval) (o : t) : t :=
  {| id := id o; name := name o; rating := rating o; featured := featured o;
     created_at := created_at o; expiration_date := expiration_date o;
     brand_id := brand_id o; categories := categories o;
     items_in_stock := v; receipt_date := receipt_date o |}.
Definition set_receipt_date (v : pyval) (o : t) : t :=
  {| id := id o; name := name o; rating := rating o; featured := featured o;
     created_at := created_at o; expiration_date := expiration_date o;
     brand_id := brand_id o; categories := categories o;
     items_in_stock := items_in_stock o; receipt_date := v |}.

(** [setattr(obj, k, v)]: the [@validates] hook of the attribute, if it
    has one, runs first and its result is what gets stored.  The dict
    that reaches this function binds ['categories'] to a [Rel] and every
    other key, a column, to a [Col]. *)
Definition setattr (obj : t) (k : string) (v : attr) : result t :=
  match v with
  | Rel cs =>
      if String.eqb k "categories" then Ok (set_categories cs obj) else Ok obj
  | Col v =>
      if String.eqb k "name" then
        v' ← validate_name v; Ok (set_name v' obj)
      else if String.eqb k "featured" then
        v' ← validate_featured v; Ok (set_featured v' obj)
      else if String.eqb k "rating" then
        v' ← validate_rating v; Ok (set_rating v' obj)
      else if String.eqb k "items_in_stock" then
        v' ← validate_items_in_stock v; Ok (set_items_in_stock v' obj)
      else if String.eqb k "id" then Ok (set_id v obj)
      else if String.eqb k "created_at" then Ok (set_created_at v obj)
      else if String.eqb k "expiration_date" then Ok (set_expiration_date v obj)
      else if String.eqb k "brand_id" then Ok (set_brand_id v obj)
      else if String.eqb k "receipt_date" then Ok (set_receipt_date v obj)
      else Ok obj
  end.

(** [for k, v in values.items(): setattr(obj, k, v)]. *)
Fixpoint setattrs (obj : t) (values : dict attr) : result t :=
  match values with
  | [] => Ok obj
  | (k, v) :: rest => obj' ← setattr obj k v; setattrs obj' rest
  end.

(** *** Serialization *)

(** The [brand] backref: the Brand row whose key is [brand_id]. *)
Definition brand (db : Db) (self : t) : option Brand.t :=
  match brand_id self with
  | PInt b => List.find (fun x => (Brand.id x =? b)%Z) (brands db)
  | _ => None
  end.

(** [self.brand.serialized] is an [AttributeError] when [self.brand] is
    [None]; no other entry of the dict display can raise. *)
Definition serialized (db : Db) (self : t) : result pyval :=
  match brand db self with
  | None => Raise AttributeError
  | Some b =>
      Ok (PDict [("id", id self);
                 ("name", name self);
                 ("rating", rating self);
                 ("featured", featured self);
                 ("items_in_stock", items_in_stock self);
                 ("receipt_date", receipt_date self);
                 ("brand", Brand.serialized b);
                 ("categories", PList (map Category.serialized (categories self)));
                 ("expiration_date", expiration_date self);
                 ("created_at", created_at self)])
  end.

(** *** Payload resolution *)

(** [query(Brand).filter_by(name=brand_name).first()] for a [str]: the
    first row of that very name.  How a value that is not a [str] compares
    with a name is left to the engine (SQLite compares it as text); it is
    taken here to equal no stored name, and the statements about a named
    brand are about strings. *)
Definition first_brand (db : Db) (brand_name : pyval) : option Brand.t :=
  match brand_name with
  | PStr s => List.find (fun b => String.eqb (Brand.name b) s) (brands db)
  | _ => None
  end.

(** [query(Category).filter_by(name=name).first()], likewise. *)
Definition first_category (db : Db) (name : pyval) : option Category.t :=
  match name with
  | PStr s => List.find (fun c => String.eqb (Category.name c) s) (categories_table db)
  | _ => None
  end.

(** [d[name] = c] in the dict keyed by the names themselves. *)
Fixpoint by_name_set (name : pyval) (c : option Category.t)
    (d : list (pyval * option Category.t)) : list (pyval * option Category.t) :=
  match d with
  | [] => [(name, c)]
  | (name', c') :: d' =>
      if py_eq name' name then (name', c) :: d'
      else (name', c') :: by_name_set name c d'
  end.

(** [{name: query(Category).filter_by(name=name).first() for name in names}],
    continued from the entries [acc]; an unhashable key is a
    [TypeError]. *)
Fixpoint by_name (db : Db) (names : list pyval)
    (acc : list (pyval * option Category.t))
    : result (list (pyval * option Category.t)) :=
  match names with
  | [] => Ok acc
  | name :: rest =>
      if hashable name
      then by_name db rest (by_name_set name (first_category db name) acc)
      else Raise TypeError
  end.

(** The loop raising on the first name without a category, followed by
    [[category for _, category in categories.items()]]. *)
Fixpoint resolved (categories : list (pyval * option Category.t))
    : result (list Category.t) :=
  match categories with
  | [] => Ok []
  | (name, None) :: _ => Raise (InvalidPayload (UnknownCategory name))
  | (_, Some category) :: rest => cs ← resolved rest; Ok (category :: cs)
  end.

Definition prepare_values (db : Db) (payload : pyval) : result (dict attr) :=
  match payload with
  | PDict items =>
      let values :=
        map (fun kv => (fst kv, Col (snd kv)))
            (List.filter (fun kv => is_column (fst kv)) items) in
      let brand_name := default PNone (dict_get "brand" items) in
      values ←
        (if truthy brand_name then
           match first_brand db brand_name with
           | None => Raise (InvalidPayload (UnknownBrand brand_name))
           | Some brand =>
               Ok (dict_set "brand_id" (Col (PInt (Brand.id brand))) values)
           end
         else Ok values);
      names ← iter (default (PList []) (dict_get "categories" items));
      categories ← by_name db names [];
      cs ← resolved categories;
      match categories with
      | [] => Ok values
      | _ => Ok (dict_set "categories" (Rel cs) values)
      end
  | _ => Raise AttributeError
  end.

(** *** The database engine

    What the configured engine decides is not in these two modules and
    is a parameter: whether foreign keys are enforced, and which key an
    insert without an [id] is given. *)
Section Engine.
Variable foreign_keys : bool.
Variable autoincrement : gmap Z t -> Z.

Definition not_null (v : pyval) : bool :=
  match v with PNone => false | _ => true end.

(** The [ForeignKey('brands.id')] constraint. *)
Definition references_brand (db : Db) (v : pyval) : bool :=
  match v with
  | PInt b => existsb (fun x => (Brand.id x =? b)%Z) (brands db)
  | _ => false
  end.

(** Binding [v] as a statement parameter: an [int] has to be one the
    driver binds, and a list or a dict has no adaptation. *)
Definition bind (db : Db) (v : pyval) : result unit :=
  match v with
  | PInt z => if binds db z then Ok () else Raise OverflowError
  | PList _ | PDict _ => Raise InterfaceError
  | _ => Ok ()
  end.

(** Binding [v] as the parameter of a [DateTime] column: the SQLite type
    takes a [datetime] (or nothing) and refuses anything else, so also
    the string a JSON body would hold. *)
Definition bind_datetime (v : pyval) : result unit :=
  match v with
  | PNone | PDateTime _ => Ok ()
  | _ => Raise StatementError
  end.

(** What a [Float] column gives back for the number it was given: the
    number as a float.  The float is taken to hold the number exactly,
    as it does every integer up to [2 ^ 53]; the rounding of larger
    ones is not modelled. *)
Definition to_float (v : pyval) : pyval :=
  match number v with
  | Some q => PFloat q
  | None => v
  end.

(** The same row of the categories table. *)
Definition same_category (c c' : Category.t) : bool :=
  (Category.id c =? Category.id c')%Z.

(** The members of [cs] that are not in [cs']. *)
Definition without (cs cs' : list Category.t) : list Category.t :=
  List.filter (fun c => negb (existsb (same_category c) cs')) cs.

(** The statement's parameters are bound, column by column; then the
    [nullable=False] columns are checked, and the foreign key when it is
    [enforced] for this statement.  Of the engine's conversions only
    that of [rating] to a float is modelled ([to_float], applied by
    [insert] and [flush]): a value is taken to be of its column's type,
    and what the engine makes of any other (an integer written as a
    float or as text) is not modelled. *)
Definition check_row (enforced : bool) (db : Db) (row : t) : result unit :=
  _ ← bind db (id row);
  _ ← bind db (name row);
  _ ← bind db (rating row);
  _ ← bind db (featured row);
  _ ← bind_datetime (created_at row);
  _ ← bind_datetime (expiration_date row);
  _ ← bind db (brand_id row);
  _ ← bind db (items_in_stock row);
  _ ← bind_datetime (receipt_date row);
  if negb (not_null (name row) && not_null (rating row)
           && not_null (featured row) && not_null (created_at row)
           && not_null (brand_id row) && not_null (items_in_stock row))
  then Raise IntegrityError
  else if enforced && negb (references_brand db (brand_id row))
  then Raise IntegrityError
  else Ok ().

(** [db.session.add(obj); db.session.commit()]: the INSERT.  A column
    left at [None] takes its [default]; [id] left at [None] takes the
    engine's next key; the primary key is an integer and is unique. *)
Definition insert (utcnow : Z) (db : Db) (obj : t) : result (Db * t) :=
  let obj :=
    if not_null (featured obj) then obj else set_featured (PBool false) obj in
  let obj :=
    if not_null (created_at obj) then obj
    else set_created_at (PDateTime utcnow) obj in
  pk ← match id obj with
       | PNone => Ok (autoincrement (products db))
       | PInt z => Ok z
       | _ => Raise DataError
       end;
  match products db !! pk with
  | Some _ => Raise IntegrityError
  | None =>
      let row := set_rating (to_float (rating obj)) (set_id (PInt pk) obj) in
      _ ← check_row foreign_keys db row;
      Ok (with_products (<[pk := row]> (products db)) db, row)
  end.

(** The categories the row of key [pk] has in the join table. *)
Definition joined (db : Db) (pk : Z) : list Category.t :=
  match products db !! pk with
  | Some row => categories row
  | None => []
  end.

(** The same integer key. *)
Definition same_key (v v' : pyval) : bool :=
  match v, v' with
  | PInt z, PInt z' => (z =? z')%Z
  | _, _ => false
  end.

(** Whether [obj] has another [brand_id] than the row stored under [pk]:
    the UPDATE sets the columns that changed only, and the engine checks
    the foreign key of a row whose [brand_id] it sets. *)
Definition brand_changed (db : Db) (pk : Z) (obj : t) : bool :=
  match products db !! pk with
  | Some old => negb (same_key (brand_id old) (brand_id obj))
  | None => true
  end.

(** [db.session.commit()] with the row of key [pk] modified to [obj]:
    the UPDATE.  When [id] was reassigned the row moves to the new key,
    which has to be free; its join rows stay behind under the old key
    (the relationship leaves a key change to the database): with foreign
    keys enforced they make the UPDATE fail, without, the moved row has
    the categories this update added, and a category it removed is not
    found under the new key.  The join rows left behind belong to no
    product, and [Db] does not keep them. *)
Definition flush (db : Db) (pk : Z) (obj : t) : result (Db * t) :=
  pk' ← match id obj with
        | PNone => Raise IntegrityError
        | PInt z => Ok z
        | _ => Raise DataError
        end;
  let obj := set_rating (to_float (rating obj)) obj in
  if negb (pk' =? pk)%Z && bool_decide (is_Some (products db !! pk'))
  then Raise IntegrityError
  else
    _ ← check_row (foreign_keys && brand_changed db pk obj) db obj;
    if (pk' =? pk)%Z
    then Ok (with_products (<[pk' := obj]> (delete pk (products db))) db, obj)
    else
      match joined db pk with
      | _ :: _ =>
          if foreign_keys then Raise IntegrityError
          else
            match without (joined db pk) (categories obj) with
            | _ :: _ => Raise StaleDataError
            | [] =>
                let row :=
                  set_categories (without (categories obj) (joined db pk)) obj in
                Ok (with_products (<[pk' := row]> (delete pk (products db))) db,
                    row)
            end
      | [] =>
          Ok (with_products (<[pk' := obj]> (delete pk (products db))) db, obj)
      end.

(** *** Operations *)

(** [query(Product).get(id)]: the row, [None] when there is no such row,
    and an [OverflowError] when the driver cannot bind [id].  A key under
    which a row is stored is one the driver has bound ([check_row]), so
    the order of the two tests makes no difference. *)
Definition get (db : Db) (id : Z) : result (option t) :=
  match products db !! id with
  | Some obj => Ok (Some obj)
  | None => if binds db id then Ok None else Raise OverflowError
  end.

(** With no row, [setattr(None, k, v)] is an [AttributeError], and with
    nothing to assign the method returns [None]. *)
Definition update (db : Db) (id : Z) (payload : pyval)
    : Db * result (option t) :=
  match prepare_values db payload with
  | Raise e => (db, Raise e)
  | Ok values =>
      match get db id with
      | Raise e => (db, Raise e)
      | Ok None =>
          match values with
          | [] => (db, Ok None)
          | _ :: _ => (db, Raise AttributeError)
          end
      | Ok (Some obj) =>
          match setattrs obj values with
          | Raise e => (db, Raise e)
          | Ok obj' =>
              match flush db id obj' with
              | Raise e => (db, Raise e)
              | Ok (db', row) => (db', Ok (Some row))
              end
          end
      end
  end.

Definition delete (db : Db) (id : Z) : Db * result unit :=
  match get db id with
  | Raise e => (db, Raise e)
  | Ok (Some obj) => (with_products (base.delete id (products db)) db, Ok ())
  | Ok None => (db, Ok ())
  end.

(** [filter_by(id=id).one()]; [id] is the primary key, so at most one
    row matches. *)
Definition retrieve (db : Db) (id : Z) : result t :=
  match get db id with
  | Raise e => Raise e
  | Ok (Some obj) => Ok obj
  | Ok None => Raise NoResultFound
  end.

Definition create (utcnow : Z) (db : Db) (payload : pyval) : Db * result t :=
  match prepare_values db payload with
  | Raise e => (db, Raise e)
  | Ok values =>
      if negb (attr_truthy (default (Col PNone) (dict_get "brand_id" values)))
      then (db, Raise (InvalidPayload BrandRequired))
      else if negb (attr_truthy (default (Rel []) (dict_get "categories" values)))
      then (db, Raise (InvalidPayload CategoriesRequired))
      else
        match setattrs blank values with
        | Raise e => (db, Raise e)
        | Ok obj =>
            match insert utcnow db obj with
            | Raise e => (db, Raise e)
            | Ok (db', row) => (db', Ok row)
            end
        end
  end.

End Engine.

End Product.

(** ** Endpoints *)

Module Endpoints.

(** The two messages an [InvalidUsage] is built with. *)
Inductive message : Type :=
| NotFound (id : Z)
| AnErrorAccrued (e : exn).

(** What a view returns or raises: a JSON body with its status, the
    empty 204 of [jsonify_no_content], an [InvalidUsage] (rendered by
    [handle_invalid_usage] with its own [status_code]), an exception
    no handler catches, or the [BadRequest] that [request.json] raises
    on a body that does not parse. *)
Inductive response : Type :=
| Jsonify (body : pyval) (status : Z)
| NoContent
| InvalidUsage (msg : message) (status_code : Z)
| Unhandled (e : exn)
| BadRequest.

Definition status_code (r : response) : Z :=
  match r with
  | Jsonify _ status => status
  | NoContent => 204
  | InvalidUsage _ status_code => status_code
  | Unhandled _ => 500
  | BadRequest => 400
  end.

Section Engine.
Variable foreign_keys : bool.
Variable autoincrement : gmap Z Product.t -> Z.

(** [[p.serialized for p in Product.query.all()]]. *)
Fixpoint serialized_all (db : Product.Db) (ps : list Product.t)
    : result (list pyval) :=
  match ps with
  | [] => Ok []
  | p :: rest =>
      s ← Product.serialized db p;
      ss ← serialized_all db rest;
      Ok (s :: ss)
  end.

Definition get_products (db : Product.Db) : Product.Db * response :=
  match serialized_all db (map snd (map_to_list (Product.products db))) with
  | Ok results => (db, Jsonify (PDict [("results", PList results)]) 200)
  | Raise e => (db, Unhandled e)
  end.

(** [payload] is what [request.json] parsed; the views read it before
    they enter their [try], so a body that does not parse never reaches
    [Product.create] or [Product.update] ([malformed] below). *)
Definition create_product (utcnow : Z) (db : Product.Db) (payload : pyval)
    : Product.Db * response :=
  match Product.create foreign_keys autoincrement utcnow db payload with
  | (db', Ok product) =>
      match Product.serialized db' product with
      | Ok body => (db', Jsonify body 201)
      | Raise e => (db', InvalidUsage (AnErrorAccrued e) 410)
      end
  | (db', Raise e) => (db', InvalidUsage (AnErrorAccrued e) 410)
  end.

(** [product] is [None] when [Product.update] found no row and had
    nothing to assign: [product.serialized] is an [AttributeError]. *)
Definition update_product (db : Product.Db) (id : Z) (payload : pyval)
    : Product.Db * response :=
  match Product.update foreign_keys db id payload with
  | (db', Ok (Some product)) =>
      match Product.serialized db' product with
      | Ok body => (db', Jsonify body 200)
      | Raise NoResultFound => (db', InvalidUsage (NotFound id) 404)
      | Raise e => (db', InvalidUsage (AnErrorAccrued e) 410)
      end
  | (db', Ok None) => (db', InvalidUsage (AnErrorAccrued AttributeError) 410)
  | (db', Raise NoResultFound) => (db', InvalidUsage (NotFound id) 404)
  | (db', Raise e) => (db', InvalidUsage (AnErrorAccrued e) 410)
  end.

Definition get_product (db : Product.Db) (id : Z) : Product.Db * response :=
  match Product.retrieve db id with
  | Ok product =>
      match Product.serialized db product with
      | Ok body => (db, Jsonify body 200)
      | Raise NoResultFound => (db, InvalidUsage (NotFound id) 404)
      | Raise e => (db, InvalidUsage (AnErrorAccrued e) 410)
      end
  | Raise NoResultFound => (db, InvalidUsage (NotFound id) 404)
  | Raise e => (db, InvalidUsage (AnErrorAccrued e) 410)
  end.

Definition delete_product (db : Product.Db) (id : Z) : Product.Db * response :=
  match Product.delete db id with
  | (db', Ok _) => (db', NoContent)
  | (db', Raise e) => (db', InvalidUsage (AnErrorAccrued e) 410)
  end.

(** [create_product] and [update_product] on a body that does not parse:
    [request.json] raises outside the [try]. *)
Definition malformed (db : Product.Db) : Product.Db * response :=
  (db, BadRequest).

End Engine.

End Endpoints.

(** * Properties *)

(** ** Fixtures *)

(** The integers SQLite binds. *)
Definition int64 (z : Z) : bool :=
  ((- 2 ^ 63 <=? z) && negb (2 ^ 63 <=? z))%Z.

(** One brand, two categories, no product, on an engine of 64-bit
    integers. *)
Definition shop : Product.Db :=
  {| Product.products := ∅;
     Product.brands := [Brand.mk 1 "Acme" "US"];
     Product.categories_table := [Category.mk 1 "tools"; Category.mk 2 "toys"];
     Product.binds := int64 |}.

(** An engine numbering rows from the size of the table. *)
Definition by_size (m : gmap Z Product.t) : Z := Z.of_nat (size m) + 1.

Definition hammer : Product.t :=
  {| Product.id := PInt 1; Product.name := PStr "hammer";
     Product.rating := PFloat 4; Product.featured := PBool false;
     Product.created_at := PDateTime 100; Product.expiration_date := PNone;
     Product.brand_id := PInt 1; Product.categories := [Category.mk 1 "tools"];
     Product.items_in_stock := PInt 3; Product.receipt_date := PNone |}.

(** The payload [hammer] is created from. *)
Definition hammer_payload : pyval :=
  PDict [("name", PStr "hammer"); ("rating", PInt 4); ("items_in_stock", PInt 3);
         ("brand", PStr "Acme"); ("categories", PList [PStr "tools"])].

(** A payload with an empty brand name and the key of a brand. *)
Definition unnamed_brand_payload : pyval :=
  PDict [("name", PStr "hammer"); ("rating", PInt 4); ("items_in_stock", PInt 3);
         ("brand", PStr ""); ("brand_id", PInt 1);
         ("categories", PList [PStr "tools"])].

(** A payload naming its brand by key only. *)
Definition keyed_brand_payload (brand_id : Z) : pyval :=
  PDict [("name", PStr "hammer"); ("rating", PInt 4); ("items_in_stock", PInt 3);
         ("brand_id", PInt brand_id); ("categories", PList [PStr "tools"])].

(** [shop] once [hammer] is stored. *)
Definition stocked : Product.Db :=
  Product.with_products {[ 1%Z := hammer ]} shop.

(** ** Vocabulary of the statements *)

(** The name length the data model asks for. *)
Definition data_model_name_length (s : string) : Prop :=
  (1 <= String.length s <= 50)%nat.

(** [body[k]] of a serialized form. *)
Definition field (k : string) (body : pyval) : option pyval :=
  match body with
  | PDict d => dict_get k d
  | _ => None
  end.

(** A number that is at least zero. *)
Definition non_negative (v : pyval) : Prop :=
  exists q, number v = Some q /\ (0 <= q)%Q.

(** Every stored product has a non-negative rating and stock. *)
Definition never_negative (db : Product.Db) : Prop :=
  forall pk p, Product.products db !! pk = Some p ->
    non_negative (Product.rating p) /\ non_negative (Product.items_in_stock p).

(** What a numeric column of an instance under construction holds. *)
Definition unset_or_non_negative (v : pyval) : Prop :=
  v = PNone \/ non_negative v.

(** A names dict whose keys are strings, each bound to its lookup. *)
Definition looked_up (db : Product.Db) (d : list (pyval * option Category.t)) : Prop :=
  Forall (fun kc => exists s, fst kc = PStr s
                     /\ snd kc = Product.first_category db (PStr s)) d.

(** An entry of [values] copied from the payload: a column and its value. *)
Definition column_entry (kv : string * Product.attr) : Prop :=
  Product.is_column (fst kv) = true /\ exists v, snd kv = Product.Col v.

(** The dict comprehension at the head of [prepare_values]. *)
Definition copied (items : list (string * pyval)) : dict Product.attr :=
  map (fun kv => (fst kv, Product.Col (snd kv)))
      (List.filter (fun kv => Product.is_column (fst kv)) items).

(** The exceptions of the database layer. *)
Definition engine_error (e : exn) : Prop :=
  e = IntegrityError \/ e = DataError \/ e = OverflowError
  \/ e = InterfaceError \/ e = StaleDataError \/ e = StatementError.

(** A value of the type its column declares: a string for [name], a
    boolean for [featured], an integer for [items_in_stock] and
    [brand_id], and for the Float [rating] a float or an integer that a
    float holds exactly. *)
Definition column_typed (k : string) (v : pyval) : Prop :=
  (k = "name" /\ exists s, v = PStr s)
  \/ (k = "featured" /\ exists b, v = PBool b)
  \/ (k = "rating"
      /\ ((exists z, v = PInt z /\ (Z.abs z <= 2 ^ 53)%Z)
          \/ exists q, v = PFloat q))
  \/ ((k = "items_in_stock" \/ k = "brand_id") /\ exists z, v = PInt z).

(** What a row holds in column [k] once [v] has been written to it: the
    Float column hands a number back as a float. *)
Definition stored (k : string) (v : pyval) : pyval :=
  if String.eqb k "rating" then Product.to_float v else v.

(** [getattr(obj, k)] for a column [k]. *)
Definition getattr (obj : Product.t) (k : string) : pyval :=
  if String.eqb k "id" then Product.id obj
  else if String.eqb k "name" then Product.name obj
  else if String.eqb k "rating" then Product.rating obj
  else if String.eqb k "featured" then Product.featured obj
  else if String.eqb k "created_at" then Product.created_at obj
  else if String.eqb k "expiration_date" then Product.expiration_date obj
  else if String.eqb k "brand_id" then Product.brand_id obj
  else if String.eqb k "items_in_stock" then Product.items_in_stock obj
  else if String.eqb k "receipt_date" then Product.receipt_date obj
  else PNone.

(** Every row is stored under the key its [id] column holds. *)
Definition keyed (db : Product.Db) : Prop :=
  forall pk p, Product.products db !! pk = Some p -> Product.id p = PInt pk.

(** Every row's [brand_id] is the key of a stored Brand. *)
Definition brands_resolve (db : Product.Db) : Prop :=
  forall pk p, Product.products db !! pk = Some p -> Product.brand db p <> None.

(** The statuses of a request that went through. *)
Definition succeeded (r : Endpoints.response) : Prop :=
  Endpoints.status_code r = 200%Z \/ Endpoints.status_code r = 201%Z
  \/ Endpoints.status_code r = 204%Z.

(** The payload is refused on creation and on update of any id: the model
    raises, the view answers 410 and the database stays as it was. *)
Definition refused (foreign_keys : bool) (autoincrement : gmap Z Product.t -> Z)
    (utcnow : Z) (db : Product.Db) (payload : pyval) : Prop :=
  (exists e,
     Product.create foreign_keys autoincrement utcnow db payload = (db, Raise e)
     /\ Endpoints.create_product foreign_keys autoincrement utcnow db payload
        = (db, Endpoints.InvalidUsage (Endpoints.AnErrorAccrued e) 410))
  /\ (forall id, exists e,
        Product.update foreign_keys db id payload = (db, Raise e)
        /\ Endpoints.update_product foreign_keys db id payload
           = (db, Endpoints.InvalidUsage (Endpoints.AnErrorAccrued e) 410)).

(** A request to the blueprint; [POST] carries the clock reading used for
    [created_at], and the parsed body when the body parses. *)
Inductive request : Type :=
| GET_products
| POST_products (utcnow : Z) (payload : pyval)
| PUT_product (id : Z) (payload : pyval)
| GET_product (id : Z)
| DELETE_product (id : Z)
| POST_malformed
| PUT_malformed (id : Z).

Definition handle (foreign_keys : bool) (autoincrement : gmap Z Product.t -> Z)
    (db : Product.Db) (r : request) : Product.Db * Endpoints.response :=
  match r with
  | GET_products => Endpoints.get_products db
  | POST_products utcnow payload =>
      Endpoints.create_product foreign_keys autoincrement utcnow db payload
  | PUT_product id payload => Endpoints.update_product foreign_keys db id payload
  | GET_product id => Endpoints.get_product db id
  | DELETE_product id => Endpoints.delete_product db id
  | POST_malformed | PUT_malformed _ => Endpoints.malformed db
  end.

(** The databases the service can be in, starting without products. *)
Inductive reachable (foreign_keys : bool) (autoincrement : gmap Z Product.t -> Z)
    : Product.Db -> Prop :=
| reachable_init db :
    Product.products db = ∅ -> reachable foreign_keys autoincrement db
| reachable_step db r :
    reachable foreign_keys autoincrement db ->
    reachable foreign_keys autoincrement
      (fst (handle foreign_keys autoincrement db r)).

(** ** The error monad *)

Lemma bind_Ok {A B} (m : result A) (f : A -> result B) (b : B) :
  (m ≫= f) = Ok b -> exists a, m = Ok a /\ f a = Ok b.
Proof. destruct m as [a|e]; simpl; [eauto | discriminate]. Qed.

Lemma Ok_bind {A B} (a : A) (f : A -> result B) : (Ok a ≫= f) = f a.
Proof. reflexivity. Qed.

Lemma bind_Raise {A B} (m : result A) (f : A -> result B) (e : exn) :
  (m ≫= f) = Raise e -> m = Raise e \/ exists a, m = Ok a /\ f a = Raise e.
Proof. destruct m as [a|e']; simpl; [eauto | intros [= ->]; auto]. Qed.

(** ** Validators *)

(** C3: on a string, [validate_name] accepts exactly the names of at most
    50 characters and raises [ValueError] on the others; the lower bound
    never fires, so the empty name, which the data model's 1 to 50 range
    excludes, is accepted. *)
Theorem validate_name_upper_bound_only (s : string) :
  (Product.validate_name (PStr s) = Ok (PStr s) <-> (String.length s <= 50)%nat)
  /\ (Product.validate_name (PStr s) = Raise (ValueError "name")
      <-> (50 < String.length s)%nat)
  /\ Product.validate_name (PStr "") = Ok (PStr "")
  /\ ~ data_model_name_length "".
Proof.
  unfold Product.validate_name; simpl.
  assert (Hlow : (Z.of_nat (String.length s) <? 0)%Z = false)
    by (apply Z.ltb_ge; lia).
  rewrite Hlow; simpl.
  destruct (50 <? Z.of_nat (String.length s))%Z eqn:Hup.
  - apply Z.ltb_lt in Hup.
    repeat split; try (intros; first [discriminate | lia | reflexivity]).
    unfold data_model_name_length; simpl; lia.
  - apply Z.ltb_ge in Hup.
    repeat split; try (intros; first [discriminate | lia | reflexivity]).
    unfold data_model_name_length; simpl; lia.
Qed.

(** ** Dicts *)

Lemma dict_get_app {V} (k : string) (d d' : dict V) :
  dict_get k (d ++ d') =
  match dict_get k d with Some v => Some v | None => dict_get k d' end.
Proof.
  induction d as [|[k' v] d IH]; simpl; [reflexivity|].
  destruct (String.eqb k' k); [reflexivity | exact IH].
Qed.

Lemma dict_set_absent {V} (k : string) (v : V) (d : dict V) :
  dict_get k d = None -> dict_set k v d = d ++ [(k, v)].
Proof.
  induction d as [|[k' v'] d IH]; simpl; [reflexivity|].
  destruct (String.eqb k' k); [discriminate|]. intros H. rewrite IH; auto.
Qed.

Lemma dict_get_set_eq {V} (k : string) (v : V) (d : dict V) :
  dict_get k (dict_set k v d) = Some v.
Proof.
  induction d as [|[k' v'] d IH]; simpl.
  - rewrite String.eqb_refl. reflexivity.
  - destruct (String.eqb k' k) eqn:E; simpl; rewrite E; [reflexivity | exact IH].
Qed.

Lemma dict_get_set_ne {V} (k k0 : string) (v : V) (d : dict V) :
  k <> k0 -> dict_get k0 (dict_set k v d) = dict_get k0 d.
Proof.
  intros Hne. induction d as [|[k' v'] d IH]; simpl.
  - destruct (String.eqb_spec k k0); [contradiction | reflexivity].
  - destruct (String.eqb_spec k' k) as [->|]; simpl.
    + destruct (String.eqb_spec k k0); [contradiction | reflexivity].
    + destruct (String.eqb k' k0); [reflexivity | exact IH].
Qed.

Lemma copied_get (k : string) (items : list (string * pyval)) :
  Product.is_column k = true ->
  dict_get k (copied items) = Product.Col <$> dict_get k items.
Proof.
  intros Hk. unfold copied.
  induction items as [|[k' v] items IH]; simpl; [reflexivity|].
  destruct (String.eqb_spec k' k) as [->|Hne].
  - rewrite Hk; simpl. rewrite String.eqb_refl. reflexivity.
  - destruct (Product.is_column k'); simpl; [|exact IH].
    destruct (String.eqb_spec k' k); [contradiction | exact IH].
Qed.

Lemma copied_column_entries (items : list (string * pyval)) :
  Forall column_entry (copied items).
Proof.
  unfold copied.
  induction items as [|[k v] items IH]; simpl; [constructor|].
  destruct (Product.is_column k) eqn:Hk; simpl; [|exact IH].
  constructor; [|exact IH]. split; simpl; eauto.
Qed.

Lemma dict_set_column_entries (k : string) (v : pyval) (d : dict Product.attr) :
  Product.is_column k = true ->
  Forall column_entry d -> Forall column_entry (dict_set k (Product.Col v) d).
Proof.
  intros Hk. induction 1 as [|[k' a] d Hkv Hd IH]; simpl.
  - repeat constructor; simpl; eauto.
  - destruct (String.eqb_spec k' k) as [->|].
    + constructor; [split; simpl; eauto | exact Hd].
    + constructor; assumption.
Qed.

(** ['categories'] is a relationship, not a column. *)
Lemma column_entries_no_categories (d : dict Product.attr) :
  Forall column_entry d -> dict_get "categories" d = None.
Proof.
  induction 1 as [|[k a] d [Hk _] Hd IH]; simpl; [reflexivity|].
  destruct (String.eqb_spec k "categories") as [->|]; [discriminate | exact IH].
Qed.

(** ** Payload resolution *)

(** How [prepare_values] builds its result. *)
Lemma prepare_values_Ok db items values :
  Product.prepare_values db (PDict items) = Ok values ->
  let brand_name := default PNone (dict_get "brand" items) in
  exists cols names cats cs,
    ((truthy brand_name = false /\ cols = copied items)
     \/ (truthy brand_name = true /\ exists b,
           Product.first_brand db brand_name = Some b
           /\ cols = dict_set "brand_id" (Product.Col (PInt (Brand.id b)))
                       (copied items)))
    /\ iter (default (PList []) (dict_get "categories" items)) = Ok names
    /\ Product.by_name db names [] = Ok cats
    /\ Product.resolved cats = Ok cs
    /\ ((cats = [] /\ values = cols)
        \/ (cats <> [] /\ values = cols ++ [("categories", Product.Rel cs)]))
    /\ Forall column_entry cols.
Proof.
  intros H brand_name. simpl in H. fold (copied items) in H.
  fold brand_name in H.
  apply bind_Ok in H as (cols & Hcols & H).
  apply bind_Ok in H as (names & Hnames & H).
  apply bind_Ok in H as (cats & Hcats & H).
  apply bind_Ok in H as (cs & Hcs & H).
  assert (Hstage :
    ((truthy brand_name = false /\ cols = copied items)
     \/ (truthy brand_name = true /\ exists b,
           Product.first_brand db brand_name = Some b
           /\ cols = dict_set "brand_id" (Product.Col (PInt (Brand.id b)))
                       (copied items)))).
  { destruct (truthy brand_name); [|left; split; congruence].
    destruct (Product.first_brand db brand_name) as [b|]; [|discriminate].
    right. split; [reflexivity|]. exists b. split; congruence. }
  assert (Hentries : Forall column_entry cols).
  { destruct Hstage as [[_ ->] | [_ (b & _ & ->)]].
    - apply copied_column_entries.
    - apply dict_set_column_entries; [reflexivity | apply copied_column_entries]. }
  exists cols, names, cats, cs.
  repeat split; try assumption.
  destruct cats as [|c cats].
  - left. split; congruence.
  - right. split; [discriminate|].
    injection H as <-.
    apply dict_set_absent, column_entries_no_categories, Hentries.
Qed.

Lemma by_name_Raise db names acc e :
  Product.by_name db names acc = Raise e -> e = TypeError.
Proof.
  revert acc; induction names as [|n names IH]; intros acc; simpl.
  - discriminate.
  - destruct (hashable n); [apply IH | congruence].
Qed.

Lemma resolved_Raise categories e :
  Product.resolved categories = Raise e ->
  exists name, e = InvalidPayload (UnknownCategory name).
Proof.
  induction categories as [|[n [c|]] rest IH]; simpl; try discriminate.
  - intros H. apply bind_Raise in H as [H | (cs & _ & H)]; [auto | discriminate].
  - intros [= <-]. eauto.
Qed.

(** The exceptions [prepare_values] can raise. *)
Lemma prepare_values_Raise db payload e :
  Product.prepare_values db payload = Raise e ->
  e = AttributeError \/ e = TypeError
  \/ (exists name, e = InvalidPayload (UnknownBrand name))
  \/ (exists name, e = InvalidPayload (UnknownCategory name)).
Proof.
  destruct payload; try (intros [= <-]; auto); simpl.
  intros H.
  apply bind_Raise in H as [H | (values & _ & H)].
  { destruct (truthy _); [|discriminate].
    destruct (Product.first_brand _ _); [discriminate|].
    injection H as <-. eauto. }
  apply bind_Raise in H as [H | (names & _ & H)].
  { right; left. destruct (default _ _); simpl in H; congruence. }
  apply bind_Raise in H as [H | (cats & _ & H)].
  { right; left. exact (by_name_Raise _ _ _ _ H). }
  apply bind_Raise in H as [H | (cs & _ & H)].
  { right; right; right. exact (resolved_Raise _ _ H). }
  destruct cats; discriminate.
Qed.

(** ** Attribute assignment *)

Lemma lt_zero_false v : lt_zero v = Ok false -> non_negative v.
Proof.
  unfold lt_zero, non_negative.
  destruct (number v) as [q|]; [|discriminate].
  intros [= H]. exists q. split; [reflexivity|].
  apply Qle_bool_iff. destruct (Qle_bool 0 q); [reflexivity | discriminate].
Qed.

Lemma validate_rating_Ok v v' :
  Product.validate_rating v = Ok v' -> v' = v /\ non_negative v.
Proof.
  unfold Product.validate_rating. intros H.
  apply bind_Ok in H as ([|] & Hlt & H); [discriminate|].
  injection H as <-. split; [reflexivity | exact (lt_zero_false _ Hlt)].
Qed.

Lemma validate_items_in_stock_Ok v v' :
  Product.validate_items_in_stock v = Ok v' -> v' = v /\ non_negative v.
Proof.
  unfold Product.validate_items_in_stock. intros H.
  apply bind_Ok in H as ([|] & Hlt & H); [discriminate|].
  injection H as <-. split; [reflexivity | exact (lt_zero_false _ Hlt)].
Qed.

(** Case analysis on the attribute [setattr] assigns in hypothesis [H]. *)
Ltac setattr_cases H :=
  unfold Product.setattr in H;
  repeat match type of H with
  | context [match ?a with Product.Col _ => _ | Product.Rel _ => _ end] =>
      destruct a
  | context [String.eqb ?k ?c] =>
      destruct (String.eqb_spec k c); [subst k|]
  end.

(** Opens [v' ← validate v; Ok (set v' obj) = Ok obj']. *)
Ltac validated H :=
  first
    [ injection H as <-
    | let v' := fresh "v'" in
      let Hv := fresh "Hv" in
      apply bind_Ok in H as (v' & Hv & H); injection H as <- ].

Lemma setattr_Col_categories obj k v obj' :
  Product.setattr obj k (Product.Col v) = Ok obj' ->
  Product.categories obj' = Product.categories obj.
Proof. intros H. setattr_cases H; validated H; reflexivity. Qed.

Lemma setattr_brand_id_other obj k a obj' :
  k <> "brand_id" ->
  Product.setattr obj k a = Ok obj' ->
  Product.brand_id obj' = Product.brand_id obj.
Proof.
  intros Hk H. setattr_cases H; validated H; reflexivity || contradiction.
Qed.

Lemma setattr_non_negative obj k a obj' :
  Product.setattr obj k a = Ok obj' ->
  (unset_or_non_negative (Product.rating obj) ->
   unset_or_non_negative (Product.rating obj'))
  /\ (unset_or_non_negative (Product.items_in_stock obj) ->
      unset_or_non_negative (Product.items_in_stock obj')).
Proof.
  intros H. setattr_cases H; validated H; simpl; try (split; intros; assumption).
  - apply validate_rating_Ok in Hv as [-> Hv].
    split; intros; [right|]; assumption.
  - apply validate_items_in_stock_Ok in Hv as [-> Hv].
    split; intros; [|right]; assumption.
Qed.

Lemma validators_Raise e :
  (forall v, Product.validate_name v = Raise e ->
     e = TypeError \/ exists f, e = ValueError f)
  /\ (forall v, Product.validate_featured v = Raise e ->
        e = TypeError \/ exists f, e = ValueError f)
  /\ (forall v, Product.validate_rating v = Raise e ->
        e = TypeError \/ exists f, e = ValueError f)
  /\ (forall v, Product.validate_items_in_stock v = Raise e ->
        e = TypeError \/ exists f, e = ValueError f).
Proof.
  repeat split; intros v H.
  - unfold Product.validate_name in H.
    apply bind_Raise in H as [H | (n & _ & H)].
    + destruct v; simpl in H; try discriminate; left; congruence.
    + destruct (_ || _)%bool; [|discriminate]. right. injection H as <-. eauto.
  - destruct v; simpl in H; try discriminate; injection H as <-; eauto.
  - unfold Product.validate_rating in H.
    apply bind_Raise in H as [H | ([|] & _ & H)].
    + unfold lt_zero in H. destruct (number v); [discriminate|]. left; congruence.
    + right. injection H as <-. eauto.
    + discriminate.
  - unfold Product.validate_items_in_stock in H.
    apply bind_Raise in H as [H | ([|] & _ & H)].
    + unfold lt_zero in H. destruct (number v); [discriminate|]. left; congruence.
    + right. injection H as <-. eauto.
    + discriminate.
Qed.

Lemma setattr_Raise obj k a e :
  Product.setattr obj k a = Raise e ->
  e = TypeError \/ exists f, e = ValueError f.
Proof.
  intros H. destruct (validators_Raise e) as (Hn & Hf & Hr & Hi).
  setattr_cases H; try discriminate;
    apply bind_Raise in H as [H | (v' & _ & H)]; try discriminate; eauto.
Qed.

Lemma setattrs_app obj d d' :
  Product.setattrs obj (d ++ d') =
  (Product.setattrs obj d ≫= fun obj' => Product.setattrs obj' d').
Proof.
  revert obj. induction d as [|[k a] d IH]; intros obj; simpl; [reflexivity|].
  destruct (Product.setattr obj k a); simpl; [apply IH | reflexivity].
Qed.

Lemma setattrs_Raise obj d e :
  Product.setattrs obj d = Raise e ->
  e = TypeError \/ exists f, e = ValueError f.
Proof.
  revert obj. induction d as [|[k a] d IH]; intros obj; simpl; [discriminate|].
  intros H. apply bind_Raise in H as [H | (obj' & _ & H)].
  - exact (setattr_Raise _ _ _ _ H).
  - exact (IH _ H).
Qed.

Lemma setattrs_columns_categories obj d obj' :
  Forall column_entry d ->
  Product.setattrs obj d = Ok obj' ->
  Product.categories obj' = Product.categories obj.
Proof.
  intros Hd. revert obj.
  induction Hd as [|[k a] d [_ [v Ha]] Hd IH]; intros obj; simpl in *.
  - intros [= <-]. reflexivity.
  - subst a. intros H. apply bind_Ok in H as (o & Ho & H).
    rewrite (IH _ H). exact (setattr_Col_categories _ _ _ _ Ho).
Qed.

Lemma setattrs_non_negative obj d obj' :
  Product.setattrs obj d = Ok obj' ->
  (unset_or_non_negative (Product.rating obj) ->
   unset_or_non_negative (Product.rating obj'))
  /\ (unset_or_non_negative (Product.items_in_stock obj) ->
      unset_or_non_negative (Product.items_in_stock obj')).
Proof.
  revert obj. induction d as [|[k a] d IH]; intros obj; simpl.
  - intros [= <-]. auto.
  - intros H. apply bind_Ok in H as (o & Ho & H).
    destruct (setattr_non_negative _ _ _ _ Ho), (IH _ H). auto.
Qed.

(** ** Commit *)

Lemma bind_Raise_kind db v e :
  Product.bind db v = Raise e -> engine_error e.
Proof.
  unfold engine_error.
  destruct v; simpl; try discriminate; try (intros [= <-]; auto 7).
  destruct (Product.binds db z); [discriminate | intros [= <-]; auto].
Qed.

Lemma bind_datetime_Raise_kind v e :
  Product.bind_datetime v = Raise e -> engine_error e.
Proof.
  unfold engine_error.
  destruct v; simpl; try discriminate; intros [= <-]; auto 7.
Qed.

(** What a row that passed [check_row] satisfies. *)
Lemma check_row_inv enforced db row :
  Product.check_row enforced db row = Ok () ->
  Product.bind db (Product.id row) = Ok ()
  /\ Product.not_null (Product.name row) = true
  /\ Product.not_null (Product.rating row) = true
  /\ Product.not_null (Product.items_in_stock row) = true
  /\ (enforced = true ->
      Product.references_brand db (Product.brand_id row) = true).
Proof.
  unfold Product.check_row. intros H.
  apply bind_Ok in H as ([] & Hid & H).
  do 8 (apply bind_Ok in H as ([] & _ & H)).
  split; [exact Hid|].
  destruct (Product.not_null (Product.name row)),
           (Product.not_null (Product.rating row)),
           (Product.not_null (Product.items_in_stock row));
    rewrite ?andb_false_r, ?andb_false_l in H; simpl in H; try discriminate H.
  repeat split. intros ->.
  destruct (negb _); [discriminate H|]. simpl in H.
  destruct (Product.references_brand _ _); [reflexivity | discriminate H].
Qed.

Lemma check_row_Ok enforced db row :
  Product.check_row enforced db row = Ok () ->
  Product.not_null (Product.rating row) = true
  /\ Product.not_null (Product.items_in_stock row) = true.
Proof.
  intros H. destruct (check_row_inv _ _ _ H) as (_ & _ & Hr & Hi & _). auto.
Qed.

Lemma check_row_Raise enforced db row e :
  Product.check_row enforced db row = Raise e -> engine_error e.
Proof.
  unfold Product.check_row. intros H.
  do 9 (apply bind_Raise in H as [H | ([] & _ & H)];
        [exact (bind_Raise_kind _ _ _ H)
         || exact (bind_datetime_Raise_kind _ _ H)|]).
  unfold engine_error.
  destruct (negb _); [injection H as <-; auto|].
  destruct (_ && _)%bool; [injection H as <-; auto | discriminate].
Qed.

Lemma engine_error_not_NoResultFound e : engine_error e -> e <> NoResultFound.
Proof. intros [-> | [-> | [-> | [-> | [-> | ->]]]]]; discriminate. Qed.

Lemma engine_error_not_InvalidPayload e why :
  engine_error e -> e <> InvalidPayload why.
Proof. intros [-> | [-> | [-> | [-> | [-> | ->]]]]]; discriminate. Qed.

Lemma not_null_unset_or_non_negative v :
  Product.not_null v = true -> unset_or_non_negative v -> non_negative v.
Proof. intros Hv [->|H]; [discriminate | exact H]. Qed.

Lemma to_float_number v : number (Product.to_float v) = number v.
Proof. unfold Product.to_float. destruct v; reflexivity. Qed.

Lemma to_float_not_null v :
  Product.not_null (Product.to_float v) = Product.not_null v.
Proof. destruct v; reflexivity. Qed.

Lemma to_float_non_negative v : non_negative v -> non_negative (Product.to_float v).
Proof. unfold non_negative. rewrite to_float_number. auto. Qed.

Lemma to_float_idempotent v :
  Product.to_float (Product.to_float v) = Product.to_float v.
Proof. destruct v; reflexivity. Qed.

(** The INSERT, step by step: the key, the defaults, the row that is
    checked and stored. *)
Lemma insert_Ok foreign_keys autoincrement utcnow db obj db' row :
  Product.insert foreign_keys autoincrement utcnow db obj = Ok (db', row) ->
  exists pk,
    (Product.id obj = PNone /\ pk = autoincrement (Product.products db)
     \/ Product.id obj = PInt pk)
    /\ Product.products db !! pk = None
    /\ db' = Product.with_products (<[pk := row]> (Product.products db)) db
    /\ row = Product.set_rating (Product.to_float (Product.rating obj))
               (Product.set_id (PInt pk)
                  (Product.set_created_at
                     (if Product.not_null (Product.created_at obj)
                      then Product.created_at obj else PDateTime utcnow)
                     (Product.set_featured
                        (if Product.not_null (Product.featured obj)
                         then Product.featured obj else PBool false) obj)))
    /\ Product.check_row foreign_keys db row = Ok ().
Proof.
  unfold Product.insert. intros H.
  destruct (Product.not_null (Product.featured obj)) eqn:Hf; simpl in H;
    destruct (Product.not_null (Product.created_at obj)) eqn:Hc; simpl in H;
    apply bind_Ok in H as (pk & Hpk & H);
    (destruct (Product.products db !! pk) eqn:Hfree; [discriminate|]);
    apply bind_Ok in H as ([] & Hcheck & H);
    injection H as <- <-; exists pk;
    (split; [destruct (Product.id obj); simpl in Hpk; try discriminate;
             [left; split; congruence | right; congruence]|]);
    (split; [exact Hfree|]); (split; [reflexivity|]);
    (split; [destruct obj; reflexivity|]); exact Hcheck.
Qed.

(** The row an INSERT stores keeps what the instance was given, the
    rating as a float. *)
Lemma insert_row foreign_keys autoincrement utcnow db obj db' row :
  Product.insert foreign_keys autoincrement utcnow db obj = Ok (db', row) ->
  Product.rating row = Product.to_float (Product.rating obj)
  /\ Product.items_in_stock row = Product.items_in_stock obj
  /\ Product.brand_id row = Product.brand_id obj
  /\ Product.categories row = Product.categories obj
  /\ Product.not_null (Product.rating row) = true
  /\ Product.not_null (Product.items_in_stock row) = true.
Proof.
  intros H. destruct (insert_Ok _ _ _ _ _ _ _ H) as (pk & _ & _ & _ & Hrow & Hcheck).
  destruct (check_row_Ok _ _ _ Hcheck) as [Hr Hi].
  rewrite Hrow in *. simpl in *. repeat split; assumption || reflexivity.
Qed.

Lemma insert_Raise foreign_keys autoincrement utcnow db obj e :
  Product.insert foreign_keys autoincrement utcnow db obj = Raise e ->
  engine_error e.
Proof.
  unfold Product.insert, engine_error. intros H.
  apply bind_Raise in H as [H | (pk & _ & H)].
  - destruct (Product.id _); simpl in H; try discriminate;
      injection H as <-; auto.
  - destruct (Product.products db !! pk); [injection H as <-; auto|].
    apply bind_Raise in H as [H | ([] & _ & H)]; [|discriminate].
    exact (check_row_Raise _ _ _ _ H).
Qed.

(** The UPDATE, step by step. *)
Lemma flush_Ok foreign_keys db pk obj db' row :
  Product.flush foreign_keys db pk obj = Ok (db', row) ->
  exists pk',
    Product.id obj = PInt pk'
    /\ db' = Product.with_products
               (<[pk' := row]> (delete pk (Product.products db))) db
    /\ Product.check_row (foreign_keys && Product.brand_changed db pk obj) db
         (Product.set_rating (Product.to_float (Product.rating obj)) obj) = Ok ()
    /\ (pk' <> pk -> Product.products db !! pk' = None)
    /\ ((pk' = pk \/ Product.joined db pk = [])
         /\ row = Product.set_rating (Product.to_float (Product.rating obj)) obj
        \/ pk' <> pk /\ foreign_keys = false
           /\ row = Product.set_categories
                      (Product.without (Product.categories obj)
                         (Product.joined db pk))
                      (Product.set_rating
                         (Product.to_float (Product.rating obj)) obj)).
Proof.
  unfold Product.flush. intros H.
  apply bind_Ok in H as (pk' & Hpk & H).
  assert (Hid : Product.id obj = PInt pk')
    by (destruct (Product.id obj); simpl in Hpk; congruence).
  exists pk'. split; [exact Hid|].
  destruct (Z.eqb_spec pk' pk) as [->|Hne]; simpl in H.
  - apply bind_Ok in H as ([] & Hcheck & H). injection H as <- <-.
    repeat split; auto. intros Hc. destruct Hc. reflexivity.
  - destruct (bool_decide (is_Some (Product.products db !! pk'))) eqn:Hfree;
      [discriminate|].
    apply bool_decide_eq_false in Hfree.
    assert (Hnone : Product.products db !! pk' = None).
    { destruct (Product.products db !! pk') eqn:E; [|reflexivity].
      destruct Hfree. eauto. }
    apply bind_Ok in H as ([] & Hcheck & H).
    destruct (Product.joined db pk) as [|c cs] eqn:Hjoined.
    + injection H as <- <-. repeat split; auto.
    + destruct foreign_keys; [discriminate|].
      destruct (Product.without (c :: cs) _) eqn:Hwithout; [|discriminate].
      injection H as <- <-. repeat split; auto.
Qed.

(** What the row an UPDATE stores holds. *)
Lemma flush_row foreign_keys db pk obj db' row :
  Product.flush foreign_keys db pk obj = Ok (db', row) ->
  Product.rating row = Product.to_float (Product.rating obj)
  /\ (forall k, k <> "rating" -> getattr row k = getattr obj k)
  /\ (Product.id obj = PInt pk -> Product.categories row = Product.categories obj)
  /\ (forall c, In c (Product.categories row) -> In c (Product.categories obj))
  /\ Product.check_row (foreign_keys && Product.brand_changed db pk obj) db row
     = Ok ().
Proof.
  intros H.
  destruct (flush_Ok _ _ _ _ _ _ H)
    as (pk' & Hid & _ & Hcheck & _ & [[Hsame ->] | (Hne & _ & ->)]).
  - repeat split; auto.
    intros k Hk. unfold getattr. simpl.
    destruct (String.eqb_spec k "rating"); [contradiction | reflexivity].
  - repeat split; auto.
    + intros k Hk. unfold getattr. simpl.
      destruct (String.eqb_spec k "rating"); [contradiction | reflexivity].
    + intros Hpk. congruence.
    + simpl. unfold Product.without. intros c Hc.
      apply filter_In in Hc. tauto.
Qed.

Lemma flush_tables foreign_keys db pk obj db' row :
  Product.flush foreign_keys db pk obj = Ok (db', row) ->
  Product.brands db' = Product.brands db
  /\ Product.categories_table db' = Product.categories_table db.
Proof.
  intros H. destruct (flush_Ok _ _ _ _ _ _ H) as (pk' & _ & -> & _). auto.
Qed.

Lemma flush_Raise foreign_keys db pk obj e :
  Product.flush foreign_keys db pk obj = Raise e -> engine_error e.
Proof.
  unfold Product.flush, engine_error. intros H.
  apply bind_Raise in H as [H | (pk' & _ & H)].
  - destruct (Product.id _); simpl in H; try discriminate;
      injection H as <-; auto.
  - destruct (negb _ && bool_decide _)%bool; [injection H as <-; auto|].
    apply bind_Raise in H as [H | ([] & _ & H)];
      [exact (check_row_Raise _ _ _ _ H)|].
    destruct (pk' =? pk)%Z; [discriminate|].
    destruct (Product.joined db pk); [discriminate|].
    destruct foreign_keys; [injection H as <-; auto|].
    destruct (Product.without _ _); [discriminate | injection H as <-; auto 6].
Qed.

Lemma flush_stores foreign_keys db pk obj db' row :
  Product.flush foreign_keys db pk obj = Ok (db', row) ->
  exists pk',
    Product.id row = PInt pk'
    /\ Product.products db' = <[pk' := row]> (delete pk (Product.products db))
    /\ (pk' <> pk -> Product.products db !! pk' = None)
    /\ Product.not_null (Product.rating row) = true
    /\ Product.not_null (Product.items_in_stock row) = true
    /\ Product.items_in_stock row = Product.items_in_stock obj.
Proof.
  intros H.
  destruct (flush_Ok _ _ _ _ _ _ H) as (pk' & Hid & -> & _ & Hfree & _).
  destruct (flush_row _ _ _ _ _ _ H) as (_ & Hsame & _ & _ & Hcheck).
  destruct (check_row_Ok _ _ _ Hcheck) as [Hr Hi].
  exists pk'. repeat split; auto.
  - rewrite <- Hid. exact (Hsame "id" ltac:(discriminate)).
  - exact (Hsame "items_in_stock" ltac:(discriminate)).
Qed.

Lemma with_products_same db :
  Product.with_products (Product.products db) db = db.
Proof. destruct db. reflexivity. Qed.

(** What a delete leaves, whether or not it found a row. *)
Lemma delete_db db id :
  fst (Product.delete db id)
  = Product.with_products (delete id (Product.products db)) db.
Proof.
  unfold Product.delete, Product.get.
  destruct (Product.products db !! id) eqn:Hid; simpl; [reflexivity|].
  rewrite delete_id by exact Hid. rewrite with_products_same.
  destruct (Product.binds db id); reflexivity.
Qed.

Lemma to_float_unset_or v :
  unset_or_non_negative v -> unset_or_non_negative (Product.to_float v).
Proof.
  intros [-> | H]; [left; reflexivity | right; exact (to_float_non_negative _ H)].
Qed.

Lemma get_Ok db id o :
  Product.get db id = Ok o -> Product.products db !! id = o.
Proof.
  unfold Product.get. destruct (Product.products db !! id); [congruence|].
  destruct (Product.binds db id); [congruence | discriminate].
Qed.

Lemma get_Raise db id e :
  Product.get db id = Raise e ->
  e = OverflowError /\ Product.products db !! id = None
  /\ Product.binds db id = false.
Proof.
  unfold Product.get. destruct (Product.products db !! id); [discriminate|].
  destruct (Product.binds db id); [discriminate | intros [= <-]; auto].
Qed.

Lemma get_stored db id p :
  Product.products db !! id = Some p -> Product.get db id = Ok (Some p).
Proof. unfold Product.get. intros ->. reflexivity. Qed.

(** An update that raises commits nothing; one that finds no row and has
    nothing to assign returns [None] and commits nothing either. *)
Lemma update_unchanged foreign_keys db id payload db' r :
  Product.update foreign_keys db id payload = (db', r) ->
  (forall p, r <> Ok (Some p)) -> db' = db.
Proof.
  unfold Product.update. intros H Hr.
  destruct (Product.prepare_values db payload) as [values|]; [|congruence].
  destruct (Product.get db id) as [[obj|]|]; [| |congruence].
  - destruct (Product.setattrs obj values) as [obj'|]; [|congruence].
    destruct (Product.flush _ _ _ _) as [[db'' row]|]; [|congruence].
    injection H as <- <-. destruct (Hr row). reflexivity.
  - destruct values; congruence.
Qed.

Lemma update_Ok foreign_keys db id payload db' p' :
  Product.update foreign_keys db id payload = (db', Ok (Some p')) ->
  exists values p obj,
    Product.prepare_values db payload = Ok values
    /\ Product.products db !! id = Some p
    /\ Product.setattrs p values = Ok obj
    /\ Product.flush foreign_keys db id obj = Ok (db', p').
Proof.
  unfold Product.update. intros H.
  destruct (Product.prepare_values db payload) as [values|]; [|discriminate].
  destruct (Product.get db id) as [[p|]|] eqn:Hget; [| |discriminate].
  - destruct (Product.setattrs p values) as [obj|] eqn:Hset; [|discriminate].
    destruct (Product.flush _ _ _ _) as [[db'' row]|] eqn:Hflush; [|discriminate].
    injection H as <- <-.
    exists values, p, obj. repeat split; auto. exact (get_Ok _ _ _ Hget).
  - destruct values; discriminate.
Qed.

(** The exceptions an update can raise. *)
Lemma update_Raise foreign_keys db id payload db' e :
  Product.update foreign_keys db id payload = (db', Raise e) ->
  e <> NoResultFound.
Proof.
  unfold Product.update. intros H.
  destruct (Product.prepare_values db payload) as [values|e0] eqn:Hvalues.
  - destruct (Product.get db id) as [[p|]|e0] eqn:Hget.
    + destruct (Product.setattrs p values) as [obj|e0] eqn:Hset.
      * destruct (Product.flush _ _ _ _) as [[db'' row]|e0] eqn:Hflush;
          [discriminate|].
        injection H as _ <-.
        exact (engine_error_not_NoResultFound _ (flush_Raise _ _ _ _ _ Hflush)).
      * injection H as _ <-.
        destruct (setattrs_Raise _ _ _ Hset) as [-> | [f ->]]; discriminate.
    + destruct values; [discriminate|]. injection H as _ <-. discriminate.
    + injection H as _ <-.
      destruct (get_Raise _ _ _ Hget) as (-> & _). discriminate.
  - injection H as _ <-.
    destruct (prepare_values_Raise _ _ _ Hvalues)
      as [-> | [-> | [[n ->] | [n ->]]]]; discriminate.
Qed.

(** ** Update *)

(** [prepare_values] only uses [first()], which never raises
    [NoResultFound]. *)
Lemma prepare_values_not_NoResultFound db payload :
  Product.prepare_values db payload <> Raise NoResultFound.
Proof.
  intros H.
  destruct (prepare_values_Raise _ _ _ H)
    as [E | [E | [[n E] | [n E]]]]; discriminate E.
Qed.

(** C1: where the specification asks for 404, [PUT /products/{id}] on an
    id without a stored product answers 410 for every payload: [get(id)]
    returns [None] instead of raising [NoResultFound], and what follows is
    an [AttributeError] or an earlier failure of [prepare_values]. *)
Theorem update_product_absent_is_410 (foreign_keys : bool) (db : Product.Db)
    (id : Z) (payload : pyval) :
  Product.products db !! id = None ->
  exists e, e <> NoResultFound /\
    Endpoints.update_product foreign_keys db id payload
    = (db, Endpoints.InvalidUsage (Endpoints.AnErrorAccrued e) 410).
Proof.
  intros Habsent.
  unfold Endpoints.update_product, Product.update.
  destruct (Product.prepare_values db payload) as [values|e] eqn:Hvalues.
  - unfold Product.get. rewrite Habsent. destruct (Product.binds db id).
    + destruct values; exists AttributeError; split;
        (discriminate || reflexivity).
    + exists OverflowError. split; [discriminate | reflexivity].
  - exists e; split.
    + intros ->. exact (prepare_values_not_NoResultFound _ _ Hvalues).
    + destruct e; try reflexivity.
      exfalso. exact (prepare_values_not_NoResultFound _ _ Hvalues).
Qed.

Lemma update_product_absent_is_410_witness :
  Product.products shop !! 1%Z = None /\
  exists e, e <> NoResultFound /\
    Endpoints.update_product true shop 1 (PDict [])
    = (shop, Endpoints.InvalidUsage (Endpoints.AnErrorAccrued e) 410).
Proof.
  split; [reflexivity|].
  apply (update_product_absent_is_410 true shop 1 (PDict [])).
  reflexivity.
Defined.

(** No path through [Product.update] raises [NoResultFound], so the 404
    clause of [update_product] is never taken, whatever the request. *)
Lemma update_not_NoResultFound foreign_keys db id payload db' :
  Product.update foreign_keys db id payload <> (db', Raise NoResultFound).
Proof. intros H. exact (update_Raise _ _ _ _ _ _ H eq_refl). Qed.

Lemma update_product_never_404 foreign_keys db id payload :
  Endpoints.status_code (snd (Endpoints.update_product foreign_keys db id payload))
  <> 404%Z.
Proof.
  unfold Endpoints.update_product.
  pose proof (update_not_NoResultFound foreign_keys db id payload) as Hnot.
  destruct (Product.update _ _ _ _) as [db' [[p|]|e]].
  - unfold Product.serialized. destruct (Product.brand db' p); discriminate.
  - discriminate.
  - destruct e; try discriminate. destruct (Hnot db'). reflexivity.
Qed.

(** C4: updating a stored product with [{"rating": -1}] raises the rating
    validator's [ValueError], which the endpoint answers with 410, and the
    database, hence the stored rating, is what it was. *)
Theorem update_negative_rating_rejected (foreign_keys : bool) (db : Product.Db)
    (id : Z) (p : Product.t) :
  Product.products db !! id = Some p ->
  let payload := PDict [("rating", PInt (-1))] in
  Product.update foreign_keys db id payload = (db, Raise (ValueError "rating"))
  /\ Endpoints.update_product foreign_keys db id payload
     = (db, Endpoints.InvalidUsage (Endpoints.AnErrorAccrued (ValueError "rating")) 410)
  /\ Product.rating <$>
       Product.products (fst (Product.update foreign_keys db id payload)) !! id
     = Some (Product.rating p).
Proof.
  intros Hstored payload.
  assert (Hupdate : Product.update foreign_keys db id payload
                    = (db, Raise (ValueError "rating"))).
  { unfold Product.update, Product.get, payload; simpl. rewrite Hstored.
    reflexivity. }
  split; [exact Hupdate|]. split.
  - unfold Endpoints.update_product. rewrite Hupdate. reflexivity.
  - rewrite Hupdate; simpl. rewrite Hstored. reflexivity.
Qed.

Lemma update_negative_rating_rejected_witness :
  Product.products stocked !! 1%Z = Some hammer /\
  Product.update true stocked 1 (PDict [("rating", PInt (-1))])
  = (stocked, Raise (ValueError "rating")).
Proof.
  split; [reflexivity|].
  apply (update_negative_rating_rejected true stocked 1 hammer).
  reflexivity.
Defined.

(** ** Delete and retrieve *)

(** [retrieve] uses [.one()]: [GET] of an id without a product is a 404,
    when the id is one the driver binds. *)
Lemma get_product_absent_is_404 db id :
  Product.binds db id = true ->
  Product.products db !! id = None ->
  Endpoints.get_product db id
  = (db, Endpoints.InvalidUsage (Endpoints.NotFound id) 404).
Proof.
  intros Hb H. unfold Endpoints.get_product, Product.retrieve, Product.get.
  rewrite H, Hb. reflexivity.
Qed.

(** C8, as the code has it: for an id the driver binds, [DELETE] of an
    id without a product answers 204 and leaves the database as it was,
    and [DELETE] of a stored product answers 204 and removes the row,
    after which [GET] of that id answers 404; for an id the driver cannot
    bind and that has no product, [get(id)] raises and [DELETE] answers
    410, the database being as it was. *)
Theorem delete_product_bindable_id (db : Product.Db) (id : Z) :
  (Product.binds db id = true ->
   Product.products db !! id = None ->
   Endpoints.delete_product db id = (db, Endpoints.NoContent))
  /\ (forall p,
        Product.binds db id = true ->
        Product.products db !! id = Some p ->
        exists db',
          Endpoints.delete_product db id = (db', Endpoints.NoContent)
          /\ Product.products db' !! id = None
          /\ Endpoints.get_product db' id
             = (db', Endpoints.InvalidUsage (Endpoints.NotFound id) 404))
  /\ (Product.binds db id = false ->
      Product.products db !! id = None ->
      Endpoints.delete_product db id
      = (db, Endpoints.InvalidUsage (Endpoints.AnErrorAccrued OverflowError) 410))
  /\ Endpoints.status_code Endpoints.NoContent = 204%Z.
Proof.
  unfold Endpoints.delete_product, Product.delete, Product.get.
  split; [|split; [|split; [|reflexivity]]].
  - intros -> ->. reflexivity.
  - intros p Hb ->. eexists; split; [reflexivity|].
    assert (Hgone : Product.products
              (Product.with_products (delete id (Product.products db)) db) !! id
            = None) by apply lookup_delete_eq.
    split; [exact Hgone|].
    apply get_product_absent_is_404; [exact Hb | exact Hgone].
  - intros -> ->. reflexivity.
Qed.

Lemma delete_product_bindable_id_witness :
  Product.binds shop 7 = true
  /\ Product.products shop !! 7%Z = None
  /\ Endpoints.delete_product shop 7 = (shop, Endpoints.NoContent)
  /\ Product.binds stocked 1 = true
  /\ Product.products stocked !! 1%Z = Some hammer
  /\ (exists db',
        Endpoints.delete_product stocked 1 = (db', Endpoints.NoContent)
        /\ Product.products db' !! 1%Z = None
        /\ Endpoints.get_product db' 1
           = (db', Endpoints.InvalidUsage (Endpoints.NotFound 1) 404))
  /\ Product.binds shop (2 ^ 63) = false
  /\ Endpoints.delete_product shop (2 ^ 63)
     = (shop, Endpoints.InvalidUsage (Endpoints.AnErrorAccrued OverflowError) 410).
Proof.
  split; [reflexivity|]. split; [reflexivity|]. split.
  { apply (proj1 (delete_product_bindable_id shop 7)); reflexivity. }
  split; [reflexivity|]. split; [reflexivity|]. split.
  { apply (proj1 (proj2 (delete_product_bindable_id stocked 1)) hammer);
      reflexivity. }
  split; [reflexivity|].
  apply (proj1 (proj2 (proj2 (delete_product_bindable_id shop (2 ^ 63)))));
    reflexivity.
Defined.

(** C8 as stated fails at an id beyond the engine's integers: no product
    is stored under 2^63, and [DELETE /products/2^63] answers 410. *)
Lemma delete_product_unbindable_id_is_410 :
  ~ (forall db id,
       Product.products db !! id = None ->
       Endpoints.delete_product db id = (db, Endpoints.NoContent)).
Proof.
  intros claim.
  pose proof (claim shop (2 ^ 63)%Z eq_refl) as H.
  apply (f_equal snd) in H. vm_compute in H. discriminate H.
Qed.

(** ** Create *)

Lemma insert_stores foreign_keys autoincrement utcnow db obj db' row :
  Product.insert foreign_keys autoincrement utcnow db obj = Ok (db', row) ->
  exists pk, Product.id row = PInt pk
    /\ Product.products db !! pk = None
    /\ Product.products db' = <[pk := row]> (Product.products db)
    /\ Product.brands db' = Product.brands db
    /\ Product.categories_table db' = Product.categories_table db.
Proof.
  unfold Product.insert. intros H.
  apply bind_Ok in H as (pk & _ & H).
  destruct (Product.products db !! pk) eqn:Hfree; [discriminate|].
  apply bind_Ok in H as ([] & _ & H).
  injection H as <- <-. exists pk. auto.
Qed.

Lemma create_Ok foreign_keys autoincrement utcnow db payload db' p :
  Product.create foreign_keys autoincrement utcnow db payload = (db', Ok p) ->
  exists values obj,
    Product.prepare_values db payload = Ok values
    /\ Product.attr_truthy
         (default (Product.Col PNone) (dict_get "brand_id" values)) = true
    /\ Product.attr_truthy
         (default (Product.Rel []) (dict_get "categories" values)) = true
    /\ Product.setattrs Product.blank values = Ok obj
    /\ Product.insert foreign_keys autoincrement utcnow db obj = Ok (db', p).
Proof.
  unfold Product.create. intros H.
  destruct (Product.prepare_values db payload) as [values|]; [|discriminate].
  destruct (Product.attr_truthy (default _ (dict_get "brand_id" values))) eqn:Hb;
    [|discriminate].
  destruct (Product.attr_truthy (default _ (dict_get "categories" values))) eqn:Hc;
    [|discriminate].
  simpl in H.
  destruct (Product.setattrs Product.blank values) as [obj|] eqn:Hobj;
    [|discriminate].
  destruct (Product.insert _ _ _ _ _) as [[db'' row]|] eqn:Hrow; [|discriminate].
  injection H as <- <-. exists values, obj. repeat split; assumption || reflexivity.
Qed.

(** A create that raises commits nothing. *)
Lemma create_Raise foreign_keys autoincrement utcnow db payload db' e :
  Product.create foreign_keys autoincrement utcnow db payload = (db', Raise e) ->
  db' = db.
Proof.
  unfold Product.create. intros H.
  destruct (Product.prepare_values db payload) as [values|]; [|congruence].
  destruct (Product.attr_truthy (default _ (dict_get "brand_id" values)));
    [|simpl in H; congruence].
  destruct (Product.attr_truthy (default _ (dict_get "categories" values)));
    [|simpl in H; congruence].
  simpl in H.
  destruct (Product.setattrs Product.blank values) as [obj|]; [|congruence].
  destruct (Product.insert _ _ _ _ _) as [[db'' row]|]; congruence.
Qed.

Lemma references_brand_brand db db' p :
  Product.brands db' = Product.brands db ->
  Product.references_brand db (Product.brand_id p) = true ->
  Product.brand db' p <> None.
Proof.
  unfold Product.references_brand, Product.brand. intros ->.
  destruct (Product.brand_id p); try discriminate.
  intros H Hnone. apply existsb_exists in H as (b & Hin & Hb).
  rewrite (find_none _ _ Hnone b Hin) in Hb. discriminate.
Qed.

(** With foreign keys enforced the row an INSERT stores has a brand. *)
Lemma insert_references autoincrement utcnow db obj db' row :
  Product.insert true autoincrement utcnow db obj = Ok (db', row) ->
  Product.brand db' row <> None.
Proof.
  intros H.
  destruct (insert_Ok _ _ _ _ _ _ _ H) as (pk & _ & _ & -> & _ & Hcheck).
  apply (references_brand_brand db); [reflexivity|].
  destruct (check_row_inv _ _ _ Hcheck) as (_ & _ & _ & _ & Hfk). auto.
Qed.

(** C9: after a successful create the product's [id] is an integer and
    retrieving by it returns that very record; its serialized form, which
    exists as soon as its brand resolves (always, with foreign keys
    enforced), has that integer in its [id] field, is the body [POST]
    answered 201 with, and is the body [GET] of that id answers 200
    with. *)
Theorem create_serialize_retrieve (foreign_keys : bool)
    (autoincrement : gmap Z Product.t -> Z) (utcnow : Z) (db : Product.Db)
    (payload : pyval) (db' : Product.Db) (p : Product.t) :
  Product.create foreign_keys autoincrement utcnow db payload = (db', Ok p) ->
  exists pk,
    Product.id p = PInt pk
    /\ Product.retrieve db' pk = Ok p
    /\ (forall body,
          Product.serialized db' p = Ok body ->
          field "id" body = Some (PInt pk)
          /\ Endpoints.create_product foreign_keys autoincrement utcnow db payload
             = (db', Endpoints.Jsonify body 201)
          /\ Endpoints.get_product db' pk = (db', Endpoints.Jsonify body 200))
    /\ (foreign_keys = true \/ Product.brand db' p <> None ->
        exists body,
          Product.serialized db' p = Ok body
          /\ field "id" body = Some (PInt pk)
          /\ Endpoints.create_product foreign_keys autoincrement utcnow db payload
             = (db', Endpoints.Jsonify body 201)
          /\ Endpoints.get_product db' pk = (db', Endpoints.Jsonify body 200)).
Proof.
  intros Hcreate.
  destruct (create_Ok _ _ _ _ _ _ _ Hcreate) as (values & obj & _ & _ & _ & _ & Hins).
  destruct (insert_stores _ _ _ _ _ _ _ Hins) as (pk & Hid & _ & Hproducts & _).
  assert (Hget : Product.retrieve db' pk = Ok p).
  { unfold Product.retrieve, Product.get.
    rewrite Hproducts, lookup_insert_eq. reflexivity. }
  assert (Hbodies : forall body,
    Product.serialized db' p = Ok body ->
    field "id" body = Some (PInt pk)
    /\ Endpoints.create_product foreign_keys autoincrement utcnow db payload
       = (db', Endpoints.Jsonify body 201)
    /\ Endpoints.get_product db' pk = (db', Endpoints.Jsonify body 200)).
  { intros body Hbody. split; [|split].
    - unfold Product.serialized in Hbody.
      destruct (Product.brand db' p); [|discriminate].
      injection Hbody as <-. simpl. rewrite Hid. reflexivity.
    - unfold Endpoints.create_product. rewrite Hcreate, Hbody. reflexivity.
    - unfold Endpoints.get_product. rewrite Hget, Hbody. reflexivity. }
  exists pk. split; [exact Hid|]. split; [exact Hget|]. split; [exact Hbodies|].
  intros Hbrand.
  assert (Hresolves : Product.brand db' p <> None).
  { destruct Hbrand as [-> | Hbrand]; [|exact Hbrand].
    exact (insert_references _ _ _ _ _ _ Hins). }
  unfold Product.serialized in *.
  destruct (Product.brand db' p) as [b|]; [|contradiction].
  eexists. split; [reflexivity|]. apply Hbodies. reflexivity.
Qed.

Lemma create_serialize_retrieve_witness :
  Product.create true by_size 100 shop hammer_payload = (stocked, Ok hammer)
  /\ exists pk body,
       Product.id hammer = PInt pk
       /\ Product.retrieve stocked pk = Ok hammer
       /\ Product.serialized stocked hammer = Ok body
       /\ field "id" body = Some (PInt pk)
       /\ Endpoints.create_product true by_size 100 shop hammer_payload
          = (stocked, Endpoints.Jsonify body 201)
       /\ Endpoints.get_product stocked pk = (stocked, Endpoints.Jsonify body 200).
Proof.
  split; [reflexivity|].
  destruct (create_serialize_retrieve true by_size 100 shop hammer_payload
              stocked hammer eq_refl)
    as (pk & Hid & Hget & _ & Hbody).
  destruct (Hbody (or_introl eq_refl)) as (body & Hser & Hfield & Hpost & Hget').
  exists pk, body. repeat split; assumption.
Defined.

(** ** Creation requires a brand and a category *)

Lemma create_no_categories foreign_keys autoincrement utcnow db payload values :
  Product.prepare_values db payload = Ok values ->
  dict_get "categories" values = None ->
  exists e,
    Product.create foreign_keys autoincrement utcnow db payload = (db, Raise e).
Proof.
  intros Hvalues Hnone. unfold Product.create. rewrite Hvalues, Hnone.
  destruct (Product.attr_truthy _); simpl; eauto.
Qed.

Lemma create_product_Raise foreign_keys autoincrement utcnow db payload e :
  Product.create foreign_keys autoincrement utcnow db payload = (db, Raise e) ->
  Endpoints.create_product foreign_keys autoincrement utcnow db payload
  = (db, Endpoints.InvalidUsage (Endpoints.AnErrorAccrued e) 410).
Proof. intros H. unfold Endpoints.create_product. rewrite H. reflexivity. Qed.

(** What [create] stores as the categories of the new product. *)
Lemma create_categories foreign_keys autoincrement utcnow db items db' p :
  Product.create foreign_keys autoincrement utcnow db (PDict items) = (db', Ok p) ->
  exists names cats,
    iter (default (PList []) (dict_get "categories" items)) = Ok names
    /\ Product.by_name db names [] = Ok cats
    /\ Product.resolved cats = Ok (Product.categories p)
    /\ Product.categories p <> [].
Proof.
  intros H.
  destruct (create_Ok _ _ _ _ _ _ _ H) as (values & obj & Hvalues & _ & Hc & Hobj & Hins).
  destruct (prepare_values_Ok _ _ _ Hvalues)
    as (cols & names & cats & cs & _ & Hnames & Hcats & Hcs & Hshape & Hcols).
  destruct Hshape as [[_ ->] | [_ ->]].
  { rewrite (column_entries_no_categories _ Hcols) in Hc. discriminate. }
  rewrite dict_get_app, (column_entries_no_categories _ Hcols) in Hc.
  simpl in Hc.
  rewrite setattrs_app in Hobj.
  apply bind_Ok in Hobj as (o & Ho & Hobj). simpl in Hobj.
  injection Hobj as <-.
  destruct (insert_row _ _ _ _ _ _ _ Hins) as (_ & _ & _ & Hrow & _).
  simpl in Hrow. exists names, cats. rewrite Hrow.
  repeat split; try assumption.
  intros ->. discriminate.
Qed.

(** C6: a payload whose category list is absent or empty makes [create]
    raise, [POST] answer 410 and the database stay as it was; and every
    product a create returns has at least one category. *)
Theorem create_requires_categories (foreign_keys : bool)
    (autoincrement : gmap Z Product.t -> Z) (utcnow : Z) (db : Product.Db) :
  (forall items,
     dict_get "categories" items = None
     \/ dict_get "categories" items = Some (PList []) ->
     exists e,
       Product.create foreign_keys autoincrement utcnow db (PDict items)
       = (db, Raise e)
       /\ Endpoints.create_product foreign_keys autoincrement utcnow db (PDict items)
          = (db, Endpoints.InvalidUsage (Endpoints.AnErrorAccrued e) 410))
  /\ (forall payload db' p,
        Product.create foreign_keys autoincrement utcnow db payload
        = (db', Ok p) ->
        Product.categories p <> []).
Proof.
  split.
  - intros items Hcat.
    assert (Hraise : exists e,
      Product.create foreign_keys autoincrement utcnow db (PDict items)
      = (db, Raise e)).
    { destruct (Product.prepare_values db (PDict items)) as [values|e] eqn:Hvalues.
      - apply (create_no_categories _ _ _ _ _ values Hvalues).
        destruct (prepare_values_Ok _ _ _ Hvalues)
          as (cols & names & cats & cs & _ & Hnames & Hcats & _ & Hshape & Hcols).
        assert (names = []) as ->
          by (destruct Hcat as [Hcat|Hcat]; rewrite Hcat in Hnames;
              simpl in Hnames; congruence).
        simpl in Hcats. injection Hcats as <-.
        destruct Hshape as [[_ ->] | [Hne _]]; [|contradiction].
        exact (column_entries_no_categories _ Hcols).
      - exists e. unfold Product.create. rewrite Hvalues. reflexivity. }
    destruct Hraise as [e He]. exists e. split; [exact He|].
    exact (create_product_Raise _ _ _ _ _ _ He).
  - intros payload db' p H.
    destruct payload as [| | | | | |l|items]; try discriminate H.
    destruct (create_categories _ _ _ _ _ _ _ H) as (_ & _ & _ & _ & _ & Hne).
    exact Hne.
Qed.

Lemma create_requires_categories_witness :
  dict_get "categories" [("name", PStr "hammer"); ("brand", PStr "Acme");
                         ("categories", PList [])] = Some (PList [])
  /\ exists e,
       Product.create true by_size 100 shop
         (PDict [("name", PStr "hammer"); ("brand", PStr "Acme");
                 ("categories", PList [])])
       = (shop, Raise e)
       /\ Endpoints.create_product true by_size 100 shop
            (PDict [("name", PStr "hammer"); ("brand", PStr "Acme");
                    ("categories", PList [])])
          = (shop, Endpoints.InvalidUsage (Endpoints.AnErrorAccrued e) 410).
Proof.
  split; [reflexivity|].
  apply (proj1 (create_requires_categories true by_size 100 shop)).
  right. reflexivity.
Defined.

Lemma find_no_match {A} (f : A -> bool) (l : list A) :
  (forall x, In x l -> f x = false) -> List.find f l = None.
Proof.
  induction l as [|x l IH]; simpl; intros H; [reflexivity|].
  rewrite (H x) by auto. apply IH. auto.
Qed.

Lemma truthy_PStr s : s <> "" -> truthy (PStr s) = true.
Proof. destruct s; [contradiction | reflexivity]. Qed.

(** C5, as the code has it: a payload whose [brand] is a non-empty name
    that no stored Brand bears makes [create] raise [InvalidPayload], [POST]
    answer 410 and the database stay as it was. *)
Theorem create_unknown_brand (foreign_keys : bool)
    (autoincrement : gmap Z Product.t -> Z) (utcnow : Z) (db : Product.Db)
    (items : list (string * pyval)) (s : string) :
  dict_get "brand" items = Some (PStr s) ->
  s <> "" ->
  (forall b, In b (Product.brands db) -> Brand.name b <> s) ->
  Product.create foreign_keys autoincrement utcnow db (PDict items)
  = (db, Raise (InvalidPayload (UnknownBrand (PStr s))))
  /\ Endpoints.create_product foreign_keys autoincrement utcnow db (PDict items)
     = (db, Endpoints.InvalidUsage
              (Endpoints.AnErrorAccrued (InvalidPayload (UnknownBrand (PStr s))))
              410).
Proof.
  intros Hbrand Hs Hunknown.
  assert (Hvalues : Product.prepare_values db (PDict items)
                    = Raise (InvalidPayload (UnknownBrand (PStr s)))).
  { unfold Product.prepare_values. rewrite Hbrand. simpl default.
    rewrite (truthy_PStr s Hs).
    unfold Product.first_brand. rewrite find_no_match; [reflexivity|].
    intros b Hb. apply String.eqb_neq. exact (Hunknown b Hb). }
  assert (Hcreate : Product.create foreign_keys autoincrement utcnow db (PDict items)
                    = (db, Raise (InvalidPayload (UnknownBrand (PStr s))))).
  { unfold Product.create. rewrite Hvalues. reflexivity. }
  split; [exact Hcreate | exact (create_product_Raise _ _ _ _ _ _ Hcreate)].
Qed.

Lemma create_unknown_brand_witness :
  dict_get "brand" [("name", PStr "saw"); ("brand", PStr "Ajax")]
  = Some (PStr "Ajax")
  /\ Product.create true by_size 100 shop
       (PDict [("name", PStr "saw"); ("brand", PStr "Ajax")])
     = (shop, Raise (InvalidPayload (UnknownBrand (PStr "Ajax")))).
Proof.
  split; [reflexivity|].
  apply (create_unknown_brand true by_size 100 shop
           [("name", PStr "saw"); ("brand", PStr "Ajax")] "Ajax").
  - reflexivity.
  - discriminate.
  - intros b [<-|[]]. discriminate.
Defined.

(** With an empty [brand] the lookup is skipped, and a [brand_id] in the
    payload passes the brand test. *)
Example create_unnamed_brand :
  Product.create true by_size 100 shop unnamed_brand_payload = (stocked, Ok hammer).
Proof. reflexivity. Qed.

(** C5 as stated fails: the empty string is a name no Brand of [shop]
    bears, and the create of [unnamed_brand_payload] stores a product. *)
Lemma create_empty_brand_name_stores :
  ~ (forall foreign_keys autoincrement utcnow db items s,
       dict_get "brand" items = Some (PStr s) ->
       (forall b, In b (Product.brands db) -> Brand.name b <> s) ->
       exists e,
         Product.create foreign_keys autoincrement utcnow db (PDict items)
         = (db, Raise e)).
Proof.
  intros claim.
  destruct (claim true by_size 100%Z shop
              [("name", PStr "hammer"); ("rating", PInt 4);
               ("items_in_stock", PInt 3); ("brand", PStr "");
               ("brand_id", PInt 1); ("categories", PList [PStr "tools"])]
              "" eq_refl) as [e He].
  - intros b [<-|[]]. discriminate.
  - apply (f_equal snd) in He. vm_compute in He. discriminate.
Qed.

(** ** A [brand_id] in the payload *)

Lemma by_name_reads_categories db db' names acc :
  Product.categories_table db' = Product.categories_table db ->
  Product.by_name db' names acc = Product.by_name db names acc.
Proof.
  intros Htable. revert acc.
  induction names as [|n names IH]; intros acc; simpl; [reflexivity|].
  destruct (hashable n); [|reflexivity].
  rewrite IH. unfold Product.first_category. rewrite Htable. reflexivity.
Qed.

Lemma copied_keys_NoDup (items : list (string * pyval)) :
  List.NoDup (map fst items) -> List.NoDup (map fst (copied items)).
Proof.
  unfold copied. induction items as [|[k v] items IH]; simpl; intros H.
  - constructor.
  - apply NoDup_cons_iff in H as [Hk Hrest].
    destruct (Product.is_column k); simpl; [|auto].
    apply NoDup_cons_iff. split; [|auto].
    intros Hin. apply Hk.
    apply in_map_iff in Hin as ([k' a] & <- & Hin).
    apply in_map_iff in Hin as ([k'' v'] & [= <- <-] & Hin).
    apply filter_In in Hin as [Hin _].
    apply in_map_iff. exists (k'', v'). auto.
Qed.

Lemma setattrs_brand_id_other obj d obj' :
  ~ In "brand_id" (map fst d) ->
  Product.setattrs obj d = Ok obj' ->
  Product.brand_id obj' = Product.brand_id obj.
Proof.
  revert obj. induction d as [|[k a] d IH]; intros obj Hk; simpl.
  - intros [= <-]. reflexivity.
  - intros H. apply bind_Ok in H as (o & Ho & H).
    simpl in Hk. apply Decidable.not_or in Hk as [Hne Hk].
    rewrite (IH _ Hk H).
    apply (setattr_brand_id_other _ k a); [congruence | exact Ho].
Qed.

Lemma setattrs_brand_id obj d v obj' :
  List.NoDup (map fst d) ->
  dict_get "brand_id" d = Some (Product.Col v) ->
  Product.setattrs obj d = Ok obj' ->
  Product.brand_id obj' = v.
Proof.
  revert obj. induction d as [|[k a] d IH]; intros obj Hd; simpl; [discriminate|].
  simpl in Hd. apply NoDup_cons_iff in Hd as [Hk Hrest].
  destruct (String.eqb_spec k "brand_id") as [->|Hne].
  - intros [= ->] H. simpl in H.
    exact (setattrs_brand_id_other _ _ _ Hk H).
  - intros Hget H. apply bind_Ok in H as (o & _ & H).
    exact (IH _ Hrest Hget H).
Qed.

(** C10: with a truthy [brand_id] and no [brand] key in the payload,
    [prepare_values] hands that [brand_id] on as it came, whatever the
    brands table holds, and [create] never raises 'brand is required'; when
    that [brand_id] is an [int], the product a create then returns carries
    it (the keys of a parsed JSON object are distinct). *)
Theorem brand_id_bypasses_lookup (foreign_keys : bool)
    (autoincrement : gmap Z Product.t -> Z) (utcnow : Z) (db : Product.Db)
    (items : list (string * pyval)) (v : pyval) :
  dict_get "brand_id" items = Some v ->
  truthy v = true ->
  dict_get "brand" items = None ->
  (forall values,
     Product.prepare_values db (PDict items) = Ok values ->
     dict_get "brand_id" values = Some (Product.Col v))
  /\ (forall bs,
        Product.prepare_values
          (Product.mkDb (Product.products db) bs (Product.categories_table db)
             (Product.binds db))
          (PDict items)
        = Product.prepare_values db (PDict items))
  /\ snd (Product.create foreign_keys autoincrement utcnow db (PDict items))
     <> Raise (InvalidPayload BrandRequired)
  /\ (forall z,
        v = PInt z ->
        List.NoDup (map fst items) ->
        forall db' p,
          Product.create foreign_keys autoincrement utcnow db (PDict items)
          = (db', Ok p) ->
          Product.brand_id p = PInt z).
Proof.
  intros Hid Hv Hbrand.
  assert (Hcopied : forall values,
    Product.prepare_values db (PDict items) = Ok values ->
    dict_get "brand_id" values = Some (Product.Col v)
    /\ exists cats, values = copied items ++ cats
         /\ ~ In "brand_id" (map fst cats)).
  { intros values Hvalues.
    destruct (prepare_values_Ok _ _ _ Hvalues)
      as (cols & names & cats & cs & Hstage & _ & _ & _ & Hshape & _).
    rewrite Hbrand in Hstage. simpl in Hstage.
    destruct Hstage as [[_ ->] | [Hf _]]; [|discriminate].
    assert (Hget : dict_get "brand_id" (copied items) = Some (Product.Col v))
      by (rewrite copied_get, Hid; reflexivity).
    destruct Hshape as [[_ ->] | [_ ->]].
    - split; [exact Hget|]. exists []. rewrite app_nil_r. split; [reflexivity|].
      intros [].
    - split; [rewrite dict_get_app, Hget; reflexivity|].
      eexists. split; [reflexivity|]. simpl.
      intros [Hin|[]]. discriminate. }
  split; [intros values Hvalues; apply Hcopied, Hvalues|].
  split; [|split].
  - intros bs. unfold Product.prepare_values. rewrite Hbrand.
    cbn [default truthy mbind result_bind].
    destruct (iter _) as [names|]; [|reflexivity].
    rewrite !Ok_bind.
    rewrite (by_name_reads_categories db _ names []); reflexivity.
  - unfold Product.create.
    destruct (Product.prepare_values db (PDict items)) as [values|e] eqn:Hvalues.
    + destruct (Hcopied _ eq_refl) as [-> _]. simpl. rewrite Hv. simpl.
      destruct (Product.attr_truthy _); simpl; [|discriminate].
      destruct (Product.setattrs Product.blank values) as [obj|e] eqn:Hobj.
      * destruct (Product.insert _ _ _ _ _) as [[db' row]|e] eqn:Hins;
          simpl; [discriminate|].
        intros [= ->].
        exact (engine_error_not_InvalidPayload _ _
                 (insert_Raise _ _ _ _ _ _ Hins) eq_refl).
      * simpl. destruct (setattrs_Raise _ _ _ Hobj) as [-> | [f ->]]; discriminate.
    + simpl.
      destruct (prepare_values_Raise _ _ _ Hvalues)
        as [-> | [-> | [[n ->] | [n ->]]]]; discriminate.
  - intros z Hz Hkeys db' p Hcreate. rewrite <- Hz.
    destruct (create_Ok _ _ _ _ _ _ _ Hcreate)
      as (values & obj & Hvalues & _ & _ & Hobj & Hins).
    destruct (Hcopied _ Hvalues) as [_ (cats & -> & Hcats)].
    rewrite setattrs_app in Hobj. apply bind_Ok in Hobj as (o & Ho & Hobj).
    destruct (insert_row _ _ _ _ _ _ _ Hins) as (_ & _ & -> & _).
    rewrite (setattrs_brand_id_other _ _ _ Hcats Hobj).
    apply (setattrs_brand_id Product.blank (copied items)).
    + apply copied_keys_NoDup, Hkeys.
    + rewrite copied_get, Hid; reflexivity.
    + exact Ho.
Qed.

Lemma brand_id_bypasses_lookup_witness :
  Product.create true by_size 100 shop (keyed_brand_payload 1) = (stocked, Ok hammer)
  /\ Product.brand_id hammer = PInt 1.
Proof.
  split; [reflexivity|].
  refine (proj2 (proj2 (proj2
           (brand_id_bypasses_lookup true by_size 100 shop
              [("name", PStr "hammer"); ("rating", PInt 4);
               ("items_in_stock", PInt 3); ("brand_id", PInt 1);
               ("categories", PList [PStr "tools"])]
              (PInt 1) eq_refl eq_refl eq_refl))) 1%Z eq_refl _
           stocked hammer eq_refl).
  simpl.
  repeat (apply List.NoDup_cons; [simpl; intuition discriminate|]).
  apply List.NoDup_nil.
Defined.

(** The create goes through whether or not foreign keys are enforced when
    the key is that of a stored brand. *)
Example create_by_brand_id (foreign_keys : bool) :
  Product.create foreign_keys by_size 100 shop (keyed_brand_payload 1)
  = (stocked, Ok hammer).
Proof. destruct foreign_keys; reflexivity. Qed.

(** Without foreign keys a [brand_id] of no brand is stored as well; the
    row is committed before [POST] fails to serialize it. *)
Example create_dangling_brand_id :
  exists db' row,
    Endpoints.create_product false by_size 100 shop (keyed_brand_payload 9)
    = (db', Endpoints.InvalidUsage (Endpoints.AnErrorAccrued AttributeError) 410)
    /\ Product.products db' !! 1%Z = Some row
    /\ Product.brand_id row = PInt 9.
Proof. do 2 eexists. split; [reflexivity|]. split; reflexivity. Qed.

(** ** Ratings and stock are never negative *)

Lemma create_product_db foreign_keys autoincrement utcnow db payload :
  fst (Endpoints.create_product foreign_keys autoincrement utcnow db payload)
  = fst (Product.create foreign_keys autoincrement utcnow db payload).
Proof.
  unfold Endpoints.create_product.
  destruct (Product.create _ _ _ _ _) as [db' [p|e]]; [|reflexivity].
  destruct (Product.serialized db' p); reflexivity.
Qed.

Lemma update_product_db foreign_keys db id payload :
  fst (Endpoints.update_product foreign_keys db id payload)
  = fst (Product.update foreign_keys db id payload).
Proof.
  unfold Endpoints.update_product.
  destruct (Product.update _ _ _ _) as [db' [[p|]|e]].
  - destruct (Product.serialized db' p) as [|[]]; reflexivity.
  - reflexivity.
  - destruct e; reflexivity.
Qed.

Lemma non_negative_unset_or v : non_negative v -> unset_or_non_negative v.
Proof. intros H. right. exact H. Qed.

Lemma create_never_negative foreign_keys autoincrement utcnow db payload :
  never_negative db ->
  never_negative (fst (Product.create foreign_keys autoincrement utcnow db payload)).
Proof.
  intros Hdb.
  destruct (Product.create _ _ _ _ _) as [db' [p|e]] eqn:Hcreate; simpl.
  - destruct (create_Ok _ _ _ _ _ _ _ Hcreate) as (values & obj & _ & _ & _ & Hobj & Hins).
    destruct (insert_stores _ _ _ _ _ _ _ Hins) as (pk & _ & _ & Hproducts & _).
    destruct (insert_row _ _ _ _ _ _ _ Hins) as (Hr & Hi & _ & _ & Hnr & Hni).
    destruct (setattrs_non_negative _ _ _ Hobj) as [Hrating Hstock].
    intros pk' p'. rewrite Hproducts, lookup_insert.
    destruct (decide (pk = pk')) as [_|_]; [|apply Hdb].
    intros [= <-]. split.
    + apply not_null_unset_or_non_negative; [exact Hnr|].
      rewrite Hr. apply to_float_unset_or, Hrating. left. reflexivity.
    + apply not_null_unset_or_non_negative; [exact Hni|].
      rewrite Hi. apply Hstock. left. reflexivity.
  - rewrite (create_Raise _ _ _ _ _ _ _ Hcreate). exact Hdb.
Qed.

Lemma update_never_negative foreign_keys db id payload :
  never_negative db ->
  never_negative (fst (Product.update foreign_keys db id payload)).
Proof.
  intros Hdb.
  destruct (Product.update _ _ _ _) as [db' r] eqn:Hupdate; simpl.
  destruct r as [[p'|]|e].
  - destruct (update_Ok _ _ _ _ _ _ Hupdate)
      as (values & p & obj & _ & Hp & Hset & Hflush).
    destruct (flush_stores _ _ _ _ _ _ Hflush)
      as (pk' & _ & Hproducts & _ & Hnr & Hni & Hitems).
    destruct (flush_row _ _ _ _ _ _ Hflush) as (Hr & _).
    destruct (setattrs_non_negative _ _ _ Hset) as [Hrating Hstock].
    destruct (Hdb _ _ Hp) as [Hpr Hpi].
    intros k q. rewrite Hproducts, lookup_insert.
    destruct (decide (pk' = k)) as [_|_].
    + intros [= <-]. split.
      * apply not_null_unset_or_non_negative; [exact Hnr|].
        rewrite Hr. apply to_float_unset_or, Hrating, non_negative_unset_or, Hpr.
      * apply not_null_unset_or_non_negative; [exact Hni|].
        rewrite Hitems. apply Hstock, non_negative_unset_or, Hpi.
    + rewrite lookup_delete. destruct (decide (id = k)); [discriminate|apply Hdb].
  - rewrite (update_unchanged _ _ _ _ _ _ Hupdate); [exact Hdb | discriminate].
  - rewrite (update_unchanged _ _ _ _ _ _ Hupdate); [exact Hdb | discriminate].
Qed.

Lemma delete_never_negative db id :
  never_negative db -> never_negative (fst (Product.delete db id)).
Proof.
  intros Hdb. rewrite delete_db.
  intros k q. simpl. rewrite lookup_delete.
  destruct (decide (id = k)); [discriminate | apply Hdb].
Qed.

Lemma handle_never_negative foreign_keys autoincrement db r :
  never_negative db ->
  never_negative (fst (handle foreign_keys autoincrement db r)).
Proof.
  intros Hdb. destruct r as [|utcnow payload|id payload|id|id| |id]; simpl;
    [| | | | |exact Hdb|exact Hdb].
  - unfold Endpoints.get_products. destruct (Endpoints.serialized_all _ _); exact Hdb.
  - rewrite create_product_db. apply create_never_negative, Hdb.
  - rewrite update_product_db. apply update_never_negative, Hdb.
  - unfold Endpoints.get_product.
    destruct (Product.retrieve db id) as [p|[]]; try exact Hdb.
    destruct (Product.serialized db p) as [|[]]; exact Hdb.
  - unfold Endpoints.delete_product.
    pose proof (delete_never_negative db id Hdb) as H.
    destruct (Product.delete db id) as [db' [|]]; exact H.
Qed.

Example minus_one_is_negative : ~ non_negative (PInt (-1)).
Proof. intros (q & [= <-] & H). apply Qle_bool_iff in H. discriminate. Qed.

(** C7: every request (list, create, update, retrieve, delete) takes a
    database in which every stored product has rating >= 0 and
    items_in_stock >= 0 to one in which that still holds, and it holds in
    every database reachable from one without products. *)
Theorem rating_and_stock_never_negative (foreign_keys : bool)
    (autoincrement : gmap Z Product.t -> Z) :
  (forall db r,
     never_negative db ->
     never_negative (fst (handle foreign_keys autoincrement db r)))
  /\ (forall db, reachable foreign_keys autoincrement db -> never_negative db).
Proof.
  split; [intros db r; apply handle_never_negative|].
  intros db Hreach. induction Hreach as [db Hempty | db r _ IH].
  - intros pk p. rewrite Hempty, lookup_empty. discriminate.
  - apply handle_never_negative, IH.
Qed.

Lemma rating_and_stock_never_negative_witness :
  reachable true by_size
    (fst (handle true by_size shop (POST_products 100 hammer_payload)))
  /\ Product.products
       (fst (handle true by_size shop (POST_products 100 hammer_payload))) !! 1%Z
     = Some hammer
  /\ never_negative
       (fst (handle true by_size shop (POST_products 100 hammer_payload))).
Proof.
  assert (Hreach : reachable true by_size
            (fst (handle true by_size shop (POST_products 100 hammer_payload))))
    by (apply reachable_step, reachable_init; reflexivity).
  split; [exact Hreach|]. split; [reflexivity|].
  apply (proj2 (rating_and_stock_never_negative true by_size)).
  exact Hreach.
Defined.

(** ** Category names *)

#[local] Arguments Product.first_category : simpl never.

Lemma by_name_set_looked_up db s d :
  looked_up db d ->
  looked_up db (Product.by_name_set (PStr s) (Product.first_category db (PStr s)) d)
  /\ forall k,
       In k (map fst (Product.by_name_set (PStr s)
                        (Product.first_category db (PStr s)) d))
       <-> k = PStr s \/ In k (map fst d).
Proof.
  induction 1 as [|[k0 c0] d (s0 & Hk & Hc) Hd [IHl IHk]]; simpl in *.
  - split; [repeat constructor; simpl; eauto | intuition congruence].
  - subst k0. simpl. destruct (String.eqb_spec s0 s) as [->|Hne]; simpl.
    + split; [constructor; simpl; eauto | intuition].
    + split; [constructor; simpl; eauto|].
      intros k. rewrite IHk. intuition.
Qed.

Lemma by_name_strings db names acc :
  looked_up db acc ->
  exists d,
    Product.by_name db (map PStr names) acc = Ok d
    /\ looked_up db d
    /\ forall k, In k (map fst d)
         <-> In k (map fst acc) \/ exists s, In s names /\ k = PStr s.
Proof.
  revert acc. induction names as [|s names IH]; intros acc Hacc; simpl.
  - exists acc. split; [reflexivity|]. split; [exact Hacc|].
    intros k. split; [auto | intros [H | (s & [] & _)]; exact H].
  - destruct (by_name_set_looked_up db s acc Hacc) as [Hset Hkeys].
    destruct (IH _ Hset) as (d & Hd & Hlooked & Hk).
    exists d. split; [exact Hd|]. split; [exact Hlooked|].
    intros k. rewrite Hk, Hkeys. split.
    + intros [[-> | H] | (s' & Hs' & ->)]; eauto.
    + intros [H | (s' & [<- | Hs'] & ->)]; eauto.
Qed.

Lemma resolved_looked_up db d :
  looked_up db d ->
  (forall cs, Product.resolved d = Ok cs ->
     forall c, In c cs
       <-> exists s, In (PStr s) (map fst d)
             /\ Product.first_category db (PStr s) = Some c)
  /\ ((exists s, In (PStr s) (map fst d)
               /\ Product.first_category db (PStr s) = None) ->
      exists e, Product.resolved d = Raise e).
Proof.
  induction 1 as [|[k0 c0] d (s0 & Hk & Hc) Hd [IHok IHraise]]; simpl in *.
  - split.
    + intros cs [= <-] c. split; [intros [] | intros (s & [] & _)].
    + intros (s & [] & _).
  - subst k0 c0. destruct (Product.first_category db (PStr s0)) as [c0|] eqn:Hc0.
    + split.
      * intros cs H c. apply bind_Ok in H as (cs' & Hcs' & [= <-]).
        simpl. rewrite (IHok _ Hcs' c). split.
        -- intros [<- | (s & Hs & Hsc)]; eauto.
        -- intros (s & [[= <-] | Hs] & Hsc); [left; congruence | eauto].
      * intros (s & [[= <-] | Hs] & Hsc); [congruence|].
        destruct IHraise as [e He]; [eauto|]. exists e. rewrite He. reflexivity.
    + split; [discriminate | eauto].
Qed.

(** The categories [prepare_values] resolves for a list of names. *)
Lemma prepare_values_categories db items names values :
  dict_get "categories" items = Some (PList (map PStr names)) ->
  Product.prepare_values db (PDict items) = Ok values ->
  (forall n, In n names -> Product.first_category db (PStr n) <> None)
  /\ exists cols,
       Forall column_entry cols
       /\ ((names = [] /\ values = cols)
           \/ (names <> [] /\ exists cs,
                 values = cols ++ [("categories", Product.Rel cs)]
                 /\ forall c, In c cs
                      <-> exists n, In n names
                            /\ Product.first_category db (PStr n) = Some c)).
Proof.
  intros Hcat Hvalues.
  destruct (prepare_values_Ok _ _ _ Hvalues)
    as (cols & names' & cats & cs & _ & Hnames & Hcats & Hcs & Hshape & Hcols).
  rewrite Hcat in Hnames. simpl in Hnames. injection Hnames as <-.
  destruct (by_name_strings db names [] (List.Forall_nil _)) as (d & Hd & Hlooked & Hk).
  rewrite Hd in Hcats. injection Hcats as <-.
  destruct (resolved_looked_up db d Hlooked) as [Hok Hraise].
  assert (Hkeys : forall s, In (PStr s) (map fst d) <-> In s names).
  { intros s. rewrite Hk. split.
    - intros [[] | (s' & Hs' & [= ->])]. exact Hs'.
    - eauto. }
  split.
  - intros n Hn Hnone. destruct Hraise as [e He]; [|congruence].
    exists n. split; [apply Hkeys, Hn | exact Hnone].
  - exists cols. split; [exact Hcols|].
    destruct names as [|n names].
    + left. split; [reflexivity|]. simpl in Hd. injection Hd as <-.
      destruct Hshape as [[_ ->] | [Hne _]]; [reflexivity | contradiction].
    + right. split; [discriminate|]. exists cs.
      destruct Hshape as [[-> _] | [_ ->]].
      * exfalso. apply (proj2 (Hkeys n)). left; reflexivity.
      * split; [reflexivity|]. intros c. rewrite (Hok _ Hcs c).
        split; intros (s & Hs & Hsc); exists s; split; auto; apply Hkeys, Hs.
Qed.

(** C2, as the code has it: when [categories] is bound to a list of names,
    a successful [prepare_values] means every name has a Category, and one
    name without a Category makes [prepare_values], and with it update and
    create, raise without touching the database; after a successful update
    that leaves the product under its key, the product's categories are
    exactly the categories of the listed names when the list is not empty,
    and are left as they were when it is empty.  (An update that also
    moves the row to another [id] is the business of [flush]: the rows of
    the join table stay under the old key.) *)
Theorem categories_resolved_and_replaced (foreign_keys : bool) (db : Product.Db)
    (items : list (string * pyval)) (names : list string) :
  dict_get "categories" items = Some (PList (map PStr names)) ->
  (forall values,
     Product.prepare_values db (PDict items) = Ok values ->
     (forall n, In n names -> Product.first_category db (PStr n) <> None)
     /\ (names = [] -> dict_get "categories" values = None)
     /\ (names <> [] ->
         exists cs,
           dict_get "categories" values = Some (Product.Rel cs)
           /\ forall c, In c cs
                <-> exists n, In n names
                      /\ Product.first_category db (PStr n) = Some c))
  /\ ((exists n, In n names /\ Product.first_category db (PStr n) = None) ->
      exists e,
        Product.prepare_values db (PDict items) = Raise e
        /\ (forall id,
              Product.update foreign_keys db id (PDict items) = (db, Raise e))
        /\ (forall autoincrement utcnow,
              Product.create foreign_keys autoincrement utcnow db (PDict items)
              = (db, Raise e)))
  /\ (forall id p db' p',
        Product.products db !! id = Some p ->
        Product.update foreign_keys db id (PDict items) = (db', Ok (Some p')) ->
        Product.id p' = PInt id ->
        (names = [] -> Product.categories p' = Product.categories p)
        /\ (names <> [] ->
            forall c, In c (Product.categories p')
              <-> exists n, In n names
                    /\ Product.first_category db (PStr n) = Some c)).
Proof.
  intros Hcat. split; [|split].
  - intros values Hvalues.
    destruct (prepare_values_categories _ _ _ _ Hcat Hvalues)
      as [Hall (cols & Hcols & Hshape)].
    split; [exact Hall|]. split.
    + intros ->. destruct Hshape as [[_ ->] | [Hne _]]; [|contradiction].
      exact (column_entries_no_categories _ Hcols).
    + intros Hne. destruct Hshape as [[-> _] | [_ (cs & -> & Hcs)]];
        [contradiction|].
      exists cs. split; [|exact Hcs].
      rewrite dict_get_app, (column_entries_no_categories _ Hcols).
      reflexivity.
  - intros (n & Hn & Hnone).
    destruct (Product.prepare_values db (PDict items)) as [values|e] eqn:Hvalues.
    + destruct (prepare_values_categories _ _ _ _ Hcat Hvalues) as [Hall _].
      destruct (Hall n Hn Hnone).
    + exists e. split; [reflexivity|]. split.
      * intros id. unfold Product.update. rewrite Hvalues. reflexivity.
      * intros autoincrement utcnow. unfold Product.create.
        rewrite Hvalues. reflexivity.
  - intros id p db' p' Hp Hupdate Hkey.
    destruct (update_Ok _ _ _ _ _ _ Hupdate)
      as (values & p0 & obj & Hvalues & Hp0 & Hset & Hflush).
    assert (p0 = p) as -> by congruence.
    destruct (flush_row _ _ _ _ _ _ Hflush) as (_ & Hsame & Hcats & _).
    rewrite Hcats
      by (rewrite <- Hkey; symmetry; exact (Hsame "id" ltac:(discriminate))).
    destruct (prepare_values_categories _ _ _ _ Hcat Hvalues)
      as [_ (cols & Hcols & Hshape)].
    split.
    + intros ->. destruct Hshape as [[_ ->] | [Hne _]]; [|contradiction].
      exact (setattrs_columns_categories _ _ _ Hcols Hset).
    + intros Hne. destruct Hshape as [[-> _] | [_ (cs & -> & Hcs)]];
        [contradiction|].
      rewrite setattrs_app in Hset. apply bind_Ok in Hset as (o & _ & Hset).
      simpl in Hset. injection Hset as <-. exact Hcs.
Qed.

Lemma categories_resolved_and_replaced_witness :
  dict_get "categories" [("categories", PList [PStr "toys"; PStr "toys"])]
  = Some (PList (map PStr ["toys"; "toys"]))
  /\ Product.products stocked !! 1%Z = Some hammer
  /\ (exists db' p',
        Product.update true stocked 1
          (PDict [("categories", PList [PStr "toys"; PStr "toys"])])
        = (db', Ok (Some p'))
        /\ Product.categories p' = [Category.mk 2 "toys"]
        /\ forall c, In c (Product.categories p')
             <-> exists n, In n ["toys"; "toys"]
                   /\ Product.first_category stocked (PStr n) = Some c).
Proof.
  split; [reflexivity|]. split; [reflexivity|].
  eexists _, _. split; [reflexivity|]. split; [reflexivity|].
  refine (proj2 (proj2 (proj2
           (categories_resolved_and_replaced true stocked
              [("categories", PList [PStr "toys"; PStr "toys"])]
              ["toys"; "toys"] eq_refl))
           1%Z hammer _ _ eq_refl eq_refl eq_refl) _).
  discriminate.
Defined.

(** With foreign keys off, an update that moves the row to another [id]
    and names no category leaves the moved row without categories. *)
Example update_moves_row_without_categories :
  exists db' p',
    Product.update false stocked 1
      (PDict [("id", PInt 5); ("categories", PList [])])
    = (db', Ok (Some p'))
    /\ Product.id p' = PInt 5
    /\ Product.categories p' = []
    /\ Product.categories hammer = [Category.mk 1 "tools"].
Proof. eexists _, _. split; [reflexivity|]. repeat split. Qed.

(** With foreign keys on, the join table refuses the move. *)
Example update_moving_joined_row_refused :
  Product.update true stocked 1 (PDict [("id", PInt 5)])
  = (stocked, Raise IntegrityError).
Proof. reflexivity. Qed.

(** An update with an empty list leaves the categories in place. *)
Example update_empty_categories :
  Product.update true stocked 1 (PDict [("categories", PList [])])
  = (stocked, Ok (Some hammer)).
Proof. vm_compute. reflexivity. Qed.

(** C2 as stated fails on the empty list: the update succeeds and the
    product keeps its category, which is none of the (no) listed names. *)
Lemma empty_category_list_does_not_replace :
  ~ (forall foreign_keys db items names id db' p',
       dict_get "categories" items = Some (PList (map PStr names)) ->
       Product.update foreign_keys db id (PDict items) = (db', Ok (Some p')) ->
       forall c, In c (Product.categories p')
         <-> exists n, In n names
               /\ Product.first_category db (PStr n) = Some c).
Proof.
  intros claim.
  pose proof (claim true stocked [("categories", PList [])] [] 1%Z
                (fst (Product.update true stocked 1
                        (PDict [("categories", PList [])])))
                hammer eq_refl eq_refl (Category.mk 1 "tools")) as [Hin _].
  destruct Hin as (n & [] & _). left. reflexivity.
Qed.

(** * Further properties *)

(** ** Reading attributes back *)

Lemma validate_name_Ok v v' : Product.validate_name v = Ok v' -> v' = v.
Proof.
  unfold Product.validate_name. intros H.
  apply bind_Ok in H as (n & _ & H).
  destruct (_ || _)%bool; congruence.
Qed.

Lemma validate_featured_Ok v v' :
  Product.validate_featured v = Ok v' -> v' = v /\ exists b, v = PBool b.
Proof. destruct v; simpl; intros [= <-]; eauto. Qed.

(** Decides every comparison of the key [k] with a column name. *)
Ltac column_cases k :=
  repeat match goal with
  | |- context [String.eqb k ?c] =>
      destruct (String.eqb_spec k c);
      [subst k; try contradiction; try discriminate; try reflexivity|]
  end; try reflexivity.

Lemma setattr_getattr_other obj k a obj' k' :
  k' <> k ->
  Product.setattr obj k a = Ok obj' ->
  getattr obj' k' = getattr obj k'.
Proof.
  intros Hne H. setattr_cases H; validated H; unfold getattr; simpl;
    column_cases k'.
Qed.

Lemma setattr_getattr_same obj k v obj' :
  Product.is_column k = true ->
  Product.setattr obj k (Product.Col v) = Ok obj' ->
  getattr obj' k = v.
Proof.
  intros Hk H. setattr_cases H; try discriminate Hk; validated H;
    unfold getattr; simpl; try reflexivity.
  - exact (validate_name_Ok _ _ Hv).
  - exact (proj1 (validate_featured_Ok _ _ Hv)).
  - exact (proj1 (validate_rating_Ok _ _ Hv)).
  - exact (proj1 (validate_items_in_stock_Ok _ _ Hv)).
  - exfalso. unfold Product.is_column in Hk. simpl in Hk.
    repeat match type of Hk with
    | context [String.eqb k ?c] =>
        destruct (String.eqb_spec k c); [contradiction|]
    end.
    discriminate Hk.
Qed.

Lemma setattrs_getattr_other obj d obj' k :
  ~ In k (map fst d) ->
  Product.setattrs obj d = Ok obj' ->
  getattr obj' k = getattr obj k.
Proof.
  revert obj. induction d as [|[k0 a] d IH]; intros obj Hk; simpl.
  - intros [= <-]. reflexivity.
  - intros H. apply bind_Ok in H as (o & Ho & H).
    simpl in Hk. apply Decidable.not_or in Hk as [Hne Hk].
    rewrite (IH _ Hk H).
    apply (setattr_getattr_other _ k0 a); [congruence | exact Ho].
Qed.

Lemma setattrs_getattr_same obj d obj' k v :
  Product.is_column k = true ->
  List.NoDup (map fst d) ->
  dict_get k d = Some (Product.Col v) ->
  Product.setattrs obj d = Ok obj' ->
  getattr obj' k = v.
Proof.
  intros Hcol. revert obj.
  induction d as [|[k0 a] d IH]; intros obj Hd; simpl; [discriminate|].
  simpl in Hd. apply NoDup_cons_iff in Hd as [Hk0 Hrest].
  destruct (String.eqb_spec k0 k) as [->|Hne].
  - intros [= ->] H. apply bind_Ok in H as (o & Ho & H).
    rewrite (setattrs_getattr_other _ _ _ _ Hk0 H).
    exact (setattr_getattr_same _ _ _ _ Hcol Ho).
  - intros Hget H. apply bind_Ok in H as (o & _ & H).
    exact (IH _ Hrest Hget H).
Qed.

Lemma dict_get_None_keys {V} (k : string) (d : dict V) :
  dict_get k d = None <-> ~ In k (map fst d).
Proof.
  induction d as [|[k' v] d IH]; simpl; [tauto|].
  destruct (String.eqb_spec k' k) as [->|Hne].
  - split; [discriminate | intros H; destruct H; auto].
  - rewrite IH. tauto.
Qed.

Lemma copied_keys (items : list (string * pyval)) (k : string) :
  In k (map fst (copied items)) ->
  In k (map fst items) /\ Product.is_column k = true.
Proof.
  unfold copied. intros H.
  apply in_map_iff in H as ([k' a] & <- & H).
  apply in_map_iff in H as ([k'' v] & [= <- <-] & H).
  apply filter_In in H as [H Hcol]. split; [|exact Hcol].
  apply in_map_iff. exists (k'', v). auto.
Qed.

Lemma dict_set_keys {V} (k0 : string) (v : V) (d : dict V) (k : string) :
  In k (map fst (dict_set k0 v d)) <-> k = k0 \/ In k (map fst d).
Proof.
  induction d as [|[k' v'] d IH]; simpl; [intuition congruence|].
  destruct (String.eqb_spec k' k0) as [->|Hne]; simpl; [intuition|].
  rewrite IH. intuition.
Qed.

Lemma dict_set_keys_NoDup {V} (k0 : string) (v : V) (d : dict V) :
  List.NoDup (map fst d) -> List.NoDup (map fst (dict_set k0 v d)).
Proof.
  induction d as [|[k' v'] d IH]; simpl; intros H.
  - repeat constructor. intros [].
  - apply NoDup_cons_iff in H as [Hk Hd].
    destruct (String.eqb_spec k' k0) as [->|Hne]; simpl.
    + apply NoDup_cons_iff. auto.
    + apply NoDup_cons_iff. split; [|auto].
      rewrite dict_set_keys. intros [-> | H]; contradiction.
Qed.

(** ** Payloads the validators refuse *)

Lemma update_product_Raise foreign_keys db id payload e :
  Product.update foreign_keys db id payload = (db, Raise e) ->
  Endpoints.update_product foreign_keys db id payload
  = (db, Endpoints.InvalidUsage (Endpoints.AnErrorAccrued e) 410).
Proof.
  intros H. unfold Endpoints.update_product. rewrite H.
  destruct e; try reflexivity.
  destruct (update_not_NoResultFound _ _ _ _ _ H).
Qed.

Lemma dict_get_In {V} (k : string) (v : V) (d : dict V) :
  dict_get k d = Some v -> In (k, v) d.
Proof.
  induction d as [|[k' v'] d IH]; simpl; [discriminate|].
  destruct (String.eqb_spec k' k) as [->|]; [intros [= ->]; auto | auto].
Qed.

Lemma dict_set_In_other {V} (k0 : string) (v0 : V) (d : dict V) k v :
  k <> k0 -> In (k, v) d -> In (k, v) (dict_set k0 v0 d).
Proof.
  intros Hne. induction d as [|[k' v'] d IH]; simpl; [tauto|].
  destruct (String.eqb_spec k' k0) as [->|]; simpl.
  - intros [[= -> ->] | H]; [contradiction | auto].
  - intros [H | H]; auto.
Qed.

(** A column of the payload, other than [brand_id], reaches [setattr]
    with the payload's value. *)
Lemma prepare_values_copies db items values k v :
  Product.prepare_values db (PDict items) = Ok values ->
  dict_get k items = Some v ->
  Product.is_column k = true ->
  k <> "brand_id" ->
  In (k, Product.Col v) values.
Proof.
  intros Hvalues Hget Hcol Hne.
  destruct (prepare_values_Ok _ _ _ Hvalues)
    as (cols & names & cats & cs & Hstage & _ & _ & _ & Hshape & _).
  assert (Hcopied : In (k, Product.Col v) (copied items)).
  { apply dict_get_In. rewrite copied_get, Hget; auto. }
  assert (Hcols : In (k, Product.Col v) cols).
  { destruct Hstage as [[_ ->] | [_ (b & _ & ->)]]; [exact Hcopied|].
    apply dict_set_In_other; assumption. }
  destruct Hshape as [[_ ->] | [_ ->]]; [exact Hcols|].
  apply in_or_app. left. exact Hcols.
Qed.

Lemma setattrs_rejects obj d k a :
  In (k, a) d ->
  (forall o, exists e, Product.setattr o k a = Raise e) ->
  exists e, Product.setattrs obj d = Raise e.
Proof.
  intros Hin Hraise. revert obj.
  induction d as [|[k0 a0] d IH]; intros obj; [destruct Hin|].
  simpl. destruct Hin as [[= -> ->] | Hin].
  - destruct (Hraise obj) as [e ->]. exists e. reflexivity.
  - destruct (Product.setattr obj k0 a0) as [o|e]; simpl; [|eauto].
    exact (IH Hin o).
Qed.

(** A payload with a column that [setattr] refuses is refused as a whole,
    by create and by update, whatever else it holds. *)
Lemma invalid_column_refused foreign_keys autoincrement utcnow db items k v :
  dict_get k items = Some v ->
  Product.is_column k = true ->
  k <> "brand_id" ->
  (forall o, exists e, Product.setattr o k (Product.Col v) = Raise e) ->
  refused foreign_keys autoincrement utcnow db (PDict items).
Proof.
  intros Hget Hcol Hne Hraise.
  assert (Hset : forall values obj,
    Product.prepare_values db (PDict items) = Ok values ->
    exists e, Product.setattrs obj values = Raise e).
  { intros values obj Hvalues.
    apply (setattrs_rejects obj values k (Product.Col v)); [|exact Hraise].
    exact (prepare_values_copies _ _ _ _ _ Hvalues Hget Hcol Hne). }
  split.
  - assert (Hcreate : exists e,
      Product.create foreign_keys autoincrement utcnow db (PDict items)
      = (db, Raise e)).
    { unfold Product.create.
      destruct (Product.prepare_values db (PDict items)) as [values|e] eqn:Hvalues;
        [|eauto].
      destruct (negb _); [eauto|]. destruct (negb _); [eauto|].
      destruct (Hset values Product.blank eq_refl) as [e ->]. eauto. }
    destruct Hcreate as [e He]. exists e. split; [exact He|].
    exact (create_product_Raise _ _ _ _ _ _ He).
  - intros id.
    assert (Hupdate : exists e,
      Product.update foreign_keys db id (PDict items) = (db, Raise e)).
    { unfold Product.update, Product.get.
      destruct (Product.prepare_values db (PDict items)) as [values|e] eqn:Hvalues;
        [|eauto].
      destruct (Product.products db !! id) as [obj|].
      - destruct (Hset values obj eq_refl) as [e ->]. eauto.
      - destruct (Product.binds db id); [|eauto].
        destruct (Hset values Product.blank eq_refl) as [e He].
        destruct values; [discriminate He | eauto]. }
    destruct Hupdate as [e He]. exists e. split; [exact He|].
    exact (update_product_Raise _ _ _ _ _ He).
Qed.

(** X1: a payload whose [featured] is not a boolean (a truthy [1] or
    ["true"] included) is refused by create and by update of any id: the
    view answers 410 and the database stays as it was. *)
Theorem featured_must_be_bool (foreign_keys : bool)
    (autoincrement : gmap Z Product.t -> Z) (utcnow : Z) (db : Product.Db)
    (items : list (string * pyval)) (v : pyval) :
  dict_get "featured" items = Some v ->
  (forall b, v <> PBool b) ->
  refused foreign_keys autoincrement utcnow db (PDict items).
Proof.
  intros Hget Hv.
  apply (invalid_column_refused _ _ _ _ _ "featured" v Hget);
    [reflexivity | discriminate |].
  intros o. exists (ValueError "featured").
  destruct v; try reflexivity. destruct (Hv b). reflexivity.
Qed.

Lemma featured_must_be_bool_witness :
  dict_get "featured" [("featured", PInt 1)] = Some (PInt 1)
  /\ refused true by_size 100 stocked (PDict [("featured", PInt 1)]).
Proof.
  split; [reflexivity|].
  apply (featured_must_be_bool true by_size 100 stocked
           [("featured", PInt 1)] (PInt 1) eq_refl).
  discriminate.
Defined.

(** X2: a payload whose [name] is a string of more than 50 characters is
    refused by create and by update of any id. *)
Theorem long_name_refused (foreign_keys : bool)
    (autoincrement : gmap Z Product.t -> Z) (utcnow : Z) (db : Product.Db)
    (items : list (string * pyval)) (s : string) :
  dict_get "name" items = Some (PStr s) ->
  (50 < String.length s)%nat ->
  refused foreign_keys autoincrement utcnow db (PDict items).
Proof.
  intros Hget Hlen.
  apply (invalid_column_refused _ _ _ _ _ "name" (PStr s) Hget);
    [reflexivity | discriminate |].
  intros o. exists (ValueError "name").
  unfold Product.setattr. simpl. unfold Product.validate_name. simpl.
  assert ((50 <? Z.of_nat (String.length s))%Z = true) as ->
    by (apply Z.ltb_lt; lia).
  rewrite orb_true_r. reflexivity.
Qed.

Lemma long_name_refused_witness :
  dict_get "name" [("name", PStr "a product name that is fifty-one characters long ..")]
  = Some (PStr "a product name that is fifty-one characters long ..")
  /\ refused true by_size 100 stocked
       (PDict [("name", PStr "a product name that is fifty-one characters long ..")]).
Proof.
  split; [reflexivity|].
  apply (long_name_refused true by_size 100 stocked
           [("name", PStr "a product name that is fifty-one characters long ..")]
           "a product name that is fifty-one characters long .." eq_refl).
  simpl. lia.
Defined.

(** X3: a payload whose [rating] or [items_in_stock] is anything but a
    number that is at least zero (a negative number, a string, null) is
    refused by create and by update of any id. *)
Theorem negative_or_non_numeric_refused (foreign_keys : bool)
    (autoincrement : gmap Z Product.t -> Z) (utcnow : Z) (db : Product.Db)
    (items : list (string * pyval)) (k : string) (v : pyval) :
  k = "rating" \/ k = "items_in_stock" ->
  dict_get k items = Some v ->
  ~ non_negative v ->
  refused foreign_keys autoincrement utcnow db (PDict items).
Proof.
  intros Hk Hget Hv.
  apply (invalid_column_refused _ _ _ _ _ k v Hget);
    [destruct Hk as [-> | ->]; reflexivity
    |destruct Hk as [-> | ->]; discriminate|].
  intros o. destruct Hk as [-> | ->]; unfold Product.setattr; simpl.
  - destruct (Product.validate_rating v) as [v'|e] eqn:Hval; simpl; [|eauto].
    destruct Hv. exact (proj2 (validate_rating_Ok _ _ Hval)).
  - destruct (Product.validate_items_in_stock v) as [v'|e] eqn:Hval; simpl;
      [|eauto].
    destruct Hv. exact (proj2 (validate_items_in_stock_Ok _ _ Hval)).
Qed.

Lemma negative_or_non_numeric_refused_witness :
  dict_get "items_in_stock" [("items_in_stock", PStr "3")] = Some (PStr "3")
  /\ refused true by_size 100 stocked (PDict [("items_in_stock", PStr "3")]).
Proof.
  split; [reflexivity|].
  apply (negative_or_non_numeric_refused true by_size 100 stocked
           [("items_in_stock", PStr "3")] "items_in_stock" (PStr "3")).
  - right. reflexivity.
  - reflexivity.
  - intros (q & Hq & _). discriminate Hq.
Defined.

(** ** What an update changes *)

(** The keys [prepare_values] hands on: columns of the payload,
    [brand_id] when a brand was named, and [categories]. *)
Lemma prepare_values_keys db items values k :
  Product.prepare_values db (PDict items) = Ok values ->
  In k (map fst values) ->
  k = "categories"
  \/ (k = "brand_id" /\ truthy (default PNone (dict_get "brand" items)) = true)
  \/ (In k (map fst items) /\ Product.is_column k = true).
Proof.
  intros Hvalues Hin.
  destruct (prepare_values_Ok _ _ _ Hvalues)
    as (cols & names & cats & cs & Hstage & _ & _ & _ & Hshape & _).
  assert (Hcols : In k (map fst cols) ->
    (k = "brand_id" /\ truthy (default PNone (dict_get "brand" items)) = true)
    \/ (In k (map fst items) /\ Product.is_column k = true)).
  { destruct Hstage as [[_ ->] | [Ht (b & _ & ->)]].
    - intros H. right. exact (copied_keys _ _ H).
    - rewrite dict_set_keys. intros [-> | H]; [left; auto|].
      right. exact (copied_keys _ _ H). }
  destruct Hshape as [[_ ->] | [_ ->]]; [auto|].
  rewrite map_app in Hin. apply in_app_or in Hin as [H | [<- | []]]; auto.
Qed.

(** X4: a successful update leaves every column the payload does not
    mention as it was ([brand_id] provided no brand is named either; the
    rating as the float the Float column holds), and, when it leaves
    the product under its key, leaves the categories as they were when
    the payload has no [categories] key. *)
Theorem update_leaves_omitted_columns (foreign_keys : bool) (db : Product.Db)
    (id : Z) (items : list (string * pyval)) (p : Product.t)
    (db' : Product.Db) (p' : Product.t) :
  Product.products db !! id = Some p ->
  Product.update foreign_keys db id (PDict items) = (db', Ok (Some p')) ->
  (forall k,
     dict_get k items = None ->
     (k = "brand_id" -> truthy (default PNone (dict_get "brand" items)) = false) ->
     getattr p' k = stored k (getattr p k))
  /\ (dict_get "categories" items = None ->
      Product.id p' = PInt id ->
      Product.categories p' = Product.categories p).
Proof.
  intros Hp Hupdate.
  destruct (update_Ok _ _ _ _ _ _ Hupdate)
    as (values & p0 & obj & Hvalues & Hp0 & Hset & Hflush).
  assert (p0 = p) as -> by congruence.
  destruct (flush_row _ _ _ _ _ _ Hflush) as (Hrating & Hsame & Hcats & _).
  split.
  - intros k Hk Hbrand.
    destruct (String.eqb_spec k "categories") as [->|Hcat]; [reflexivity|].
    assert (Hobj : getattr obj k = getattr p k).
    { apply (setattrs_getattr_other _ values); [|exact Hset].
      intros Hin.
      destruct (prepare_values_keys _ _ _ _ Hvalues Hin)
        as [-> | [[-> Ht] | [Hitems _]]].
      + contradiction.
      + rewrite Hbrand in Ht by reflexivity. discriminate.
      + apply dict_get_None_keys in Hk. contradiction. }
    unfold stored. destruct (String.eqb_spec k "rating") as [->|Hne].
    + rewrite <- Hobj. exact Hrating.
    + rewrite <- Hobj. exact (Hsame k Hne).
  - intros Hcat Hkey.
    rewrite Hcats
      by (rewrite <- Hkey; symmetry; exact (Hsame "id" ltac:(discriminate))).
    destruct (prepare_values_Ok _ _ _ Hvalues)
      as (cols & names & cats & cs & _ & Hnames & Hcats' & _ & Hshape & Hcols).
    rewrite Hcat in Hnames. simpl in Hnames. injection Hnames as <-.
    simpl in Hcats'. injection Hcats' as <-.
    destruct Hshape as [[_ ->] | [Hne _]]; [|contradiction].
    exact (setattrs_columns_categories _ _ _ Hcols Hset).
Qed.

Lemma update_leaves_omitted_columns_witness :
  Product.products stocked !! 1%Z = Some hammer
  /\ exists db' p',
       Product.update true stocked 1 (PDict [("rating", PFloat (9 # 2))])
       = (db', Ok (Some p'))
       /\ getattr p' "name" = PStr "hammer"
       /\ getattr p' "rating" = PFloat (9 # 2)
       /\ Product.categories p' = Product.categories hammer.
Proof.
  split; [reflexivity|]. eexists _, _. split; [reflexivity|].
  pose proof (update_leaves_omitted_columns true stocked 1
                [("rating", PFloat (9 # 2))] hammer _ _ eq_refl eq_refl)
    as [Hcols Hcats].
  split; [exact (Hcols "name" eq_refl ltac:(discriminate))|].
  split; [reflexivity | exact (Hcats eq_refl eq_refl)].
Defined.

(** The columns of [values] once the brand has been looked up. *)
Lemma prepare_values_cols db items values :
  List.NoDup (map fst items) ->
  Product.prepare_values db (PDict items) = Ok values ->
  exists cols cats,
    values = cols ++ cats
    /\ List.NoDup (map fst cols)
    /\ ~ In "brand_id" (map fst cats)
    /\ (forall k, Product.is_column k = true -> ~ In k (map fst cats))
    /\ (forall k v,
          Product.is_column k = true ->
          (k = "brand_id" ->
           truthy (default PNone (dict_get "brand" items)) = false) ->
          dict_get k items = Some v ->
          dict_get k cols = Some (Product.Col v))
    /\ (truthy (default PNone (dict_get "brand" items)) = true ->
        exists b,
          Product.first_brand db (default PNone (dict_get "brand" items)) = Some b
          /\ dict_get "brand_id" cols = Some (Product.Col (PInt (Brand.id b)))).
Proof.
  intros Hkeys Hvalues.
  destruct (prepare_values_Ok _ _ _ Hvalues)
    as (cols & names & cats & cs & Hstage & _ & _ & _ & Hshape & _).
  exists cols, (match cats with [] => [] | _ => [("categories", Product.Rel cs)] end).
  split; [|split; [|split; [|split; [|split]]]].
  - destruct Hshape as [[-> ->] | [Hne ->]]; [symmetry; apply app_nil_r|].
    destruct cats; [contradiction | reflexivity].
  - destruct Hstage as [[_ ->] | [_ (b & _ & ->)]].
    + apply copied_keys_NoDup, Hkeys.
    + apply dict_set_keys_NoDup, copied_keys_NoDup, Hkeys.
  - destruct cats; simpl; [tauto | intros [H | []]; discriminate].
  - intros k Hk. destruct cats; simpl; [tauto|].
    intros [<- | []]. discriminate.
  - intros k v Hk Hbrand Hget.
    destruct Hstage as [[_ ->] | [Ht (b & _ & ->)]].
    + rewrite copied_get, Hget; auto.
    + rewrite dict_get_set_ne, copied_get, Hget; auto.
      intros <-. rewrite Hbrand in Ht by reflexivity. discriminate.
  - intros Ht. destruct Hstage as [[Hf _] | [_ (b & Hb & ->)]]; [congruence|].
    exists b. split; [exact Hb | apply dict_get_set_eq].
Qed.

(** What the instance holds once the values have been assigned. *)
Lemma setattrs_values obj cols cats obj' k v :
  Product.is_column k = true ->
  List.NoDup (map fst cols) ->
  ~ In k (map fst cats) ->
  dict_get k cols = Some (Product.Col v) ->
  Product.setattrs obj (cols ++ cats) = Ok obj' ->
  getattr obj' k = v.
Proof.
  intros Hk Hcols Hcats Hget Hset.
  rewrite setattrs_app in Hset. apply bind_Ok in Hset as (o & Ho & Hset).
  rewrite (setattrs_getattr_other _ _ _ _ Hcats Hset).
  exact (setattrs_getattr_same _ _ _ _ _ Hk Hcols Hget Ho).
Qed.

Lemma column_typed_is_column k v :
  column_typed k v -> Product.is_column k = true.
Proof.
  intros [[-> _] | [[-> _] | [[-> _] | [[-> | ->] _]]]]; reflexivity.
Qed.

(** X5: after a successful update, a column the payload gives a value of
    the column's type for holds that value, a rating as a float
    ([brand_id] provided no brand is named); the keys of a parsed JSON
    object are distinct. *)
Theorem update_stores_payload_columns (foreign_keys : bool) (db : Product.Db)
    (id : Z) (items : list (string * pyval)) (db' : Product.Db)
    (p' : Product.t) (k : string) (v : pyval) :
  List.NoDup (map fst items) ->
  Product.update foreign_keys db id (PDict items) = (db', Ok (Some p')) ->
  dict_get k items = Some v ->
  column_typed k v ->
  (k = "brand_id" -> truthy (default PNone (dict_get "brand" items)) = false) ->
  getattr p' k = stored k v
  /\ exists pk, Product.products db' !! pk = Some p'.
Proof.
  intros Hkeys Hupdate Hget Htyped Hbrand.
  pose proof (column_typed_is_column _ _ Htyped) as Hk.
  destruct (update_Ok _ _ _ _ _ _ Hupdate)
    as (values & p & obj & Hvalues & _ & Hset & Hflush).
  destruct (prepare_values_cols _ _ _ Hkeys Hvalues)
    as (cols & cats & -> & Hcols & _ & Hcats & Hcopy & _).
  assert (Hobj : getattr obj k = v)
    by exact (setattrs_values _ _ _ _ _ _ Hk Hcols (Hcats k Hk)
                (Hcopy k v Hk Hbrand Hget) Hset).
  destruct (flush_row _ _ _ _ _ _ Hflush) as (Hrating & Hsame & _).
  split.
  - unfold stored. destruct (String.eqb_spec k "rating") as [->|Hne].
    + rewrite <- Hobj. exact Hrating.
    + rewrite <- Hobj. exact (Hsame k Hne).
  - destruct (flush_stores _ _ _ _ _ _ Hflush) as (pk & _ & Hproducts & _).
    exists pk. rewrite Hproducts. apply lookup_insert_eq.
Qed.

Lemma update_stores_payload_columns_witness :
  exists db' p',
    Product.update true stocked 1
      (PDict [("name", PStr "claw hammer"); ("rating", PInt 5)])
    = (db', Ok (Some p'))
    /\ getattr p' "rating" = PFloat (inject_Z 5).
Proof.
  eexists _, _. split; [reflexivity|].
  refine (proj1 (update_stores_payload_columns true stocked 1
            [("name", PStr "claw hammer"); ("rating", PInt 5)]
            _ _ "rating" (PInt 5) _ eq_refl eq_refl _ _)).
  - simpl. repeat (apply List.NoDup_cons; [simpl; intuition discriminate|]).
    apply List.NoDup_nil.
  - right. right. left. split; [reflexivity|]. left. exists 5%Z.
    split; [reflexivity | vm_compute; discriminate].
  - discriminate.
Defined.

(** ** What a create stores *)

Lemma first_brand_Some db bn b :
  Product.first_brand db bn = Some b ->
  bn = PStr (Brand.name b) /\ In b (Product.brands db).
Proof.
  unfold Product.first_brand. destruct bn; try discriminate.
  intros H. apply find_some in H as [Hin Hname].
  apply String.eqb_eq in Hname. subst. auto.
Qed.

(** An INSERT keeps every attribute that was assigned a value. *)
Lemma insert_getattr foreign_keys autoincrement utcnow db obj db' row k :
  Product.insert foreign_keys autoincrement utcnow db obj = Ok (db', row) ->
  getattr obj k <> PNone ->
  getattr row k = stored k (getattr obj k).
Proof.
  intros H Hne.
  destruct (insert_Ok _ _ _ _ _ _ _ H) as (pk & Hpk & _ & _ & -> & _).
  unfold stored, getattr in *.
  repeat match goal with
  | |- context [String.eqb k ?c] =>
      destruct (String.eqb_spec k c); [subst k; simpl in *|]
  end;
    try reflexivity; try discriminate.
  - destruct Hpk as [[E _] | E]; [contradiction | symmetry; exact E].
  - destruct (Product.featured obj); simpl in *; congruence.
  - destruct (Product.created_at obj); simpl in *; congruence.
Qed.

(** X6: when the payload names a brand by a non-empty string, the
    product a create or an update returns carries the key of the first
    Brand of that name, whatever [brand_id] the payload holds beside it. *)
Theorem brand_name_overrides_brand_id (foreign_keys : bool)
    (autoincrement : gmap Z Product.t -> Z) (utcnow : Z) (db : Product.Db)
    (items : list (string * pyval)) (brand_name : string) :
  List.NoDup (map fst items) ->
  dict_get "brand" items = Some (PStr brand_name) ->
  brand_name <> EmptyString ->
  (forall db' p,
     Product.create foreign_keys autoincrement utcnow db (PDict items)
     = (db', Ok p) ->
     exists b, Product.first_brand db (PStr brand_name) = Some b
       /\ Brand.name b = brand_name
       /\ Product.brand_id p = PInt (Brand.id b))
  /\ (forall id db' p',
        Product.update foreign_keys db id (PDict items) = (db', Ok (Some p')) ->
        exists b, Product.first_brand db (PStr brand_name) = Some b
          /\ Brand.name b = brand_name
          /\ Product.brand_id p' = PInt (Brand.id b)).
Proof.
  intros Hkeys Hbrand Hne.
  assert (Ht : truthy (PStr brand_name) = true)
    by (destruct brand_name; [contradiction | reflexivity]).
  assert (Hset : forall values obj obj',
    Product.prepare_values db (PDict items) = Ok values ->
    Product.setattrs obj values = Ok obj' ->
    exists b, Product.first_brand db (PStr brand_name) = Some b
      /\ Brand.name b = brand_name
      /\ Product.brand_id obj' = PInt (Brand.id b)).
  { intros values obj obj' Hvalues Hobj.
    destruct (prepare_values_cols _ _ _ Hkeys Hvalues)
      as (cols & cats & -> & Hcols & Hcats & _ & _ & Hb).
    rewrite Hbrand in Hb. change (default PNone (Some (PStr brand_name)))
      with (PStr brand_name) in Hb.
    destruct (Hb Ht) as (b & Hfirst & Hget).
    exists b. split; [exact Hfirst|].
    split; [pose proof (proj1 (first_brand_Some _ _ _ Hfirst)); congruence|].
    exact (setattrs_values _ _ _ _ "brand_id" _ eq_refl Hcols Hcats Hget Hobj). }
  split.
  - intros db' p Hcreate.
    destruct (create_Ok _ _ _ _ _ _ _ Hcreate)
      as (values & obj & Hvalues & _ & _ & Hobj & Hins).
    destruct (insert_row _ _ _ _ _ _ _ Hins) as (_ & _ & -> & _).
    exact (Hset _ _ _ Hvalues Hobj).
  - intros id db' p' Hupdate.
    destruct (update_Ok _ _ _ _ _ _ Hupdate)
      as (values & p & obj & Hvalues & _ & Hobj & Hflush).
    destruct (flush_row _ _ _ _ _ _ Hflush) as (_ & Hsame & _).
    pose proof (Hsame "brand_id" ltac:(discriminate)) as Hb.
    unfold getattr in Hb. simpl in Hb. rewrite Hb.
    exact (Hset _ _ _ Hvalues Hobj).
Qed.

Lemma brand_name_overrides_brand_id_witness :
  exists db' p,
    Product.create true by_size 100 shop
      (PDict [("name", PStr "hammer"); ("rating", PInt 4);
              ("items_in_stock", PInt 3); ("brand_id", PInt 9);
              ("brand", PStr "Acme"); ("categories", PList [PStr "tools"])])
    = (db', Ok p)
    /\ exists b, Product.first_brand shop (PStr "Acme") = Some b
         /\ Brand.name b = "Acme"
         /\ Product.brand_id p = PInt (Brand.id b).
Proof.
  eexists _, _. split; [reflexivity|].
  refine (proj1 (brand_name_overrides_brand_id true by_size 100 shop
            [("name", PStr "hammer"); ("rating", PInt 4);
             ("items_in_stock", PInt 3); ("brand_id", PInt 9);
             ("brand", PStr "Acme"); ("categories", PList [PStr "tools"])]
            "Acme" _ eq_refl _) _ _ eq_refl).
  - simpl. repeat (apply List.NoDup_cons; [simpl; intuition discriminate|]).
    apply List.NoDup_nil.
  - discriminate.
Defined.

(** X7: the product a create returns holds, in a column the payload
    gives a value of the column's type for, that value, a rating as a
    float ([brand_id] provided no brand is named). *)
Theorem create_stores_payload_columns (foreign_keys : bool)
    (autoincrement : gmap Z Product.t -> Z) (utcnow : Z) (db : Product.Db)
    (items : list (string * pyval)) (db' : Product.Db) (p : Product.t)
    (k : string) (v : pyval) :
  List.NoDup (map fst items) ->
  Product.create foreign_keys autoincrement utcnow db (PDict items) = (db', Ok p) ->
  dict_get k items = Some v ->
  column_typed k v ->
  (k = "brand_id" -> truthy (default PNone (dict_get "brand" items)) = false) ->
  getattr p k = stored k v.
Proof.
  intros Hkeys Hcreate Hget Htyped Hbrand.
  pose proof (column_typed_is_column _ _ Htyped) as Hk.
  destruct (create_Ok _ _ _ _ _ _ _ Hcreate)
    as (values & obj & Hvalues & _ & _ & Hobj & Hins).
  destruct (prepare_values_cols _ _ _ Hkeys Hvalues)
    as (cols & cats & -> & Hcols & _ & Hcats & Hcopy & _).
  assert (Hobjk : getattr obj k = v)
    by exact (setattrs_values _ _ _ _ _ _ Hk Hcols (Hcats k Hk)
                (Hcopy k v Hk Hbrand Hget) Hobj).
  rewrite (insert_getattr _ _ _ _ _ _ _ k Hins), Hobjk; [reflexivity|].
  rewrite Hobjk.
  destruct Htyped as [[_ [? ->]] | [[_ [? ->]] | [[_ [[? [-> _]] | [? ->]]]
                     | [_ [? ->]]]]]; discriminate.
Qed.

Lemma create_stores_payload_columns_witness :
  exists db' p,
    Product.create true by_size 100 shop hammer_payload = (db', Ok p)
    /\ getattr p "rating" = PFloat (inject_Z 4)
    /\ getattr p "items_in_stock" = PInt 3.
Proof.
  eexists _, _. split; [reflexivity|].
  assert (Hkeys : List.NoDup (map fst
            [("name", PStr "hammer"); ("rating", PInt 4);
             ("items_in_stock", PInt 3); ("brand", PStr "Acme");
             ("categories", PList [PStr "tools"])])).
  { simpl. repeat (apply List.NoDup_cons; [simpl; intuition discriminate|]).
    apply List.NoDup_nil. }
  split.
  - refine (create_stores_payload_columns true by_size 100 shop _
              _ _ "rating" (PInt 4) Hkeys eq_refl eq_refl _ _).
    + right. right. left. split; [reflexivity|]. left. exists 4%Z.
      split; [reflexivity | vm_compute; discriminate].
    + discriminate.
  - refine (create_stores_payload_columns true by_size 100 shop _
              _ _ "items_in_stock" (PInt 3) Hkeys eq_refl eq_refl _ _).
    + right. right. right. split; [left; reflexivity|]. exists 3%Z. reflexivity.
    + discriminate.
Defined.

Lemma insert_defaults foreign_keys autoincrement utcnow db obj db' row :
  Product.insert foreign_keys autoincrement utcnow db obj = Ok (db', row) ->
  (Product.id obj = PNone ->
   Product.id row = PInt (autoincrement (Product.products db)))
  /\ (Product.featured obj = PNone -> Product.featured row = PBool false)
  /\ (Product.created_at obj = PNone ->
      Product.created_at row = PDateTime utcnow)
  /\ Product.expiration_date row = Product.expiration_date obj
  /\ Product.receipt_date row = Product.receipt_date obj
  /\ Product.name row = Product.name obj.
Proof.
  intros H.
  destruct (insert_Ok _ _ _ _ _ _ _ H) as (pk & Hpk & _ & _ & -> & _).
  simpl. repeat split; intros E; rewrite E in *; simpl in *;
    try reflexivity.
  destruct Hpk as [[_ ->] | Hpk]; [reflexivity | discriminate].
Qed.

(** X8: a create fills what the payload leaves out: [featured] is
    [False], [created_at] the time of the insert, [id] the key the engine
    gives, and [expiration_date] and [receipt_date] are null. *)
Theorem create_defaults (foreign_keys : bool)
    (autoincrement : gmap Z Product.t -> Z) (utcnow : Z) (db : Product.Db)
    (items : list (string * pyval)) (db' : Product.Db) (p : Product.t) :
  Product.create foreign_keys autoincrement utcnow db (PDict items) = (db', Ok p) ->
  (dict_get "featured" items = None -> Product.featured p = PBool false)
  /\ (dict_get "created_at" items = None ->
      Product.created_at p = PDateTime utcnow)
  /\ (dict_get "id" items = None ->
      Product.id p = PInt (autoincrement (Product.products db)))
  /\ (dict_get "expiration_date" items = None ->
      Product.expiration_date p = PNone)
  /\ (dict_get "receipt_date" items = None -> Product.receipt_date p = PNone).
Proof.
  intros Hcreate.
  destruct (create_Ok _ _ _ _ _ _ _ Hcreate)
    as (values & obj & Hvalues & _ & _ & Hobj & Hins).
  assert (Hblank : forall k,
    dict_get k items = None -> k <> "brand_id" -> k <> "categories" ->
    getattr obj k = getattr Product.blank k).
  { intros k Hk Hb Hc. apply (setattrs_getattr_other _ values); [|exact Hobj].
    intros Hin.
    destruct (prepare_values_keys _ _ _ _ Hvalues Hin)
      as [-> | [[-> _] | [Hitems _]]]; try contradiction.
    apply dict_get_None_keys in Hk. contradiction. }
  destruct (insert_defaults _ _ _ _ _ _ _ Hins) as (Hid & Hf & Hc & He & Hr & _).
  repeat split; intros Hk.
  - apply Hf. exact (Hblank "featured" Hk ltac:(discriminate) ltac:(discriminate)).
  - apply Hc. exact (Hblank "created_at" Hk ltac:(discriminate) ltac:(discriminate)).
  - apply Hid. exact (Hblank "id" Hk ltac:(discriminate) ltac:(discriminate)).
  - rewrite He.
    exact (Hblank "expiration_date" Hk ltac:(discriminate) ltac:(discriminate)).
  - rewrite Hr.
    exact (Hblank "receipt_date" Hk ltac:(discriminate) ltac:(discriminate)).
Qed.

Lemma create_defaults_witness :
  exists db' p,
    Product.create true by_size 100 shop hammer_payload = (db', Ok p)
    /\ Product.featured p = PBool false
    /\ Product.created_at p = PDateTime 100
    /\ Product.id p = PInt (by_size (Product.products shop)).
Proof.
  eexists _, _. split; [reflexivity|].
  pose proof (create_defaults true by_size 100 shop
                [("name", PStr "hammer"); ("rating", PInt 4);
                 ("items_in_stock", PInt 3); ("brand", PStr "Acme");
                 ("categories", PList [PStr "tools"])] _ _ eq_refl)
    as (Hf & Hc & Hid & _).
  split; [exact (Hf eq_refl)|]. split; [exact (Hc eq_refl) | exact (Hid eq_refl)].
Defined.

(** ** What a create requires *)

Lemma insert_required foreign_keys autoincrement utcnow db obj db' row :
  Product.insert foreign_keys autoincrement utcnow db obj = Ok (db', row) ->
  Product.name obj <> PNone /\ Product.rating obj <> PNone
  /\ Product.items_in_stock obj <> PNone.
Proof.
  intros H.
  destruct (insert_row _ _ _ _ _ _ _ H) as (Hr & Hi & _ & _ & Hnr & Hni).
  destruct (insert_defaults _ _ _ _ _ _ _ H) as (_ & _ & _ & _ & _ & Hn).
  destruct (insert_Ok _ _ _ _ _ _ _ H) as (pk & _ & _ & _ & _ & Hcheck).
  destruct (check_row_inv _ _ _ Hcheck) as (_ & Hnn & _).
  rewrite Hn in Hnn. rewrite Hr in Hnr. rewrite Hi in Hni.
  repeat split; intros E; rewrite E in *; discriminate.
Qed.

(** X9: a payload without [name], without [rating] or without
    [items_in_stock] cannot be created: the model raises, [POST] answers
    410 and the database stays as it was. *)
Theorem create_requires_columns (foreign_keys : bool)
    (autoincrement : gmap Z Product.t -> Z) (utcnow : Z) (db : Product.Db)
    (items : list (string * pyval)) (k : string) :
  k = "name" \/ k = "rating" \/ k = "items_in_stock" ->
  dict_get k items = None ->
  exists e,
    Product.create foreign_keys autoincrement utcnow db (PDict items)
    = (db, Raise e)
    /\ Endpoints.create_product foreign_keys autoincrement utcnow db (PDict items)
       = (db, Endpoints.InvalidUsage (Endpoints.AnErrorAccrued e) 410).
Proof.
  intros Hk Hget.
  assert (Hcreate : exists e,
    Product.create foreign_keys autoincrement utcnow db (PDict items)
    = (db, Raise e)).
  { destruct (Product.create _ _ _ _ _) as [db' [p|e]] eqn:Hcreate.
    - exfalso.
      destruct (create_Ok _ _ _ _ _ _ _ Hcreate)
        as (values & obj & Hvalues & _ & _ & Hobj & Hins).
      assert (Hblank : getattr obj k = getattr Product.blank k).
      { apply (setattrs_getattr_other _ values); [|exact Hobj].
        intros Hin.
        destruct (prepare_values_keys _ _ _ _ Hvalues Hin)
          as [-> | [[-> _] | [Hitems _]]].
        - destruct Hk as [Hk | [Hk | Hk]]; discriminate Hk.
        - destruct Hk as [Hk | [Hk | Hk]]; discriminate Hk.
        - apply dict_get_None_keys in Hget. contradiction. }
      destruct (insert_required _ _ _ _ _ _ _ Hins) as (Hn & Hr & Hi).
      destruct Hk as [-> | [-> | ->]]; auto.
    - rewrite (create_Raise _ _ _ _ _ _ _ Hcreate). eauto. }
  destruct Hcreate as [e He]. exists e. split; [exact He|].
  exact (create_product_Raise _ _ _ _ _ _ He).
Qed.

Lemma create_requires_columns_witness :
  dict_get "rating" [("name", PStr "hammer"); ("items_in_stock", PInt 3);
                     ("brand", PStr "Acme"); ("categories", PList [PStr "tools"])]
  = None
  /\ exists e,
       Product.create true by_size 100 shop
         (PDict [("name", PStr "hammer"); ("items_in_stock", PInt 3);
                 ("brand", PStr "Acme"); ("categories", PList [PStr "tools"])])
       = (shop, Raise e)
       /\ Endpoints.create_product true by_size 100 shop
            (PDict [("name", PStr "hammer"); ("items_in_stock", PInt 3);
                    ("brand", PStr "Acme"); ("categories", PList [PStr "tools"])])
          = (shop, Endpoints.InvalidUsage (Endpoints.AnErrorAccrued e) 410).
Proof.
  split; [reflexivity|].
  apply (create_requires_columns true by_size 100 shop _ "rating");
    [right; left|]; reflexivity.
Defined.

(** X10: a payload with neither a truthy [brand] nor a truthy [brand_id]
    cannot be created; when its categories resolve, the exception is
    'brand is required'. *)
Theorem create_requires_brand (foreign_keys : bool)
    (autoincrement : gmap Z Product.t -> Z) (utcnow : Z) (db : Product.Db)
    (items : list (string * pyval)) :
  truthy (default PNone (dict_get "brand" items)) = false ->
  truthy (default PNone (dict_get "brand_id" items)) = false ->
  exists e,
    Product.create foreign_keys autoincrement utcnow db (PDict items)
    = (db, Raise e)
    /\ Endpoints.create_product foreign_keys autoincrement utcnow db (PDict items)
       = (db, Endpoints.InvalidUsage (Endpoints.AnErrorAccrued e) 410)
    /\ (forall values,
          Product.prepare_values db (PDict items) = Ok values ->
          e = InvalidPayload BrandRequired).
Proof.
  intros Hbrand Hid.
  assert (Hcreate : exists e,
    Product.create foreign_keys autoincrement utcnow db (PDict items)
    = (db, Raise e)
    /\ (forall values,
          Product.prepare_values db (PDict items) = Ok values ->
          e = InvalidPayload BrandRequired)).
  { unfold Product.create.
    destruct (Product.prepare_values db (PDict items)) as [values|e] eqn:Hvalues.
    - destruct (prepare_values_Ok _ _ _ Hvalues)
        as (cols & names & cats & cs & Hstage & _ & _ & _ & Hshape & _).
      destruct Hstage as [[_ ->] | [Ht _]]; [|congruence].
      assert (Hget : dict_get "brand_id" values
                     = Product.Col <$> dict_get "brand_id" items).
      { destruct Hshape as [[_ ->] | [_ ->]].
        - apply copied_get. reflexivity.
        - rewrite dict_get_app, copied_get by reflexivity.
          destruct (dict_get "brand_id" items); reflexivity. }
      rewrite Hget.
      destruct (dict_get "brand_id" items) as [v|]; simpl in *;
        rewrite ?Hid; simpl; eauto.
    - exists e. split; [reflexivity | discriminate]. }
  destruct Hcreate as (e & He & Hwhy). exists e. split; [exact He|].
  split; [exact (create_product_Raise _ _ _ _ _ _ He) | exact Hwhy].
Qed.

Lemma create_requires_brand_witness :
  exists e,
    Product.create true by_size 100 shop
      (PDict [("name", PStr "hammer"); ("brand_id", PInt 0);
              ("categories", PList [PStr "tools"])])
    = (shop, Raise e)
    /\ e = InvalidPayload BrandRequired.
Proof.
  destruct (create_requires_brand true by_size 100 shop
              [("name", PStr "hammer"); ("brand_id", PInt 0);
               ("categories", PList [PStr "tools"])] eq_refl eq_refl)
    as (e & He & _ & Hwhy).
  exists e. split; [exact He|]. exact (Hwhy _ eq_refl).
Defined.

(** ** Foreign keys and the answer of a view *)

Lemma same_key_eq v v' : Product.same_key v v' = true -> v = v'.
Proof.
  destruct v, v'; simpl; try discriminate.
  intros H. apply Z.eqb_eq in H. congruence.
Qed.

(** With foreign keys enforced the row an UPDATE stores has a brand,
    provided the row it replaces had one: a [brand_id] that is not set
    is not checked. *)
Lemma flush_references db pk obj db' row :
  (forall old, Product.products db !! pk = Some old -> Product.brand db old <> None) ->
  Product.flush true db pk obj = Ok (db', row) ->
  Product.brand db' row <> None.
Proof.
  intros Hold H.
  destruct (flush_tables _ _ _ _ _ _ H) as [Hbrands _].
  destruct (flush_row _ _ _ _ _ _ H) as (_ & Hsame & _ & _ & Hcheck).
  destruct (check_row_inv _ _ _ Hcheck) as (_ & _ & _ & _ & Hfk).
  pose proof (Hsame "brand_id" ltac:(discriminate)) as Hb.
  unfold getattr in Hb. simpl in Hb.
  unfold Product.brand_changed in Hfk.
  destruct (Product.products db !! pk) as [old|] eqn:Hpk.
  - destruct (Product.same_key (Product.brand_id old) (Product.brand_id obj))
      eqn:Hkey; simpl in Hfk.
    + apply same_key_eq in Hkey.
      unfold Product.brand. unfold Product.brand in Hold.
      rewrite Hbrands, Hb, <- Hkey. exact (Hold old eq_refl).
    + apply (references_brand_brand db); auto.
  - apply (references_brand_brand db); auto.
Qed.

Lemma serialized_Ok db p :
  Product.brand db p <> None -> exists body, Product.serialized db p = Ok body.
Proof.
  unfold Product.serialized. destruct (Product.brand db p); [eauto | contradiction].
Qed.

Lemma serialized_Raise db p :
  Product.brand db p = None -> Product.serialized db p = Raise AttributeError.
Proof. unfold Product.serialized. intros ->. reflexivity. Qed.

(** X11: with foreign keys enforced, and every stored product's
    [brand_id] the key of a stored Brand, a request that is not answered
    200, 201 or 204 leaves the database exactly as it was. *)
Theorem failed_request_changes_nothing (autoincrement : gmap Z Product.t -> Z)
    (db : Product.Db) (r : request) :
  brands_resolve db ->
  ~ succeeded (snd (handle true autoincrement db r)) ->
  fst (handle true autoincrement db r) = db.
Proof.
  intros Hdb. unfold succeeded.
  destruct r as [|utcnow payload|id payload|id|id| |id]; simpl;
    [| | | | |reflexivity|reflexivity].
  - intros _. unfold Endpoints.get_products.
    destruct (Endpoints.serialized_all _ _); reflexivity.
  - unfold Endpoints.create_product.
    destruct (Product.create _ _ _ _ _) as [db' [p|e]] eqn:Hcreate.
    + destruct (create_Ok _ _ _ _ _ _ _ Hcreate) as (values & obj & _ & _ & _ & _ & Hins).
      destruct (serialized_Ok _ _ (insert_references _ _ _ _ _ _ Hins)) as [body ->].
      simpl. intros H. destruct H. auto.
    + intros _. exact (create_Raise _ _ _ _ _ _ _ Hcreate).
  - unfold Endpoints.update_product.
    destruct (Product.update _ _ _ _) as [db' [[p|]|e]] eqn:Hupdate.
    + destruct (update_Ok _ _ _ _ _ _ Hupdate)
        as (values & p0 & obj & _ & _ & _ & Hflush).
      destruct (serialized_Ok _ _
                  (flush_references _ _ _ _ _ (fun old => Hdb id old) Hflush))
        as [body ->].
      simpl. intros H. destruct H. auto.
    + intros _. simpl.
      exact (update_unchanged _ _ _ _ _ _ Hupdate ltac:(discriminate)).
    + intros _.
      assert (db' = db) as ->
        by exact (update_unchanged _ _ _ _ _ _ Hupdate ltac:(discriminate)).
      destruct e; reflexivity.
  - intros _. unfold Endpoints.get_product.
    destruct (Product.retrieve db id) as [p|[]]; try reflexivity.
    destruct (Product.serialized db p) as [|[]]; reflexivity.
  - unfold Endpoints.delete_product, Product.delete, Product.get.
    destruct (Product.products db !! id); simpl;
      [intros H; destruct H; auto|].
    destruct (Product.binds db id); simpl; [|reflexivity].
    intros H; destruct H; auto.
Qed.

Lemma failed_request_changes_nothing_witness :
  brands_resolve stocked
  /\ ~ succeeded (snd (handle true by_size stocked
                         (PUT_product 1 (PDict [("brand_id", PInt 9)]))))
  /\ fst (handle true by_size stocked
            (PUT_product 1 (PDict [("brand_id", PInt 9)]))) = stocked.
Proof.
  assert (Hdb : brands_resolve stocked).
  { intros pk p. unfold stocked. simpl. rewrite lookup_singleton.
    destruct (decide (1%Z = pk)); [intros [= <-]; discriminate | discriminate]. }
  assert (Hfailed : ~ succeeded (snd (handle true by_size stocked
                      (PUT_product 1 (PDict [("brand_id", PInt 9)])))))
    by (intros [H | [H | H]]; discriminate H).
  split; [exact Hdb|]. split; [exact Hfailed|].
  apply (failed_request_changes_nothing by_size stocked
           (PUT_product 1 (PDict [("brand_id", PInt 9)]))).
  - exact Hdb.
  - exact Hfailed.
Defined.

(** A row stored while foreign keys were not enforced can carry the
    [brand_id] of no Brand; an update that leaves its [brand_id] alone is
    then committed even when they are, and answered 410 all the same. *)
Example update_of_dangling_row_commits :
  let db := fst (Product.create false by_size 100 shop (keyed_brand_payload 9)) in
  let r := PUT_product 1 (PDict [("name", PStr "mallet")]) in
  ~ brands_resolve db
  /\ Endpoints.status_code (snd (handle true by_size db r)) = 410%Z
  /\ fst (handle true by_size db r) <> db.
Proof.
  cbv zeta. split; [|split].
  - intros H. apply (H 1%Z _ eq_refl). reflexivity.
  - reflexivity.
  - intros H. apply (f_equal (fun d => Product.products d !! 1%Z)) in H.
    vm_compute in H. discriminate H.
Qed.

(** X12: a 410 does not mean nothing was stored.  When the row a create
    or an update has committed carries a [brand_id] of no Brand (which
    takes an engine that does not enforce foreign keys), the view fails
    to serialize it and answers 410 with the row in the database. *)
Theorem committed_row_answered_410 (foreign_keys : bool)
    (autoincrement : gmap Z Product.t -> Z) (utcnow : Z) (db : Product.Db)
    (payload : pyval) :
  (forall db' p,
     Product.create foreign_keys autoincrement utcnow db payload = (db', Ok p) ->
     Product.brand db' p = None ->
     Endpoints.create_product foreign_keys autoincrement utcnow db payload
     = (db', Endpoints.InvalidUsage (Endpoints.AnErrorAccrued AttributeError) 410)
     /\ exists pk, Product.products db !! pk = None
          /\ Product.products db' !! pk = Some p)
  /\ (forall id db' p',
        Product.update foreign_keys db id payload = (db', Ok (Some p')) ->
        Product.brand db' p' = None ->
        Endpoints.update_product foreign_keys db id payload
        = (db', Endpoints.InvalidUsage (Endpoints.AnErrorAccrued AttributeError) 410)
        /\ exists pk, Product.products db' !! pk = Some p').
Proof.
  split.
  - intros db' p Hcreate Hbrand. split.
    + unfold Endpoints.create_product.
      rewrite Hcreate, (serialized_Raise _ _ Hbrand). reflexivity.
    + destruct (create_Ok _ _ _ _ _ _ _ Hcreate) as (values & obj & _ & _ & _ & _ & Hins).
      destruct (insert_stores _ _ _ _ _ _ _ Hins) as (pk & _ & Hfree & -> & _).
      exists pk. split; [exact Hfree | apply lookup_insert_eq].
  - intros id db' p' Hupdate Hbrand. split.
    + unfold Endpoints.update_product.
      rewrite Hupdate, (serialized_Raise _ _ Hbrand). reflexivity.
    + destruct (update_Ok _ _ _ _ _ _ Hupdate)
        as (values & p & obj & _ & _ & _ & Hflush).
      destruct (flush_stores _ _ _ _ _ _ Hflush) as (pk & _ & -> & _).
      exists pk. apply lookup_insert_eq.
Qed.

Lemma committed_row_answered_410_witness :
  exists db' p,
    Product.create false by_size 100 shop (keyed_brand_payload 9) = (db', Ok p)
    /\ Product.brand db' p = None
    /\ Endpoints.create_product false by_size 100 shop (keyed_brand_payload 9)
       = (db', Endpoints.InvalidUsage (Endpoints.AnErrorAccrued AttributeError) 410)
    /\ exists pk, Product.products shop !! pk = None
         /\ Product.products db' !! pk = Some p.
Proof.
  eexists _, _. split; [reflexivity|]. split; [reflexivity|].
  apply (proj1 (committed_row_answered_410 false by_size 100 shop
                  (keyed_brand_payload 9))); reflexivity.
Defined.

(** ** Invariants of the stored rows *)

Lemma brand_reads_brands db db' p :
  Product.brands db' = Product.brands db ->
  Product.brand db' p = Product.brand db p.
Proof. unfold Product.brand. intros ->. reflexivity. Qed.

Lemma create_brands_resolve autoincrement utcnow db payload :
  brands_resolve db ->
  brands_resolve (fst (Product.create true autoincrement utcnow db payload)).
Proof.
  intros Hdb.
  destruct (Product.create _ _ _ _ _) as [db' [p|e]] eqn:Hcreate; simpl.
  - destruct (create_Ok _ _ _ _ _ _ _ Hcreate) as (values & obj & _ & _ & _ & _ & Hins).
    destruct (insert_stores _ _ _ _ _ _ _ Hins) as (pk & _ & _ & Hproducts & Hbrands & _).
    intros k q. rewrite Hproducts, lookup_insert.
    destruct (decide (pk = k)) as [_|_].
    + intros [= <-]. exact (insert_references _ _ _ _ _ _ Hins).
    + intros Hq. rewrite (brand_reads_brands db db' q Hbrands). exact (Hdb _ _ Hq).
  - rewrite (create_Raise _ _ _ _ _ _ _ Hcreate). exact Hdb.
Qed.

Lemma update_brands_resolve db id payload :
  brands_resolve db ->
  brands_resolve (fst (Product.update true db id payload)).
Proof.
  intros Hdb.
  destruct (Product.update _ _ _ _) as [db' r] eqn:Hupdate; simpl.
  destruct r as [[p'|]|e].
  - destruct (update_Ok _ _ _ _ _ _ Hupdate)
      as (values & p & obj & _ & _ & _ & Hflush).
    destruct (flush_stores _ _ _ _ _ _ Hflush) as (pk' & _ & Hproducts & _).
    destruct (flush_tables _ _ _ _ _ _ Hflush) as [Hbrands _].
    intros k q. rewrite Hproducts, lookup_insert.
    destruct (decide (pk' = k)) as [_|_].
    + intros [= <-].
      exact (flush_references _ _ _ _ _ (fun old => Hdb id old) Hflush).
    + rewrite lookup_delete. destruct (decide (id = k)); [discriminate|].
      intros Hq. rewrite (brand_reads_brands db db' q Hbrands). exact (Hdb _ _ Hq).
  - rewrite (update_unchanged _ _ _ _ _ _ Hupdate); [exact Hdb | discriminate].
  - rewrite (update_unchanged _ _ _ _ _ _ Hupdate); [exact Hdb | discriminate].
Qed.

Lemma delete_brands_resolve db id :
  brands_resolve db -> brands_resolve (fst (Product.delete db id)).
Proof.
  intros Hdb. rewrite delete_db.
  intros k q. simpl. rewrite lookup_delete.
  destruct (decide (id = k)); [discriminate|]. intros Hq.
  exact (Hdb _ _ Hq).
Qed.

Lemma handle_db foreign_keys autoincrement db r :
  fst (handle foreign_keys autoincrement db r)
  = match r with
    | GET_products | GET_product _ | POST_malformed | PUT_malformed _ => db
    | POST_products utcnow payload =>
        fst (Product.create foreign_keys autoincrement utcnow db payload)
    | PUT_product id payload => fst (Product.update foreign_keys db id payload)
    | DELETE_product id => fst (Product.delete db id)
    end.
Proof.
  destruct r as [|utcnow payload|id payload|id|id| |id]; simpl;
    [| | | | |reflexivity|reflexivity].
  - unfold Endpoints.get_products. destruct (Endpoints.serialized_all _ _); reflexivity.
  - apply create_product_db.
  - apply update_product_db.
  - unfold Endpoints.get_product.
    destruct (Product.retrieve db id) as [p|[]]; try reflexivity.
    destruct (Product.serialized db p) as [|[]]; reflexivity.
  - unfold Endpoints.delete_product.
    destruct (Product.delete db id) as [db' [|]]; reflexivity.
Qed.

(** X13: with foreign keys enforced, every request keeps every stored
    product's [brand_id] the key of a stored Brand, so this holds in every
    database reachable from one without products; there, [GET] of a
    stored product always answers 200. *)
Theorem brand_always_resolves (autoincrement : gmap Z Product.t -> Z) :
  (forall db r,
     brands_resolve db ->
     brands_resolve (fst (handle true autoincrement db r)))
  /\ (forall db, reachable true autoincrement db -> brands_resolve db)
  /\ (forall db id p,
        reachable true autoincrement db ->
        Product.products db !! id = Some p ->
        exists body,
          Product.serialized db p = Ok body
          /\ Endpoints.get_product db id = (db, Endpoints.Jsonify body 200)).
Proof.
  assert (Hstep : forall db r,
    brands_resolve db -> brands_resolve (fst (handle true autoincrement db r))).
  { intros db r Hdb. rewrite handle_db.
    destruct r; auto using create_brands_resolve, update_brands_resolve,
      delete_brands_resolve. }
  assert (Hreach : forall db, reachable true autoincrement db -> brands_resolve db).
  { intros db H. induction H as [db Hempty | db r _ IH].
    - intros pk p. rewrite Hempty, lookup_empty. discriminate.
    - apply Hstep, IH. }
  split; [exact Hstep|]. split; [exact Hreach|].
  intros db id p Hdb Hp.
  destruct (serialized_Ok _ _ (Hreach db Hdb id p Hp)) as [body Hbody].
  exists body. split; [exact Hbody|].
  unfold Endpoints.get_product, Product.retrieve, Product.get.
  rewrite Hp, Hbody. reflexivity.
Qed.

Lemma brand_always_resolves_witness :
  reachable true by_size
    (fst (handle true by_size shop (POST_products 100 hammer_payload)))
  /\ exists body,
       Endpoints.get_product
         (fst (handle true by_size shop (POST_products 100 hammer_payload))) 1
       = (fst (handle true by_size shop (POST_products 100 hammer_payload)),
          Endpoints.Jsonify body 200).
Proof.
  assert (Hreach : reachable true by_size
            (fst (handle true by_size shop (POST_products 100 hammer_payload))))
    by (apply reachable_step, reachable_init; reflexivity).
  split; [exact Hreach|].
  destruct (proj2 (proj2 (brand_always_resolves by_size)) _ 1%Z hammer Hreach eq_refl)
    as (body & _ & Hget).
  exists body. exact Hget.
Defined.

Lemma create_keyed foreign_keys autoincrement utcnow db payload :
  keyed db ->
  keyed (fst (Product.create foreign_keys autoincrement utcnow db payload)).
Proof.
  intros Hdb.
  destruct (Product.create _ _ _ _ _) as [db' [p|e]] eqn:Hcreate; simpl.
  - destruct (create_Ok _ _ _ _ _ _ _ Hcreate) as (values & obj & _ & _ & _ & _ & Hins).
    destruct (insert_stores _ _ _ _ _ _ _ Hins) as (pk & Hid & _ & Hproducts & _).
    intros k q. rewrite Hproducts, lookup_insert.
    destruct (decide (pk = k)) as [<-|_]; [intros [= <-]; exact Hid | apply Hdb].
  - rewrite (create_Raise _ _ _ _ _ _ _ Hcreate). exact Hdb.
Qed.

Lemma update_keyed foreign_keys db id payload :
  keyed db -> keyed (fst (Product.update foreign_keys db id payload)).
Proof.
  intros Hdb.
  destruct (Product.update _ _ _ _) as [db' r] eqn:Hupdate; simpl.
  destruct r as [[p'|]|e].
  - destruct (update_Ok _ _ _ _ _ _ Hupdate)
      as (values & p & obj & _ & _ & _ & Hflush).
    destruct (flush_stores _ _ _ _ _ _ Hflush) as (pk' & Hid & Hproducts & _).
    intros k q. rewrite Hproducts, lookup_insert.
    destruct (decide (pk' = k)) as [<-|_]; [intros [= <-]; exact Hid|].
    rewrite lookup_delete. destruct (decide (id = k)); [discriminate | apply Hdb].
  - rewrite (update_unchanged _ _ _ _ _ _ Hupdate); [exact Hdb | discriminate].
  - rewrite (update_unchanged _ _ _ _ _ _ Hupdate); [exact Hdb | discriminate].
Qed.

Lemma delete_keyed db id : keyed db -> keyed (fst (Product.delete db id)).
Proof.
  intros Hdb. rewrite delete_db.
  intros k q. simpl. rewrite lookup_delete.
  destruct (decide (id = k)); [discriminate | apply Hdb].
Qed.

(** X14: every request keeps every row stored under the key its [id]
    column holds, so this holds in every reachable database; there the
    body [GET /products/{id}] answers with has that id in its [id]
    field. *)
Theorem rows_stored_under_their_id (foreign_keys : bool)
    (autoincrement : gmap Z Product.t -> Z) :
  (forall db r,
     keyed db -> keyed (fst (handle foreign_keys autoincrement db r)))
  /\ (forall db, reachable foreign_keys autoincrement db -> keyed db)
  /\ (forall db id body,
        reachable foreign_keys autoincrement db ->
        Endpoints.get_product db id = (db, Endpoints.Jsonify body 200) ->
        field "id" body = Some (PInt id)).
Proof.
  assert (Hstep : forall db r,
    keyed db -> keyed (fst (handle foreign_keys autoincrement db r))).
  { intros db r Hdb. rewrite handle_db.
    destruct r; auto using create_keyed, update_keyed, delete_keyed. }
  assert (Hreach : forall db,
    reachable foreign_keys autoincrement db -> keyed db).
  { intros db H. induction H as [db Hempty | db r _ IH].
    - intros pk p. rewrite Hempty, lookup_empty. discriminate.
    - apply Hstep, IH. }
  split; [exact Hstep|]. split; [exact Hreach|].
  intros db id body Hdb.
  unfold Endpoints.get_product, Product.retrieve, Product.get.
  destruct (Product.products db !! id) as [p|] eqn:Hp;
    [|destruct (Product.binds db id); discriminate].
  unfold Product.serialized.
  destruct (Product.brand db p); [|discriminate].
  intros [= <-]. simpl. rewrite (Hreach db Hdb id p Hp). reflexivity.
Qed.

Lemma rows_stored_under_their_id_witness :
  exists db' body,
    db' = fst (handle true by_size shop (POST_products 100 hammer_payload))
    /\ reachable true by_size db'
    /\ Endpoints.get_product db' 1 = (db', Endpoints.Jsonify body 200)
    /\ field "id" body = Some (PInt 1).
Proof.
  eexists _, _. split; [reflexivity|].
  assert (Hreach : reachable true by_size
    (fst (handle true by_size shop (POST_products 100 hammer_payload)))).
  { apply reachable_step, reachable_init. reflexivity. }
  split; [exact Hreach|]. split; [reflexivity|].
  apply (proj2 (proj2 (rows_stored_under_their_id true by_size)) _ 1%Z _ Hreach).
  reflexivity.
Defined.

(** ** Reading the database *)

Lemma serialized_all_Ok db ps :
  (forall p, In p ps -> Product.brand db p <> None) ->
  exists rs,
    Endpoints.serialized_all db ps = Ok rs
    /\ length rs = length ps
    /\ forall body, In body rs
         <-> exists p, In p ps /\ Product.serialized db p = Ok body.
Proof.
  induction ps as [|p ps IH]; intros Hps; simpl.
  - exists []. split; [reflexivity|]. split; [reflexivity|].
    intros body. split; [intros [] | intros (p & [] & _)].
  - destruct (serialized_Ok db p (Hps p (or_introl eq_refl))) as [s Hs].
    destruct IH as (rs & Hrs & Hlen & Hin); [intros q Hq; apply Hps; right; exact Hq|].
    exists (s :: rs). rewrite Hs, Hrs. split; [reflexivity|].
    split; [simpl; congruence|].
    intros body. simpl. rewrite Hin. split.
    + intros [<- | (q & Hq & Hbody)]; eauto.
    + intros (q & [<- | Hq] & Hbody); [left; congruence | eauto].
Qed.

Lemma serialized_all_Raise db ps p :
  In p ps -> Product.brand db p = None ->
  Endpoints.serialized_all db ps = Raise AttributeError.
Proof.
  intros Hin Hp. induction ps as [|q ps IH]; [destruct Hin|]. simpl.
  destruct Hin as [-> | Hin].
  - rewrite (serialized_Raise _ _ Hp). reflexivity.
  - unfold Product.serialized at 1. destruct (Product.brand db q); [|reflexivity].
    simpl. rewrite (IH Hin). reflexivity.
Qed.

Lemma rows_of_table (m : gmap Z Product.t) (p : Product.t) :
  In p (map snd (map_to_list m)) <-> exists pk, m !! pk = Some p.
Proof.
  rewrite in_map_iff. split.
  - intros ([pk q] & <- & Hin). exists pk.
    apply elem_of_map_to_list, list_elem_of_In. exact Hin.
  - intros (pk & Hpk). exists (pk, p). split; [reflexivity|].
    apply list_elem_of_In, elem_of_map_to_list. exact Hpk.
Qed.

(** X15: [GET /products] never changes the database.  When every stored
    product's brand resolves it answers 200 with one result per stored
    product, the results being exactly the serialized forms of the stored
    products; one product whose brand does not resolve makes the whole
    listing raise [AttributeError], which no handler catches. *)
Theorem get_products_lists_every_row (db : Product.Db) :
  fst (Endpoints.get_products db) = db
  /\ (brands_resolve db ->
      exists results,
        Endpoints.get_products db
        = (db, Endpoints.Jsonify (PDict [("results", PList results)]) 200)
        /\ length results = size (Product.products db)
        /\ forall body, In body results
             <-> exists pk p, Product.products db !! pk = Some p
                   /\ Product.serialized db p = Ok body)
  /\ (forall pk p,
        Product.products db !! pk = Some p ->
        Product.brand db p = None ->
        Endpoints.get_products db = (db, Endpoints.Unhandled AttributeError)).
Proof.
  unfold Endpoints.get_products. split; [|split].
  - destruct (Endpoints.serialized_all _ _); reflexivity.
  - intros Hdb.
    destruct (serialized_all_Ok db (map snd (map_to_list (Product.products db))))
      as (rs & Hrs & Hlen & Hin).
    { intros p Hp. apply rows_of_table in Hp as [pk Hpk]. exact (Hdb pk p Hpk). }
    exists rs. rewrite Hrs. split; [reflexivity|]. split.
    + rewrite Hlen, length_map, length_map_to_list. reflexivity.
    + intros body. rewrite Hin. split.
      * intros (p & Hp & Hbody). apply rows_of_table in Hp as [pk Hpk]. eauto.
      * intros (pk & p & Hpk & Hbody). exists p. split; [|exact Hbody].
        apply rows_of_table. eauto.
  - intros pk p Hpk Hp.
    rewrite (serialized_all_Raise db _ p); [reflexivity | | exact Hp].
    apply rows_of_table. eauto.
Qed.

Lemma get_products_lists_every_row_witness :
  brands_resolve stocked
  /\ exists results,
       Endpoints.get_products stocked
       = (stocked, Endpoints.Jsonify (PDict [("results", PList results)]) 200)
       /\ length results = size (Product.products stocked).
Proof.
  assert (Hdb : brands_resolve stocked).
  { intros pk p. unfold stocked. simpl. rewrite lookup_singleton.
    destruct (decide (1%Z = pk)); [intros [= <-]; discriminate | discriminate]. }
  split; [exact Hdb|].
  destruct (proj1 (proj2 (get_products_lists_every_row stocked)) Hdb)
    as (results & Hget & Hlen & _).
  exists results. split; [exact Hget | exact Hlen].
Defined.

(** X16: [GET /products/{id}] never changes the database; for an [id]
    the engine can bind it answers 404 exactly when no product is stored
    under [id]; it never answers 404 for a stored product; and for an
    [id] the engine cannot bind it answers 410 with the driver's
    [OverflowError]. *)
Theorem get_product_404_iff_absent (db : Product.Db) (id : Z) :
  fst (Endpoints.get_product db id) = db
  /\ (Product.binds db id = true ->
      (Endpoints.status_code (snd (Endpoints.get_product db id)) = 404%Z
       <-> Product.products db !! id = None))
  /\ (forall p, Product.products db !! id = Some p ->
        Endpoints.status_code (snd (Endpoints.get_product db id)) <> 404%Z)
  /\ (Product.binds db id = false ->
      Product.products db !! id = None ->
      Endpoints.get_product db id
      = (db, Endpoints.InvalidUsage (Endpoints.AnErrorAccrued OverflowError) 410)).
Proof.
  unfold Endpoints.get_product, Product.retrieve, Product.get.
  destruct (Product.products db !! id) as [p|].
  - unfold Product.serialized. destruct (Product.brand db p); simpl.
    + split; [reflexivity|]. split; [intros _; split; discriminate|].
      split; [discriminate | discriminate].
    + split; [reflexivity|]. split; [intros _; split; discriminate|].
      split; [discriminate | discriminate].
  - destruct (Product.binds db id); simpl.
    + split; [reflexivity|]. split; [intros _; split; reflexivity|].
      split; [discriminate | discriminate].
    + split; [reflexivity|]. split; [discriminate|].
      split; [discriminate | reflexivity].
Qed.

Lemma get_product_404_iff_absent_witness :
  Product.binds stocked 2 = true
  /\ Product.products stocked !! 2%Z = None
  /\ Endpoints.status_code (snd (Endpoints.get_product stocked 2)) = 404%Z
  /\ Product.binds stocked (2 ^ 63) = false
  /\ Endpoints.get_product stocked (2 ^ 63)
     = (stocked,
        Endpoints.InvalidUsage (Endpoints.AnErrorAccrued OverflowError) 410).
Proof.
  split; [reflexivity|]. split; [reflexivity|].
  split;
    [exact (proj2 (proj1 (proj2 (get_product_404_iff_absent stocked 2))
                     eq_refl) eq_refl)|].
  split; [reflexivity|].
  exact (proj2 (proj2 (proj2 (get_product_404_iff_absent stocked (2 ^ 63))))
           eq_refl eq_refl).
Defined.

(** ** What each write touches *)

(** X17: a delete, whatever it answers, leaves no row under its id and
    touches no other row: every other row, the brands and the categories
    are as before; deleting the same id a second time changes nothing
    more, and answers 204 when the engine can bind the id. *)
Theorem delete_touches_one_row (db : Product.Db) (id : Z) :
  let db' := fst (Product.delete db id) in
  Product.products db' !! id = None
  /\ (forall k, k <> id -> Product.products db' !! k = Product.products db !! k)
  /\ Product.brands db' = Product.brands db
  /\ Product.categories_table db' = Product.categories_table db
  /\ fst (Product.delete db' id) = db'
  /\ (Product.binds db id = true ->
      Endpoints.delete_product db' id = (db', Endpoints.NoContent)).
Proof.
  simpl. rewrite delete_db.
  assert (Hgone : Product.products
            (Product.with_products (delete id (Product.products db)) db) !! id
          = None) by apply lookup_delete_eq.
  split; [exact Hgone|].
  split; [intros k Hk; simpl; apply lookup_delete_ne; congruence|].
  split; [reflexivity|]. split; [reflexivity|].
  split.
  - rewrite delete_db. simpl. rewrite delete_id by apply lookup_delete_eq.
    reflexivity.
  - intros Hbinds. unfold Endpoints.delete_product, Product.delete, Product.get.
    rewrite Hgone. simpl. rewrite Hbinds. reflexivity.
Qed.

Lemma delete_touches_one_row_witness :
  Product.products stocked !! 1%Z = Some hammer
  /\ Product.binds stocked 1 = true
  /\ Endpoints.delete_product (fst (Product.delete stocked 1)) 1
     = (fst (Product.delete stocked 1), Endpoints.NoContent).
Proof.
  split; [reflexivity|]. split; [reflexivity|].
  exact (proj2 (proj2 (proj2 (proj2 (proj2 (delete_touches_one_row stocked 1)))))
           eq_refl).
Defined.

(** X18: a successful create adds exactly one row, under a key that was
    free: no stored product is overwritten, and the brands and categories
    are as before. *)
Theorem create_adds_one_row (foreign_keys : bool)
    (autoincrement : gmap Z Product.t -> Z) (utcnow : Z) (db : Product.Db)
    (payload : pyval) (db' : Product.Db) (p : Product.t) :
  Product.create foreign_keys autoincrement utcnow db payload = (db', Ok p) ->
  exists pk,
    Product.id p = PInt pk
    /\ Product.products db !! pk = None
    /\ Product.products db' = <[pk := p]> (Product.products db)
    /\ (forall k q, Product.products db !! k = Some q ->
                    Product.products db' !! k = Some q)
    /\ size (Product.products db') = S (size (Product.products db))
    /\ Product.brands db' = Product.brands db
    /\ Product.categories_table db' = Product.categories_table db.
Proof.
  intros Hcreate.
  destruct (create_Ok _ _ _ _ _ _ _ Hcreate) as (values & obj & _ & _ & _ & _ & Hins).
  destruct (insert_stores _ _ _ _ _ _ _ Hins)
    as (pk & Hid & Hfree & Hproducts & Hbrands & Hcats).
  exists pk. repeat split; try assumption.
  - intros k q Hq. rewrite Hproducts. rewrite lookup_insert_ne; [exact Hq|].
    intros ->. congruence.
  - rewrite Hproducts. apply map_size_insert_None. exact Hfree.
Qed.

Lemma create_adds_one_row_witness :
  exists pk,
    Product.id hammer = PInt pk
    /\ Product.products shop !! pk = None
    /\ size (Product.products stocked) = S (size (Product.products shop)).
Proof.
  destruct (create_adds_one_row true by_size 100 shop hammer_payload
              stocked hammer eq_refl)
    as (pk & Hid & Hfree & _ & _ & Hsize & _).
  exists pk. split; [exact Hid|]. split; [exact Hfree | exact Hsize].
Defined.

(** X19: a successful update whose payload has no [id] key rewrites the
    row of its id in place (the row being stored under its own [id]) and
    touches no other row. *)
Theorem update_touches_one_row (foreign_keys : bool) (db : Product.Db)
    (id : Z) (items : list (string * pyval)) (p : Product.t)
    (db' : Product.Db) (p' : Product.t) :
  Product.products db !! id = Some p ->
  Product.id p = PInt id ->
  dict_get "id" items = None ->
  Product.update foreign_keys db id (PDict items) = (db', Ok (Some p')) ->
  Product.id p' = PInt id
  /\ Product.products db' = <[id := p']> (Product.products db)
  /\ (forall k, k <> id -> Product.products db' !! k = Product.products db !! k)
  /\ Product.brands db' = Product.brands db
  /\ Product.categories_table db' = Product.categories_table db.
Proof.
  intros Hp Hid Hget Hupdate.
  destruct (update_Ok _ _ _ _ _ _ Hupdate)
    as (values & p0 & obj & Hvalues & Hp0 & Hset & Hflush).
  assert (p0 = p) as -> by congruence.
  destruct (flush_row _ _ _ _ _ _ Hflush) as (_ & Hsame & _).
  assert (Hid' : Product.id p' = PInt id).
  { rewrite <- Hid.
    transitivity (Product.id obj);
      [exact (Hsame "id" ltac:(discriminate))|].
    apply (setattrs_getattr_other p values obj "id"); [|exact Hset].
    intros Hin.
    destruct (prepare_values_keys _ _ _ _ Hvalues Hin)
      as [E | [[E _] | [Hitems _]]]; try discriminate E.
    apply dict_get_None_keys in Hget. contradiction. }
  destruct (flush_stores _ _ _ _ _ _ Hflush) as (pk' & Hpk' & Hproducts & _).
  destruct (flush_tables _ _ _ _ _ _ Hflush) as [Hbrands Hcats].
  assert (pk' = id) as -> by congruence.
  rewrite insert_delete_eq in Hproducts.
  repeat split; try assumption.
  intros k Hk. rewrite Hproducts. apply lookup_insert_ne. congruence.
Qed.

Lemma update_touches_one_row_witness :
  exists db' p',
    Product.update true stocked 1 (PDict [("rating", PInt 5)]) = (db', Ok (Some p'))
    /\ Product.id p' = PInt 1
    /\ Product.products db' = <[1%Z := p']> (Product.products stocked).
Proof.
  eexists _, _. split; [reflexivity|].
  destruct (update_touches_one_row true stocked 1 [("rating", PInt 5)] hammer
              _ _ eq_refl eq_refl eq_refl eq_refl)
    as (Hid & Hproducts & _).
  split; [exact Hid | exact Hproducts].
Defined.

(** ** The statuses a view answers with *)

(** X20: on a body that parses [POST /products] answers 201 or 410 and
    [PUT /products/{id}] 200 or 410, never 404; on a body that does not
    parse both answer 400; [GET /products/{id}] answers 200, 404 or 410;
    [DELETE /products/{id}] answers 204, or 410 when the engine cannot
    bind the id; and [GET /products] answers 200 unless it fails
    unhandled. *)
Theorem statuses_of_the_views (foreign_keys : bool)
    (autoincrement : gmap Z Product.t -> Z) (db : Product.Db) (r : request) :
  let status := Endpoints.status_code (snd (handle foreign_keys autoincrement db r)) in
  match r with
  | GET_products => status = 200%Z \/ status = 500%Z
  | POST_products _ _ => status = 201%Z \/ status = 410%Z
  | PUT_product _ _ => status = 200%Z \/ status = 410%Z
  | GET_product _ => status = 200%Z \/ status = 404%Z \/ status = 410%Z
  | DELETE_product id =>
      status = 204%Z \/ (status = 410%Z /\ Product.binds db id = false)
  | POST_malformed | PUT_malformed _ => status = 400%Z
  end.
Proof.
  destruct r as [|utcnow payload|id payload|id|id| |id]; simpl;
    [| | | | |reflexivity|reflexivity].
  - unfold Endpoints.get_products.
    destruct (Endpoints.serialized_all _ _); simpl; auto.
  - unfold Endpoints.create_product.
    destruct (Product.create _ _ _ _ _) as [db' [p|e]]; simpl; [|auto].
    destruct (Product.serialized db' p); simpl; auto.
  - pose proof (update_not_NoResultFound foreign_keys db id payload) as Hnot.
    unfold Endpoints.update_product.
    destruct (Product.update _ _ _ _) as [db' [[p|]|e]]; simpl; [|auto|].
    + unfold Product.serialized. destruct (Product.brand db' p); simpl; auto.
    + destruct e; simpl; auto. destruct (Hnot db'). reflexivity.
  - unfold Endpoints.get_product, Product.retrieve, Product.get.
    destruct (Product.products db !! id) as [p|]; simpl;
      [|destruct (Product.binds db id); simpl; auto].
    unfold Product.serialized. destruct (Product.brand db p); simpl; auto.
  - unfold Endpoints.delete_product, Product.delete, Product.get.
    destruct (Product.products db !! id); simpl; [auto|].
    destruct (Product.binds db id); simpl; auto.
Qed.

(** ** The categories of a product *)















(** ** Serialized forms *)

Lemma Brand_serialized_inj b b' :
  Brand.serialized b = Brand.serialized b' -> b = b'.
Proof. destruct b, b'. unfold Brand.serialized. simpl. congruence. Qed.

Lemma Category_serialized_inj c c' :
  Category.serialized c = Category.serialized c' -> c = c'.
Proof. destruct c, c'. unfold Category.serialized. simpl. congruence. Qed.

Lemma map_Category_serialized_inj cs cs' :
  map Category.serialized cs = map Category.serialized cs' -> cs = cs'.
Proof.
  revert cs'. induction cs as [|c cs IH]; intros [|c' cs']; cbn [map];
    try discriminate; [reflexivity|].
  intros H.
  assert (Hc : Category.serialized c = Category.serialized c') by congruence.
  assert (Hcs : map Category.serialized cs = map Category.serialized cs')
    by congruence.
  f_equal; [exact (Category_serialized_inj _ _ Hc) | auto].
Qed.

Lemma brand_Some db p b :
  Product.brand db p = Some b -> Product.brand_id p = PInt (Brand.id b).
Proof.
  unfold Product.brand. destruct (Product.brand_id p); try discriminate.
  intros H. apply find_some in H as [_ H]. apply Z.eqb_eq in H. congruence.
Qed.

(** X22: the serialized form loses nothing: it has the ten fields of a
    product, its [brand] field is the serialized Brand of the product's
    [brand_id], and two products with the same serialized form are the
    same product. *)
Theorem serialized_determines_product (db : Product.Db) (p : Product.t)
    (body : pyval) :
  Product.serialized db p = Ok body ->
  (exists b,
     Product.brand_id p = PInt (Brand.id b)
     /\ In b (Product.brands db)
     /\ field "brand" body = Some (Brand.serialized b))
  /\ field "id" body = Some (Product.id p)
  /\ field "name" body = Some (Product.name p)
  /\ field "rating" body = Some (Product.rating p)
  /\ field "featured" body = Some (Product.featured p)
  /\ field "items_in_stock" body = Some (Product.items_in_stock p)
  /\ field "receipt_date" body = Some (Product.receipt_date p)
  /\ field "expiration_date" body = Some (Product.expiration_date p)
  /\ field "created_at" body = Some (Product.created_at p)
  /\ field "categories" body
     = Some (PList (map Category.serialized (Product.categories p)))
  /\ (forall p', Product.serialized db p' = Ok body -> p' = p).
Proof.
  unfold Product.serialized.
  destruct (Product.brand db p) as [b|] eqn:Hb; [|discriminate].
  intros [= <-]. split.
  { exists b. split; [exact (brand_Some _ _ _ Hb)|]. split; [|reflexivity].
    unfold Product.brand in Hb. destruct (Product.brand_id p); try discriminate.
    exact (proj1 (find_some _ _ Hb)). }
  repeat (split; [reflexivity|]).
  intros p'. destruct (Product.brand db p') as [b'|] eqn:Hb'; [|discriminate].
  intros H.
  assert (Hbrand : Brand.serialized b' = Brand.serialized b) by congruence.
  assert (Hcats : map Category.serialized (Product.categories p')
                  = map Category.serialized (Product.categories p))
    by congruence.
  apply Brand_serialized_inj in Hbrand. subst b'.
  apply map_Category_serialized_inj in Hcats.
  pose proof (brand_Some _ _ _ Hb) as Hbid.
  pose proof (brand_Some _ _ _ Hb') as Hbid'.
  assert (Hid : Product.id p' = Product.id p) by congruence.
  assert (Hname : Product.name p' = Product.name p) by congruence.
  assert (Hrating : Product.rating p' = Product.rating p) by congruence.
  assert (Hfeatured : Product.featured p' = Product.featured p) by congruence.
  assert (Hitems : Product.items_in_stock p' = Product.items_in_stock p)
    by congruence.
  assert (Hreceipt : Product.receipt_date p' = Product.receipt_date p)
    by congruence.
  assert (Hexp : Product.expiration_date p' = Product.expiration_date p)
    by congruence.
  assert (Hcreated : Product.created_at p' = Product.created_at p) by congruence.
  clear H Hb Hb'. destruct p, p'; simpl in *. congruence.
Qed.

Lemma serialized_determines_product_witness :
  exists body,
    Product.serialized stocked hammer = Ok body
    /\ field "name" body = Some (PStr "hammer")
    /\ field "brand" body = Some (Brand.serialized (Brand.mk 1 "Acme" "US")).
Proof.
  eexists. split; [reflexivity|].
  destruct (serialized_determines_product stocked hammer _ eq_refl)
    as (_ & _ & Hname & _).
  split; [exact Hname | reflexivity].
Defined.
